(** * InstapaperGDocs: the reorganize and download tools

    A shallow embedding of [instapaper-gdocs.py] (reorganize mode) and
    [instapaper-gdoc-download.py] (download mode).

    A Python [str] is the list of its Unicode code points, so that
    slicing counts and [<] compares what Python counts and compares; the
    few [str] methods the two scripts use ([split], [in], slicing, [<])
    are written out below.
    JSON objects of the two remote services are records whose fields have
    the type the service documents and may be absent, which is what the
    scripts' [.get] calls allow for.  The remote services, the console and
    the local disk are an explicit world that every call threads. *)

From Stdlib Require Import List String Ascii Bool Arith NArith ZArith Lia.
From Stdlib Require Import Permutation Sorted DecimalString.
Import ListNotations.
Open Scope string_scope.
Open Scope list_scope.

(* [length] is the list one throughout; [String] has its own. *)
Abbreviation length := Datatypes.length.

(** ** Python strings *)

(** A character is its Unicode code point. *)
Definition code_point : Type := N.

Definition str : Type := list code_point.

(** The literals of the two scripts are ASCII: one code point per byte. *)
Definition literal (s : string) : list N :=
  map N_of_ascii (list_ascii_of_string s).

Coercion literal : string >-> list.
Coercion N_of_ascii : ascii >-> N.

Module PyStr.

(** [s.startswith(p)] *)
Fixpoint startswith (p s : str) : bool :=
  match p, s with
  | [], _ => true
  | _ :: _, [] => false
  | a :: p', b :: s' => N.eqb a b && startswith p' s'
  end.

(** [s.find(sub)], with [None] for Python's -1 *)
Fixpoint find (sub s : str) : option nat :=
  if startswith sub s then Some 0
  else match s with
       | [] => None
       | _ :: s' => option_map S (find sub s')
       end.

(** [sub in s] *)
Definition contains (sub s : str) : bool :=
  match find sub s with Some _ => true | None => false end.

(** [s[:n]] and [s[n:]] for a non-negative [n] *)
Definition take (n : nat) (s : str) : str := firstn n s.
Definition drop (n : nat) (s : str) : str := skipn n s.

(** [s.split(sep)] for a non-empty [sep]: cut at the leftmost occurrence,
    go on after it.  Every cut consumes at least one character, so
    [length s] rounds are enough (see [split_fuel_enough]). *)
Fixpoint split_fuel (fuel : nat) (sep s : str) : list str :=
  match fuel with
  | O => [s]
  | S fuel' =>
      match find sep s with
      | None => [s]
      | Some i => take i s :: split_fuel fuel' sep (drop (i + length sep) s)
      end
  end.

Definition split (sep s : str) : list str := split_fuel (length s) sep s.

(** [sep.join(pieces)] *)
Fixpoint join (sep : str) (pieces : list str) : str :=
  match pieces with
  | [] => []
  | [p] => p
  | p :: ps => p ++ sep ++ join sep ps
  end.

(** [s < t]: lexicographic on code points *)
Fixpoint lt (s t : str) : bool :=
  match s, t with
  | _, [] => false
  | [], _ :: _ => true
  | a :: s', b :: t' =>
      (a <? b)%N || ((a =? b)%N && lt s' t')
  end.

(** [s <= t] *)
Definition le (s t : str) : bool := negb (lt t s).

Definition eqb (s t : str) : bool :=
  if list_eq_dec N.eq_dec s t then true else false.

End PyStr.

(** What it means for [sub] to occur in [s], independently of [find]. *)
Definition occurs_at (sub s : str) (i : nat) : Prop :=
  exists a b, s = a ++ sub ++ b /\ length a = i.

Definition Substring (sub s : str) : Prop :=
  exists a b, s = a ++ sub ++ b.

(** ** Exceptions and results *)

Inductive exn : Type :=
| IndexError                 (* list index out of range *)
| KeyError (key : str)       (* subscript of a dict without that key *)
| TypeError                  (* subscript of [None] *)
| ValueError (element len : nat)
    (* [dict] given an element that is not a pair *)
| Exception (msg : str)      (* [raise Exception(msg)], and what the clients raise *)
| KeyboardInterrupt.
    (* not an [Exception]: [except Exception] lets it through *)

(** [str(n)] *)
Definition decimal (n : nat) : str :=
  literal (DecimalString.NilZero.string_of_uint (Nat.to_uint n)).

(** [str(e)], as the diagnostics print it *)
Definition exn_str (e : exn) : str :=
  match e with
  | IndexError => "list index out of range"
  | KeyError key => "'" ++ key ++ "'"
  | TypeError => "'NoneType' object is not subscriptable"
  | ValueError element len =>
      "dictionary update sequence element #" ++ decimal element
      ++ " has length " ++ decimal len ++ "; 2 is required"
  | Exception msg => msg
  | KeyboardInterrupt => ""
  end.

(** What [except Exception] catches *)
Definition is_exception (e : exn) : bool :=
  match e with
  | KeyboardInterrupt => false
  | _ => true
  end.

Inductive result (A : Type) : Type :=
| Ok (a : A)
| Raise (e : exn).
Arguments Ok {A} a.
Arguments Raise {A} e.

(** ** Identifier Extractor

    [doc_url.split('/d/')[1].split('/')[0]] *)
Definition index {A} (l : list A) (i : nat) : result A :=
  match nth_error l i with
  | Some x => Ok x
  | None => Raise IndexError
  end.

Definition extract_doc_id (doc_url : str) : result str :=
  match index (PyStr.split "/d/" doc_url) 1 with
  | Raise e => Raise e
  | Ok piece => index (PyStr.split "/" piece) 0
  end.

(** ** Data model *)

(** A JSON object of the bookmark service: an entry of the folder listing
    or of the bookmark listing.  Every key may be missing. *)
Record item : Type := {
  item_type : option str;
  item_title : option str;
  item_url : option str;
  item_folder_id : option Z
}.

(** An HTTP response of the bookmark service, with its parsed body. *)
Record response : Type := {
  status_code : Z;
  text : str;
  json : list item
}.

(** The file resource of the document service, restricted to
    [fields="name, owners(displayName), modifiedTime"]. *)
Record user : Type := { displayName : option str }.

Record file_metadata : Type := {
  name : option str;
  owners : option (list user);
  modifiedTime : option str
}.

(** The dict [fetch_google_doc_info] returns; [title] is [None] when the
    remote [name] is missing. *)
Record doc_info : Type := {
  title : option str;
  owner : str;
  modified_date : str
}.

(** The same dict once [main] has stored the bookmark's address under
    ["url"]. *)
Record aggregated_doc : Type := {
  doc : doc_info;
  url : str
}.

(** [d.get(key)] and [d.get(key, default)] on a field that may be missing *)
Definition get_or {A} (field : option A) (default : A) : A :=
  match field with Some v => v | None => default end.

(** [d[key]] *)
Definition subscript {A} (field : option A) (key : str) : result A :=
  match field with Some v => Ok v | None => Raise (KeyError key) end.

(** [d.get(key) == s] *)
Definition get_eq (field : option str) (s : str) : bool :=
  match field with Some v => PyStr.eqb v s | None => false end.

(** [not folder_id]: [None] and [0] are false values *)
Definition falsy (folder_id : option Z) : bool :=
  match folder_id with
  | None => true
  | Some z => (z =? 0)%Z
  end.

(** The truth value of an argument that is a string or [None]: [None]
    and the empty string are false *)
Definition truthy (v : option str) : bool :=
  match v with
  | None => false
  | Some s => negb (Nat.eqb (length s) 0)
  end.

(** How an f-string renders a value that may be [None] *)
Definition fmt (v : option str) : str := get_or v ("None" : str).

(** ** The world outside the process

    [R] is the state of everything remote or local the scripts talk to;
    each operation answers from it and may change it.  Nothing is assumed
    about the answers. *)

Inductive request : Type :=
| AccessToken (x_auth_username x_auth_password x_auth_mode : str)
| FoldersList
| BookmarksList (folder_id limit : Z)
| FoldersAdd (title : str)
| BookmarksAdd (url title description content : str) (folder_id : Z)
| FilesGet (fileId fields : str)
| FilesExportMedia (fileId mimeType : str).

Inductive event : Type :=
| Print (line : str)
| Sent (r : request)
| PathExists (path : str)     (* [os.path.exists(path)] *)
| OpenR (path : str)          (* a file read *)
| OpenW (path : str)          (* [open(path, 'w')] *)
| OpenWb (path : str)         (* [open(path, "wb")] *)
| RunLocalServer              (* the consent flow in the browser *)
| Sleep (seconds : nat).

(** What [config.json] holds; the module reads it when it is loaded,
    before [main] runs. *)
Record config : Type := {
  INSTAPAPER_CONSUMER_KEY : str;
  INSTAPAPER_CONSUMER_SECRET : str;
  INSTAPAPER_USERNAME : str;
  INSTAPAPER_PASSWORD : str;
  GOOGLE_CREDENTIALS_PATH : str
}.

Record services (R : Type) : Type := {
  settings : config;
  (** [oauth.post] on [oauth/access_token] *)
  access_token_post : R -> response * R;
  (** [os.path.exists(path)] *)
  path_exists : str -> R -> bool * R;
  (** [Credentials.from_authorized_user_file(path, scopes)] *)
  from_authorized_user_file : str -> list str -> R -> result unit * R;
  (** [InstalledAppFlow.from_client_secrets_file(path, scopes)] *)
  from_client_secrets_file : str -> list str -> R -> result unit * R;
  (** [flow.run_local_server(port=0)], answering [creds.to_json()] *)
  run_local_server : R -> result str * R;
  (** [open(path, 'w')] and the [write] in it *)
  write_text : str -> str -> R -> result unit * R;
  (** [session.post] on the four endpoints *)
  folders_list : R -> response * R;
  bookmarks_list : Z -> Z -> R -> response * R;
  folders_add : str -> R -> response * R;
  bookmarks_add : str -> str -> str -> str -> Z -> R -> response * R;
  (** [build('drive', 'v3', credentials=creds)] *)
  build : R -> result unit * R;
  (** [files().get(fileId, fields).execute()] *)
  files_get : str -> str -> R -> result file_metadata * R;
  (** [open(path, "wb")] *)
  open_wb : str -> R -> result unit * R;
  (** [downloader.next_chunk()] of the download of a file in a format,
      by the number of chunks the downloader has received so far: the
      percentage [int(status.progress() * 100)] and [done], or the
      exception raised *)
  next_chunk : str -> str -> nat -> R -> result (Z * bool) * R;
  (** [uuid.uuid4().int] *)
  uuid4 : R -> N * R
}.
Arguments settings {R} s.
Arguments access_token_post {R} s _.
Arguments path_exists {R} s _ _.
Arguments from_authorized_user_file {R} s _ _ _.
Arguments from_client_secrets_file {R} s _ _ _.
Arguments run_local_server {R} s _.
Arguments write_text {R} s _ _ _.
Arguments folders_list {R} s _.
Arguments bookmarks_list {R} s _ _ _.
Arguments folders_add {R} s _ _.
Arguments bookmarks_add {R} s _ _ _ _ _ _.
Arguments build {R} s _.
Arguments files_get {R} s _ _ _.
Arguments open_wb {R} s _ _.
Arguments next_chunk {R} s _ _ _ _.
Arguments uuid4 {R} s _.

Record world (R : Type) : Type := {
  trace : list event;
  remote : R
}.
Arguments trace {R} w.
Arguments remote {R} w.
Arguments Build_world {R} _ _.

(** ** Computations: a result and the world after *)

Definition M (R A : Type) : Type := world R -> result A * world R.

Definition ret {R A} (a : A) : M R A := fun w => (Ok a, w).

Definition raise {R A} (e : exn) : M R A := fun w => (Raise e, w).

Definition bind {R A B} (m : M R A) (k : A -> M R B) : M R B :=
  fun w =>
    match m w with
    | (Ok a, w') => k a w'
    | (Raise e, w') => (Raise e, w')
    end.

(** [try: m  except Exception as e: handler e] *)
Definition try_except {R A} (m : M R A) (handler : exn -> M R A) : M R A :=
  fun w =>
    match m w with
    | (Ok a, w') => (Ok a, w')
    | (Raise e, w') => if is_exception e then handler e w' else (Raise e, w')
    end.

Definition lift {R A} (r : result A) : M R A := fun w => (r, w).

Definition emit {R} (e : event) : M R unit :=
  fun w => (Ok tt, {| trace := trace w ++ [e]; remote := remote w |}).

(** A call that answers with a value; [log] is what it leaves in the trace *)
Definition ask {R A} (log : list event) (op : R -> A * R) : M R A :=
  fun w =>
    let (a, s) := op (remote w) in
    (Ok a, {| trace := trace w ++ log; remote := s |}).

(** A call that answers with a value or raises *)
Definition attempt {R A} (log : list event) (op : R -> result A * R) : M R A :=
  bind (ask log op) lift.

Declare Scope monad_scope.
Delimit Scope monad_scope with monad.
Notation "x <- m ;; k" := (bind m (fun x => k))
  (at level 61, m at next level, right associativity) : monad_scope.
Notation "m ;; k" := (bind m (fun _ => k))
  (at level 61, right associativity) : monad_scope.
Open Scope monad_scope.

Definition print {R} (line : str) : M R unit := emit (Print line).

(** [for x in l: body x] *)
Fixpoint for_each {R A} (l : list A) (body : A -> M R unit) : M R unit :=
  match l with
  | [] => ret tt
  | x :: l' => body x ;; for_each l' body
  end.

(** ** [get_instapaper_access_token]: what is made of the response

    [dict(item.split("=") for item in response.text.split("&"))], then the
    two subscripts.  [dict] takes the elements in order, wants each to
    have length 2 and lets a later key replace an earlier one. *)
Inductive token_error : Type :=
| TokenValueError (element len : nat)
    (* dictionary update sequence element #element has length len; 2 is required *)
| TokenKeyError (key : str)
| TokenException (msg : str).

Fixpoint dict_of (elements : list (list str)) (position : nat)
  : token_error + list (str * str) :=
  match elements with
  | [] => inr []
  | [k; v] :: rest =>
      match dict_of rest (S position) with
      | inr d => inr ((k, v) :: d)
      | inl e => inl e
      end
  | element :: _ => inl (TokenValueError position (length element))
  end.

(** [d[key]] on the pairs a dict was built from: the last one counts. *)
Fixpoint dict_get (d : list (str * str)) (key : str) : option str :=
  match d with
  | [] => None
  | (k, v) :: rest =>
      match dict_get rest key with
      | Some later => Some later
      | None => if PyStr.eqb k key then Some v else None
      end
  end.

Definition token_elements (response_text : str) : list (list str) :=
  map (PyStr.split "=") (PyStr.split "&" response_text).

Definition access_token_of (resp : response) : token_error + (str * str) :=
  if (status_code resp =? 200)%Z then
    match dict_of (token_elements (text resp)) 0 with
    | inl e => inl e
    | inr token_data =>
        match dict_get token_data "oauth_token" with
        | None => inl (TokenKeyError "oauth_token")
        | Some oauth_token =>
            match dict_get token_data "oauth_token_secret" with
            | None => inl (TokenKeyError "oauth_token_secret")
            | Some oauth_token_secret => inr (oauth_token, oauth_token_secret)
            end
        end
    end
  else inl (TokenException ("Failed to get access token: " ++ text resp)).

(** The form encoding of pairs: [k=v] joined by [&] *)
Definition form_encode (pairs : list (str * str)) : str :=
  PyStr.join "&" (map (fun kv => fst kv ++ "=" ++ snd kv) pairs).

(** A key or value the encoding can carry: no [&] and no [=] in it *)
Definition plain (s : str) : Prop :=
  ~ In ("&"%char : code_point) s /\ ~ In ("="%char : code_point) s.

(** ** The functions both scripts share *)

Section Shared.

Variable R : Type.
Variable svc : services R.

(** An error of the token parse as the exception it is *)
Definition token_result {A} (r : token_error + A) : result A :=
  match r with
  | inr a => Ok a
  | inl (TokenValueError element len) => Raise (ValueError element len)
  | inl (TokenKeyError key) => Raise (KeyError key)
  | inl (TokenException msg) => Raise (Exception msg)
  end.

(** [get_instapaper_access_token()] *)
Definition get_instapaper_access_token : M R (str * str) :=
  response <-
    ask [Sent (AccessToken (INSTAPAPER_USERNAME (settings svc))
                           (INSTAPAPER_PASSWORD (settings svc)) "client_auth")]
        (access_token_post svc) ;;
  lift (token_result (access_token_of response)).

(** The session [authenticate_instapaper] builds; the later posts are
    signed with it, and the services answer for that. *)
Record session : Type := {
  client_key : str;
  client_secret : str;
  resource_owner_key : str;
  resource_owner_secret : str
}.

Definition authenticate_instapaper (oauth_token oauth_token_secret : str) : session :=
  {| client_key := INSTAPAPER_CONSUMER_KEY (settings svc);
     client_secret := INSTAPAPER_CONSUMER_SECRET (settings svc);
     resource_owner_key := oauth_token;
     resource_owner_secret := oauth_token_secret |}.

Definition GOOGLE_AUTHORIZED_USER_PATH : str := "google-authorized-user.json".

(** [generate_google_authorized_user()] *)
Definition generate_google_authorized_user (scopes : list str) : M R unit :=
  attempt [OpenR (GOOGLE_CREDENTIALS_PATH (settings svc))]
          (from_client_secrets_file svc (GOOGLE_CREDENTIALS_PATH (settings svc)) scopes) ;;
  creds <- attempt [RunLocalServer] (run_local_server svc) ;;
  attempt [OpenW GOOGLE_AUTHORIZED_USER_PATH]
          (write_text svc GOOGLE_AUTHORIZED_USER_PATH creds).

(** Steps 1 and 2 of either [main] *)
Definition sign_in (scopes : list str) : M R session :=
  tokens <- get_instapaper_access_token ;;
  let session := authenticate_instapaper (fst tokens) (snd tokens) in
  found <- ask [PathExists GOOGLE_AUTHORIZED_USER_PATH]
               (path_exists svc GOOGLE_AUTHORIZED_USER_PATH) ;;
  (if found : bool then
     attempt [OpenR GOOGLE_AUTHORIZED_USER_PATH]
             (from_authorized_user_file svc GOOGLE_AUTHORIZED_USER_PATH scopes)
   else generate_google_authorized_user scopes) ;;
  ret session.

Definition metadata_fields : str := "name, owners(displayName), modifiedTime".

(** [fetch_google_doc_info(doc_url, creds)]: the identifier and the
    service are obtained before the [try]. *)
Definition fetch_google_doc_info (doc_url : str) : M R (option doc_info) :=
  doc_id <- lift (extract_doc_id doc_url) ;;
  attempt [] (build svc) ;;
  try_except
    (file_metadata <-
       attempt [Sent (FilesGet doc_id metadata_fields)]
               (files_get svc doc_id metadata_fields) ;;
     let name := name file_metadata in
     first_owner <-
       lift (index (get_or (owners file_metadata) [ {| displayName := None |} ]) 0) ;;
     let owner := get_or (displayName first_owner) ("Unknown" : str) in
     let modified_time := get_or (modifiedTime file_metadata) ("Unknown" : str) in
     ret (Some {| title := name; owner := owner; modified_date := modified_time |}))
    (fun e =>
       print ("Error retrieving metadata: " ++ exn_str e) ;;
       ret None).

(** The loop of [get_instapaper_folder_id]: the first entry that passes
    the test ends it. *)
Fixpoint scan_folders (folders : list item) (folder_name : str) : option Z :=
  match folders with
  | [] => None
  | folder :: rest =>
      if get_eq (item_type folder) "folder"
         && get_eq (item_title folder) folder_name
      then item_folder_id folder
      else scan_folders rest folder_name
  end.

Definition get_instapaper_folder_id (folder_name : str) : M R (option Z) :=
  response <- ask [Sent FoldersList] (folders_list svc) ;;
  if (status_code response =? 200)%Z then
    ret (scan_folders (json response) folder_name)
  else
    raise (Exception ("Failed to fetch folders: " ++ text response)).

(** The comprehension of [get_instapaper_bookmarks] *)
Definition is_google_doc_bookmark (it : item) : bool :=
  get_eq (item_type it) "bookmark"
  && PyStr.contains "docs.google.com/document" (get_or (item_url it) ("" : str)).

Definition google_doc_bookmarks (response_data : list item) : list item :=
  filter is_google_doc_bookmark response_data.

Definition get_instapaper_bookmarks (folder_name : str) : M R (list item) :=
  folder_id <- get_instapaper_folder_id folder_name ;;
  if falsy folder_id then
    raise (Exception ("No such folder named " ++ folder_name))
  else
    let folder_id := get_or folder_id 0%Z in
    response <- ask [Sent (BookmarksList folder_id 500)]
                    (bookmarks_list svc folder_id 500) ;;
    if (status_code response =? 200)%Z then
      ret (google_doc_bookmarks (json response))
    else
      raise (Exception ("Failed to fetch bookmarks: " ++ text response)).

End Shared.

(** ** Reorganize mode: [instapaper-gdocs.py] *)

(** [str(uuid.UUID(int=n))]: 32 hexadecimal digits, grouped 8-4-4-4-12 *)
Definition hex_digit (d : N) : code_point :=
  nth (N.to_nat d) ("0123456789abcdef" : str) ("0"%char : code_point).

Fixpoint hex_digits (width : nat) (n : N) : str :=
  match width with
  | O => []
  | S width' => hex_digits width' (n / 16)%N ++ [hex_digit (n mod 16)%N]
  end.

Definition uuid_str (n : N) : str :=
  let h := hex_digits 32 n in
  PyStr.take 8 h ++ "-" ++ PyStr.take 4 (PyStr.drop 8 h) ++ "-"
  ++ PyStr.take 4 (PyStr.drop 12 h) ++ "-" ++ PyStr.take 4 (PyStr.drop 16 h)
  ++ "-" ++ PyStr.drop 20 h.

(** [docs_info.sort(key=lambda x: x['modified_date'])]: [list.sort] is
    stable and compares keys with [<] only.  Each entry goes in front of
    the entries met after it, and moves right past exactly those whose key
    is smaller than its own. *)
Section Sort.

Variable A : Type.
Variable key : A -> str.

Fixpoint insert (x : A) (sorted : list A) : list A :=
  match sorted with
  | [] => [x]
  | y :: rest =>
      if PyStr.lt (key y) (key x) then y :: insert x rest
      else x :: y :: rest
  end.

Fixpoint sort (l : list A) : list A :=
  match l with
  | [] => []
  | x :: rest => insert x (sort rest)
  end.

End Sort.
Arguments insert {A} key x sorted.
Arguments sort {A} key l.

Definition sort_key (d : aggregated_doc) : str := modified_date (doc d).

(** The two strings [main] builds for an entry *)
Definition bookmark_title (d : aggregated_doc) : str :=
  fmt (title (doc d)) ++ " - " ++ owner (doc d) ++ " - "
  ++ PyStr.take 10 (modified_date (doc d)).

Definition newline : str := [10%N].

Definition bookmark_description (d : aggregated_doc) : str :=
  fmt (title (doc d)) ++ " - " ++ owner (doc d) ++ "<br>" ++ newline
  ++ PyStr.take 10 (modified_date (doc d)) ++ "<br>" ++ newline
  ++ "<a href=" ++ [34%N] ++ url d ++ [34%N] ++ ">"
  ++ url d ++ "</a><br>".

(** The scopes of [instapaper-gdocs.py] *)
Definition GOOGLE_API_SCOPES : list str :=
  [("https://www.googleapis.com/auth/documents.readonly" : str);
   ("https://www.googleapis.com/auth/drive.metadata.readonly" : str)].

Section Reorganize.

Variable R : Type.
Variable svc : services R.

Definition create_instapaper_folder (folder_name : str) : M R Z :=
  response <- ask [Sent (FoldersAdd folder_name)] (folders_add svc folder_name) ;;
  if (status_code response =? 200)%Z then
    first <- lift (index (json response) 0) ;;
    lift (subscript (item_folder_id first) "folder_id")
  else
    raise (Exception ("Failed to create folder: " ++ text response)).

Definition save_instapaper_bookmark
           (folder_id : Z) (url title description : str) : M R unit :=
  response <- ask [Sent (BookmarksAdd url title description description folder_id)]
                  (bookmarks_add svc url title description description folder_id) ;;
  if negb (status_code response =? 200)%Z then
    raise (Exception ("Failed to save bookmark: " ++ text response))
  else
    ret tt.

Definition generate_unique_folder_name (base_name : str) : M R str :=
  n <- ask [] (uuid4 svc) ;;
  let unique_suffix := PyStr.take 4 (uuid_str n) in
  ret (base_name ++ "-" ++ unique_suffix).

(** [args.target or generate_unique_folder_name(folder_name)]: the left
    operand is the value when it is true, and the right operand runs only
    when it is not. *)
Definition choose_new_folder_name (folder_name : str) (target : option str) : M R str :=
  if truthy target then ret (get_or target [])
  else generate_unique_folder_name folder_name.

(** Step 4 of [main]; [docs_info] is the list built so far. *)
Fixpoint gather (bookmarks : list item) (docs_info : list aggregated_doc)
  : M R (list aggregated_doc) :=
  match bookmarks with
  | [] => ret docs_info
  | bookmark :: rest =>
      bookmark_url <- lift (subscript (item_url bookmark) "url") ;;
      doc_info <- fetch_google_doc_info R svc bookmark_url ;;
      bookmark_title <- lift (subscript (item_title bookmark) "title") ;;
      d <- lift (match doc_info with
                 | Some d => Ok d
                 | None => Raise TypeError
                 end) ;;
      print ("Got " ++ bookmark_title ++ " - " ++ owner d ++ " "
             ++ PyStr.take 10 (modified_date d)) ;;
      gather rest (docs_info ++ [ {| doc := d; url := bookmark_url |} ])
  end.

(** Step 7 of [main], one entry *)
Definition republish (new_folder_id : Z) (d : aggregated_doc) : M R unit :=
  let title_ := bookmark_title d in
  let description := bookmark_description d in
  print ("Adding " ++ PyStr.take 10 (modified_date (doc d)) ++ " - "
         ++ fmt (title (doc d))) ;;
  save_instapaper_bookmark new_folder_id (url d) title_ description ;;
  emit (Sleep 1).

(** Steps 3 to 7 of [main] *)
Definition reorganize (folder_name new_folder_name : str) : M R unit :=
  bookmarks <- get_instapaper_bookmarks R svc folder_name ;;
  docs_info <- gather bookmarks [] ;;
  let docs_info := sort sort_key docs_info in
  new_folder_id <- get_instapaper_folder_id R svc new_folder_name ;;
  new_folder_id <-
    (if falsy new_folder_id then create_instapaper_folder new_folder_name
     else ret (get_or new_folder_id 0%Z)) ;;
  for_each docs_info (republish new_folder_id).

(** [main], from the parsed arguments: [target] is [None] without
    [--target]. *)
Definition main (folder_name : str) (target : option str) : M R unit :=
  new_folder_name <- choose_new_folder_name folder_name target ;;
  print ("Scanning folder: " ++ folder_name) ;;
  print ("New folder name: " ++ new_folder_name) ;;
  sign_in R svc GOOGLE_API_SCOPES ;;
  reorganize folder_name new_folder_name.

End Reorganize.

(** ** Download mode: [instapaper-gdoc-download.py] *)

(** [os.path.join(a, b)] on a POSIX system *)
Definition endswith_slash (a : str) : bool :=
  match rev a with
  | c :: _ => N.eqb c ("/"%char : code_point)
  | [] => false
  end.

Definition path_join (a b : str) : str :=
  if PyStr.startswith "/" b then b
  else if (match a with [] => true | _ => false end) || endswith_slash a
       then a ++ b
       else a ++ "/" ++ b.

Definition docx_mime_type : str :=
  "application/vnd.openxmlformats-officedocument.wordprocessingml.document".

(** The scopes of [instapaper-gdoc-download.py] *)
Definition DOWNLOAD_API_SCOPES : list str :=
  [("https://www.googleapis.com/auth/documents.readonly" : str);
   ("https://www.googleapis.com/auth/drive.metadata.readonly" : str);
   ("https://www.googleapis.com/auth/drive.readonly" : str)].

Section Download.

Variable R : Type.
Variable svc : services R.

(** How many chunks of one download the run is followed for.  The loop
    of [download_gdoc] goes on until the service says [done], which it
    need not; a download that has not ended by then is left there, as an
    interrupt from the keyboard would leave it. *)
Variable fuel : nat.

Definition progress_line (percent : Z) : str :=
  "Download progress: "
  ++ literal
       (DecimalString.NilZero.string_of_int (Z.to_int percent))
  ++ "%".

(** [while not done: status, done = downloader.next_chunk(); print(...)]:
    every turn asks for a chunk and then prints how far the download is. *)
Fixpoint next_chunks (turns : nat) (doc_id mime_type : str) (received : nat)
  : M R unit :=
  match turns with
  | O => raise KeyboardInterrupt
  | S turns' =>
      chunk <- attempt [Sent (FilesExportMedia doc_id mime_type)]
                       (next_chunk svc doc_id mime_type received) ;;
      print (progress_line (fst chunk)) ;;
      if snd chunk : bool then ret tt
      else next_chunks turns' doc_id mime_type (S received)
  end.

(** [download_gdoc(doc_url, title, save_folder, creds)]: the whole body
    is inside the [try]. *)
Definition download_gdoc (doc_url title save_folder : str) : M R (option str) :=
  try_except
    (doc_id <- lift (extract_doc_id doc_url) ;;
     attempt [] (build svc) ;;
     let mime_type := docx_mime_type in
     let output_file_path := path_join save_folder (title ++ ".docx") in
     attempt [OpenWb output_file_path] (open_wb svc output_file_path) ;;
     next_chunks fuel doc_id mime_type 0 ;;
     print ("Google Doc downloaded successfully as '" ++ output_file_path ++ "'") ;;
     ret (Some output_file_path))
    (fun e =>
       print ("Error downloading Google Doc: " ++ exn_str e) ;;
       ret None).

(** Step 4 of [main] *)
Definition download_bookmark (save_folder : str) (bookmark : item) : M R unit :=
  bookmark_title <- lift (subscript (item_title bookmark) "title") ;;
  print ("Got " ++ bookmark_title) ;;
  bookmark_url <- lift (subscript (item_url bookmark) "url") ;;
  download_gdoc bookmark_url bookmark_title save_folder ;;
  ret tt.

Definition download_main (folder save_folder : str) : M R unit :=
  print ("Scanning folder: " ++ folder ++ ", downloading docs to " ++ save_folder) ;;
  sign_in R svc DOWNLOAD_API_SCOPES ;;
  bookmarks <- get_instapaper_bookmarks R svc folder ;;
  for_each bookmarks (download_bookmark save_folder).

End Download.

(** * The vocabulary of the properties *)

(** ** Strings and the extractor *)

(** The piece of [s] in front of the first [sep], or all of [s]: the head
    of [s.split(sep)]. *)
Definition before (sep s : str) : str :=
  match PyStr.find sep s with
  | Some j => PyStr.take j s
  | None => s
  end.

(** The first ['/d/'] of a URL starts at [i]: none starts earlier. *)
Definition first_occurrence (sub s : str) (i : nat) : Prop :=
  occurs_at sub s i /\ forall j, j < i -> ~ occurs_at sub s j.

(** ** Listings *)

(** What the listing filter is meant to let through *)
Definition qualifies (it : item) : Prop :=
  item_type it = Some ("bookmark" : str)
  /\ exists u, item_url it = Some u /\ Substring "docs.google.com/document" u.

(** [kept P l out]: [out] is [l] with exactly the entries satisfying [P],
    every occurrence of them, in the order of [l]. *)
Inductive kept {A : Type} (P : A -> Prop) : list A -> list A -> Prop :=
| kept_nil : kept P [] []
| kept_keep x l out : P x -> kept P l out -> kept P (x :: l) (x :: out)
| kept_drop x l out : ~ P x -> kept P l out -> kept P (x :: l) out.

(** What folder resolution looks for *)
Definition folder_named (folder_name : str) (folder : item) : Prop :=
  item_type folder = Some ("folder" : str) /\ item_title folder = Some folder_name.

(** ** Sorting *)

Definition key_le (A : Type) (key : A -> str) (a b : A) : Prop :=
  PyStr.le (key a) (key b) = true.

Definition has_key (A : Type) (key : A -> str) (k : str) (a : A) : bool :=
  PyStr.eqb (key a) k.

(** ** Metadata *)

(** The display name of the first owner, when there is one *)
Definition first_owner_name (fm : file_metadata) : option str :=
  match owners fm with
  | Some (first :: _) => displayName first
  | Some [] | None => None
  end.

(** The entry the fetcher builds from a file resource *)
Definition doc_info_of (fm : file_metadata) : doc_info :=
  {| title := name fm;
     owner := get_or (first_owner_name fm) ("Unknown" : str);
     modified_date := get_or (modifiedTime fm) ("Unknown" : str) |}.

(** The fetch got as far as the metadata request and this is the answer *)
Definition answered (R : Type) (svc : services R)
           (doc_url : str) (w : world R) (fm : file_metadata) : Prop :=
  exists doc_id r1 r2,
    extract_doc_id doc_url = Ok doc_id
    /\ build svc (remote w) = (Ok tt, r1)
    /\ files_get svc doc_id metadata_fields r1 = (Ok fm, r2).

(** ** Traces *)

(** The bookmark additions a trace holds, in the order they were sent *)
Definition bookmarks_added (tr : list event) : list request :=
  flat_map (fun e => match e with
                     | Sent (BookmarksAdd u t d c f) => [BookmarksAdd u t d c f]
                     | _ => []
                     end) tr.

(** The request [main] sends for an entry *)
Definition addition (new_folder_id : Z) (d : aggregated_doc) : request :=
  BookmarksAdd (url d) (bookmark_title d) (bookmark_description d)
               (bookmark_description d) new_folder_id.

(** A computation that sends no bookmark addition *)
Definition quiet {R A} (m : M R A) : Prop :=
  forall w, bookmarks_added (trace (snd (m w))) = bookmarks_added (trace w).

Definition error_line (e : exn) : event :=
  Print ("Error downloading Google Doc: " ++ exn_str e).

(** The world after the loop body of download mode has run on a bookmark *)
Definition after_bookmark (R : Type) (svc : services R) (fuel : nat)
           (save_folder : str) (w : world R) (bookmark : item) : world R :=
  snd (download_bookmark R svc fuel save_folder bookmark w).

(** ** A small concrete world: fixed listings, every write accepted *)

Definition ok_response (body : list item) : response :=
  {| status_code := 200; text := "OK"; json := body |}.

(** The chunks of a download, as percentages, and the exception, if
    any, that ends it early *)
Definition download : Type := (list Z * option exn)%type.

Record fixture : Type := {
  fx_token : response;
  fx_folders : list item;
  fx_bookmarks : list item;
  fx_added : response;
  fx_files : str -> result file_metadata;
  fx_chunks : str -> download;
  fx_uuid : N
}.

Definition token_granted : response :=
  {| status_code := 200;
     text := "oauth_token=t0k3n&oauth_token_secret=s3cr3t";
     json := [] |}.

(** The answer of [next_chunk] once [received] chunks of a download have
    arrived *)
Definition chunk_answer (d : download) (received : nat) : result (Z * bool) :=
  match nth_error (fst d) received, snd d with
  | Some percent, None => Ok (percent, Nat.eqb (S received) (length (fst d)))
  | Some percent, Some _ => Ok (percent, false)
  | None, Some e => Raise e
  | None, None => Ok (100%Z, true)
  end.

Definition example_config : config :=
  {| INSTAPAPER_CONSUMER_KEY := "key";
     INSTAPAPER_CONSUMER_SECRET := "secret";
     INSTAPAPER_USERNAME := "reader@example.org";
     INSTAPAPER_PASSWORD := "password";
     GOOGLE_CREDENTIALS_PATH := "credentials.json" |}.

Definition new_folder (folder_name : str) : item :=
  {| item_type := Some ("folder" : str); item_title := Some folder_name;
     item_url := None; item_folder_id := Some 77%Z |}.

Definition fixture_services (fx : fixture) : services unit :=
  {| settings := example_config;
     access_token_post := fun r => (fx_token fx, r);
     path_exists := fun _ r => (true, r);
     from_authorized_user_file := fun _ _ r => (Ok tt, r);
     from_client_secrets_file := fun _ _ r => (Ok tt, r);
     run_local_server := fun r => (Ok ("{}" : str), r);
     write_text := fun _ _ r => (Ok tt, r);
     folders_list := fun r => (ok_response (fx_folders fx), r);
     bookmarks_list := fun _ _ r => (ok_response (fx_bookmarks fx), r);
     folders_add := fun folder_name r => (ok_response [new_folder folder_name], r);
     bookmarks_add := fun _ _ _ _ _ r => (fx_added fx, r);
     build := fun r => (Ok tt, r);
     files_get := fun doc_id _ r => (fx_files fx doc_id, r);
     open_wb := fun _ r => (Ok tt, r);
     next_chunk := fun doc_id _ received r =>
       (chunk_answer (fx_chunks fx doc_id) received, r);
     uuid4 := fun r => (fx_uuid fx, r) |}.

Definition start : world unit := {| trace := []; remote := tt |}.

Definition folder_entry (folder_name : str) (id : Z) : item :=
  {| item_type := Some ("folder" : str); item_title := Some folder_name;
     item_url := None; item_folder_id := Some id |}.

Definition bookmark_entry (title_ doc_id : str) : item :=
  {| item_type := Some ("bookmark" : str); item_title := Some title_;
     item_url := Some ("https://docs.google.com/document/d/" ++ doc_id ++ "/edit");
     item_folder_id := None |}.

Definition file_entry (name_ owner_ modified : str) : result file_metadata :=
  Ok {| name := Some name_;
        owners := Some [ {| displayName := Some owner_ |} ];
        modifiedTime := Some modified |}.

(** Three documents in the folder ["Reading"]; the document service knows
    the first and the third and answers the second with an error. *)
Definition three_docs : fixture :=
  {| fx_token := token_granted;
     fx_folders := [folder_entry "Reading" 5];
     fx_bookmarks := [bookmark_entry "One" "id1"; bookmark_entry "Two" "id2";
                      bookmark_entry "Three" "id3"];
     fx_added := ok_response [];
     fx_files := fun doc_id =>
       if PyStr.eqb doc_id "id1" then file_entry "One" "Ann" "2023-05-01T10:00:00.000Z"
       else if PyStr.eqb doc_id "id3" then file_entry "Three" "Bob" "2023-01-10T09:30:00.000Z"
       else Raise (Exception "File not found");
     fx_chunks := fun doc_id =>
       if PyStr.eqb doc_id "id2" then ([], Some (Exception "File not found"))
       else ([50%Z; 100%Z], None);
     fx_uuid := 0xab120000000040008000000000000000%N |}.

(** A folder listing with a longer title, an entry of another type and
    two folders of the same name *)
Definition shelves : fixture :=
  {| fx_token := token_granted;
     fx_added := ok_response [];
     fx_folders := [folder_entry "Reading list" 1;
                    {| item_type := Some ("user" : str);
                       item_title := Some ("Reading" : str);
                       item_url := None; item_folder_id := Some 2%Z |};
                    folder_entry "Reading" 5;
                    folder_entry "Reading" 9];
     fx_bookmarks := [];
     fx_files := fun _ => Raise (Exception "File not found");
     fx_chunks := fun _ => ([], None);
     fx_uuid := 0%N |}.

(** * The rest of the two scripts *)

(** ** Reading traces *)

(** A computation that leaves no event of the kind [P] *)
Definition silent {R A} (P : event -> bool) (m : M R A) : Prop :=
  forall w, filter P (trace (snd (m w))) = filter P (trace w).

Definition is_bookmark_service_write (e : event) : bool :=
  match e with
  | Sent (FoldersAdd _) | Sent (BookmarksAdd _ _ _ _ _) => true
  | _ => false
  end.

Definition is_file_event (e : event) : bool :=
  match e with
  | OpenWb _ | Sent (FilesExportMedia _ _) => true
  | _ => false
  end.

Definition is_request (e : event) : bool :=
  match e with
  | Sent _ => true
  | _ => false
  end.

Definition is_folder_add (e : event) : bool :=
  match e with
  | Sent (FoldersAdd _) => true
  | _ => false
  end.

Definition is_files_get (e : event) : bool :=
  match e with
  | Sent (FilesGet _ _) => true
  | _ => false
  end.

(** The address a bookmark addition carries *)
Definition request_url (r : request) : str :=
  match r with
  | BookmarksAdd u _ _ _ _ => u
  | _ => []
  end.

Definition is_digit (c : code_point) : Prop :=
  (N_of_ascii "0" <= c <= N_of_ascii "9")%N.

(** The folder ["Reading"] with the two documents the document service
    knows, and a folder ["Sorted"] beside it *)
Definition two_docs : fixture :=
  {| fx_token := token_granted;
     fx_added := ok_response [];
     fx_folders := [folder_entry "Reading" 5; folder_entry "Sorted" 8];
     fx_bookmarks := [bookmark_entry "One" "id1"; bookmark_entry "Three" "id3"];
     fx_files := fx_files three_docs;
     fx_chunks := fx_chunks three_docs;
     fx_uuid := fx_uuid three_docs |}.

(** The same with the token request refused *)
Definition locked_out : services unit :=
  fixture_services
    {| fx_token := {| status_code := 401; text := "Invalid xAuth credentials.";
                      json := [] |};
       fx_added := ok_response [];
       fx_folders := fx_folders two_docs;
       fx_bookmarks := fx_bookmarks two_docs;
       fx_files := fx_files two_docs;
       fx_chunks := fx_chunks two_docs;
       fx_uuid := fx_uuid two_docs |}.

(** The same with every bookmark addition refused *)
Definition read_only : services unit :=
  fixture_services
    {| fx_token := token_granted;
       fx_added := {| status_code := 403; text := "Forbidden"; json := [] |};
       fx_folders := fx_folders two_docs;
       fx_bookmarks := fx_bookmarks two_docs;
       fx_files := fx_files two_docs;
       fx_chunks := fx_chunks two_docs;
       fx_uuid := fx_uuid two_docs |}.

(** A bookmark listing as the service sends it: a [meta] entry and a
    [user] entry in front of the bookmarks, one of them not a document *)
Definition full_listing : fixture :=
  {| fx_token := token_granted;
     fx_added := ok_response [];
     fx_folders := [folder_entry "Reading" 5];
     fx_bookmarks :=
       [ {| item_type := Some ("meta" : str); item_title := None;
            item_url := None; item_folder_id := None |};
         {| item_type := Some ("user" : str); item_title := None;
            item_url := None; item_folder_id := None |};
         bookmark_entry "One" "id1";
         {| item_type := Some ("bookmark" : str);
            item_title := Some ("News" : str);
            item_url := Some ("https://example.org/news" : str);
            item_folder_id := None |};
         bookmark_entry "Two" "id2";
         bookmark_entry "Three" "id3" ];
     fx_files := fx_files three_docs;
     fx_chunks := fx_chunks three_docs;
     fx_uuid := fx_uuid three_docs |}.

Definition is_hex_digit (c : code_point) : Prop :=
  In c (literal "0123456789abcdef").

Definition is_open_wb (e : event) : bool :=
  match e with
  | OpenWb _ => true
  | _ => false
  end.

(** An event on a local file that is not one of [allowed] *)
Definition is_other_file (allowed : list str) (e : event) : bool :=
  match e with
  | PathExists path | OpenR path | OpenW path | OpenWb path =>
      negb (existsb (PyStr.eqb path) allowed)
  | _ => false
  end.

(** ** How a trace grows *)

(** A computation only adds to the trace *)
Definition grows {R A} (m : M R A) : Prop :=
  forall w, exists more, trace (snd (m w)) = trace w ++ more.

(** A computation whose first additions to the trace are [first] *)
Definition starts_with {R A} (first : list event) (m : M R A) : Prop :=
  forall w, exists more, trace (snd (m w)) = trace w ++ first ++ more.

(** A computation that returns, having added exactly [added] *)
Definition returns_with {R A} (added : list event) (m : M R A) : Prop :=
  forall w, exists a r, m w = (Ok a, {| trace := trace w ++ added; remote := r |}).

(** ** Downloads *)

(** What the loop of [download_gdoc] leaves in the trace for the chunks
    that arrived: a request and a progress line each *)
Definition chunk_events (doc_id : str) (percents : list Z) : list event :=
  flat_map (fun percent => [Sent (FilesExportMedia doc_id docx_mime_type);
                            Print (progress_line percent)])
           percents.

(** [chunks_until svc doc_id received r percents outcome r']: asked for
    chunk after chunk from the state [r], with [received] chunks in
    already, the service delivers the chunks [percents] and then ends
    the download, by [done] on the last of them or by raising, in the
    state [r']. *)
Inductive chunks_until {R : Type} (svc : services R) (doc_id : str)
  : nat -> R -> list Z -> result unit -> R -> Prop :=
| until_done received r percent r' :
    next_chunk svc doc_id docx_mime_type received r = (Ok (percent, true), r') ->
    chunks_until svc doc_id received r [percent] (Ok tt) r'
| until_raise received r e r' :
    next_chunk svc doc_id docx_mime_type received r = (Raise e, r') ->
    chunks_until svc doc_id received r [] (Raise e) r'
| until_more received r percent r1 percents outcome r' :
    next_chunk svc doc_id docx_mime_type received r = (Ok (percent, false), r1) ->
    chunks_until svc doc_id (S received) r1 percents outcome r' ->
    chunks_until svc doc_id received r (percent :: percents) outcome r'.

(** The services of a download raise what [except Exception] catches. *)
Definition uninterrupted {R : Type} (svc : services R) : Prop :=
  (forall r e, fst (build svc r) = Raise e -> is_exception e = true)
  /\ (forall path r e, fst (open_wb svc path r) = Raise e -> is_exception e = true)
  /\ (forall doc_id mime received r e,
         fst (next_chunk svc doc_id mime received r) = Raise e ->
         is_exception e = true).

(** No download has more than [fuel] chunks. *)
Definition ends_within {R : Type} (svc : services R) (fuel : nat) : Prop :=
  forall doc_id mime received r percent,
    fuel <= S received ->
    fst (next_chunk svc doc_id mime received r) <> Ok (percent, false).

(** [ran_each bookmarks w w']: from [w], every bookmark in turn was
    announced and handed, with its address and its title, to
    [download_gdoc], which returned, each run starting from the world the
    one before left; [w'] is the world after the last. *)
Inductive ran_each {R : Type} (svc : services R) (fuel : nat) (save_folder : str)
  : list item -> world R -> world R -> Prop :=
| ran_none w : ran_each svc fuel save_folder [] w w
| ran_next b bs t u o w w1 w' :
    item_title b = Some t ->
    item_url b = Some u ->
    download_gdoc R svc fuel u t save_folder
                  {| trace := trace w ++ [Print ("Got " ++ t)]; remote := remote w |}
    = (Ok o, w1) ->
    ran_each svc fuel save_folder bs w1 w' ->
    ran_each svc fuel save_folder (b :: bs) w w'.

(** * Properties *)

Example extract_doc_id_edit :
  extract_doc_id "https://docs.google.com/document/d/1AbC_x/edit?usp=sharing"
  = Ok ("1AbC_x" : str).
Proof. reflexivity. Qed.


(** ** Strings *)

Lemma startswith_spec (p s : str) :
  PyStr.startswith p s = true <-> exists b, s = p ++ b.
Proof.
  revert s; induction p as [|a p IH]; intros s; simpl.
  - split; [intros _; now exists s | reflexivity].
  - destruct s as [|c s].
    + split; [discriminate | intros [b Hb]; discriminate].
    + rewrite andb_true_iff, N.eqb_eq, IH. split.
      * intros [-> [b ->]]. now exists b.
      * intros [b Hb]. injection Hb as -> ->. split; [reflexivity | now exists b].
Qed.

Lemma occurs_at_0 (sub s : str) :
  occurs_at sub s 0 <-> PyStr.startswith sub s = true.
Proof.
  rewrite startswith_spec. split.
  - intros (a & b & -> & Ha). destruct a; [now exists b | discriminate].
  - intros [b ->]. now exists [], b.
Qed.

Lemma occurs_at_S (sub : str) (c : code_point) (s : str) (i : nat) :
  occurs_at sub (c :: s) (S i) <-> occurs_at sub s i.
Proof.
  split.
  - intros (a & b & E & Ha). destruct a as [|c' a]; [discriminate|].
    simpl in *. injection E as -> ->. injection Ha as Ha. now exists a, b.
  - intros (a & b & -> & Ha). exists (c :: a), b. simpl. now rewrite Ha.
Qed.

Lemma occurs_at_nil (sub : str) (i : nat) :
  occurs_at sub [] (S i) -> False.
Proof. intros (a & b & E & Ha). destruct a; discriminate. Qed.

Lemma find_Some (sub s : str) (i : nat) :
  PyStr.find sub s = Some i <->
  occurs_at sub s i /\ forall j, j < i -> ~ occurs_at sub s j.
Proof.
  revert i; induction s as [|c s IH]; intros i.
  - simpl. destruct (PyStr.startswith sub []) eqn:E.
    + split.
      * intros [= <-]. split; [now apply occurs_at_0 | intros j Hj; lia].
      * intros [H Hmin]. destruct i; [reflexivity|].
        exfalso. apply (Hmin 0); [lia | now apply occurs_at_0].
    + split; [discriminate|]. intros [H _]. destruct i.
      * apply occurs_at_0 in H. congruence.
      * now apply occurs_at_nil in H.
  - cbn [PyStr.find]. destruct (PyStr.startswith sub (c :: s)) eqn:E.
    + split.
      * intros [= <-]. split; [now apply occurs_at_0 | intros j Hj; lia].
      * intros [H Hmin]. destruct i; [reflexivity|].
        exfalso. apply (Hmin 0); [lia | now apply occurs_at_0].
    + destruct (PyStr.find sub s) as [k|] eqn:F; simpl.
      * split.
        -- intros [= <-]. destruct (proj1 (IH k) eq_refl) as [H Hmin]. split.
           ++ now apply occurs_at_S.
           ++ intros [|j] Hj Hocc.
              ** apply occurs_at_0 in Hocc. congruence.
              ** apply occurs_at_S in Hocc. apply (Hmin j); [lia | assumption].
        -- intros [H Hmin]. destruct i.
           ++ apply occurs_at_0 in H. congruence.
           ++ f_equal. apply occurs_at_S in H.
              assert (Hk : Some k = Some i); [|injection Hk as ->; reflexivity].
              apply IH. split; [assumption|].
              intros j Hj Hocc. apply (Hmin (S j)); [lia | now apply occurs_at_S].
      * split; [discriminate|]. intros [H Hmin]. destruct i.
        -- apply occurs_at_0 in H. congruence.
        -- apply occurs_at_S in H. exfalso.
           assert (Hn : None = Some i); [|discriminate].
           apply IH. split; [assumption|].
           intros j Hj Hocc. apply (Hmin (S j)); [lia | now apply occurs_at_S].
Qed.

Lemma find_None (sub s : str) :
  PyStr.find sub s = None <-> ~ Substring sub s.
Proof.
  split.
  - intros F (a & b & E).
    assert (H : forall i, ~ occurs_at sub s i).
    { clear a b E. induction s as [|c s IH]; intros i.
      - simpl in F. destruct (PyStr.startswith sub []) eqn:E; [discriminate|].
        destruct i; intros H.
        + apply occurs_at_0 in H. congruence.
        + now apply occurs_at_nil in H.
      - cbn [PyStr.find] in F.
        destruct (PyStr.startswith sub (c :: s)) eqn:E; [discriminate|].
        destruct (PyStr.find sub s); [discriminate|].
        destruct i; intros H.
        + apply occurs_at_0 in H. congruence.
        + apply occurs_at_S in H. now apply (IH eq_refl i). }
    apply (H (length a)). now exists a, b.
  - intros H. destruct (PyStr.find sub s) as [i|] eqn:F; [|reflexivity].
    apply find_Some in F. destruct F as [(a & b & E & _) _].
    exfalso. apply H. now exists a, b.
Qed.

Lemma contains_spec (sub s : str) :
  PyStr.contains sub s = true <-> Substring sub s.
Proof.
  unfold PyStr.contains. destruct (PyStr.find sub s) as [i|] eqn:F.
  - apply find_Some in F. destruct F as [(a & b & E & _) _].
    split; [intros _; now exists a, b | reflexivity].
  - apply find_None in F. split; [discriminate | intros H; contradiction].
Qed.

Lemma find_length (sub s : str) (i : nat) :
  PyStr.find sub s = Some i -> i + length sub <= length s.
Proof.
  intros F. apply find_Some in F. destruct F as [(a & b & -> & <-) _].
  rewrite !length_app. lia.
Qed.

(** Enough rounds: more fuel than [length s] changes nothing. *)
Lemma split_fuel_stable (sep : str) (f1 : nat) :
  sep <> [] ->
  forall (f2 : nat) (s : str),
    length s <= f1 -> length s <= f2 ->
    PyStr.split_fuel f1 sep s = PyStr.split_fuel f2 sep s.
Proof.
  intros Hsep. induction f1 as [|f1 IH]; intros f2 s H1 H2.
  - destruct s; [|simpl in H1; lia].
    destruct f2; [reflexivity|]. cbn [PyStr.split_fuel].
    destruct (PyStr.find sep []) as [i|] eqn:F; [|reflexivity].
    apply find_length in F. destruct sep; [congruence | simpl in F; lia].
  - destruct f2 as [|f2].
    + destruct s; [|simpl in H2; lia]. cbn [PyStr.split_fuel].
      destruct (PyStr.find sep []) as [i|] eqn:F; [|reflexivity].
      apply find_length in F. destruct sep; [congruence | simpl in F; lia].
    + cbn [PyStr.split_fuel]. destruct (PyStr.find sep s) as [i|] eqn:F; [|reflexivity].
      f_equal. apply find_length in F.
      assert (0 < length sep) by (destruct sep; [congruence | simpl; lia]).
      apply IH; unfold PyStr.drop; rewrite length_skipn; lia.
Qed.

Lemma split_fuel_enough (sep s : str) (fuel : nat) :
  sep <> [] -> length s <= fuel ->
  PyStr.split_fuel fuel sep s = PyStr.split sep s.
Proof. intros Hsep H. now apply split_fuel_stable. Qed.

(** The two equations of [split] *)
Lemma split_no_sep (sep s : str) :
  PyStr.find sep s = None -> PyStr.split sep s = [s].
Proof.
  intros F. unfold PyStr.split. destruct (length s); cbn [PyStr.split_fuel]; [reflexivity|].
  now rewrite F.
Qed.

Lemma split_at_sep (sep s : str) (i : nat) :
  sep <> [] -> PyStr.find sep s = Some i ->
  PyStr.split sep s
  = PyStr.take i s :: PyStr.split sep (PyStr.drop (i + length sep) s).
Proof.
  intros Hsep F. unfold PyStr.split at 1.
  pose proof (find_length _ _ _ F) as L.
  assert (0 < length sep) by (destruct sep; [congruence | simpl; lia]).
  destruct (length s) as [|n] eqn:E; [lia|].
  cbn [PyStr.split_fuel]. rewrite F. f_equal. apply split_fuel_enough; [assumption|].
  unfold PyStr.drop. rewrite length_skipn. lia.
Qed.

(** [split] loses nothing: joining the pieces gives the string back. *)
Lemma join_split_fuel (sep : str) (fuel : nat) (s : str) :
  sep <> [] -> PyStr.join sep (PyStr.split_fuel fuel sep s) = s.
Proof.
  intros Hsep. revert s. induction fuel as [|fuel IH]; intros s; [reflexivity|].
  cbn [PyStr.split_fuel]. destruct (PyStr.find sep s) as [i|] eqn:F; [|reflexivity].
  specialize (IH (PyStr.drop (i + length sep) s)).
  destruct (PyStr.split_fuel fuel sep (PyStr.drop (i + length sep) s)) as [|p ps] eqn:E.
  - destruct fuel; cbn [PyStr.split_fuel] in E; [discriminate|].
    destruct (PyStr.find sep (PyStr.drop (i + length sep) s)); discriminate.
  - change (PyStr.join sep (PyStr.take i s :: p :: ps))
      with (PyStr.take i s ++ sep ++ PyStr.join sep (p :: ps)).
    rewrite IH. apply find_Some in F. destruct F as [(a & b & -> & <-) _].
    unfold PyStr.take, PyStr.drop.
    rewrite firstn_app, firstn_all, Nat.sub_diag, firstn_O, app_nil_r.
    rewrite skipn_app, skipn_all2 by lia.
    replace (length a + length sep - length a) with (length sep) by lia.
    rewrite skipn_app, skipn_all, Nat.sub_diag, skipn_O. reflexivity.
Qed.

(** ** Identifier Extractor *)

Lemma split_head (sep s : str) :
  sep <> [] -> exists pieces, PyStr.split sep s = before sep s :: pieces.
Proof.
  intros Hsep. unfold before. destruct (PyStr.find sep s) as [j|] eqn:F.
  - rewrite (split_at_sep _ _ _ Hsep F). eauto.
  - rewrite (split_no_sep _ _ F). eauto.
Qed.

Lemma extract_doc_id_eq (doc_url : str) :
  extract_doc_id doc_url =
  match PyStr.find "/d/" doc_url with
  | None => Raise IndexError
  | Some i => Ok (before "/" (before "/d/" (PyStr.drop (i + 3) doc_url)))
  end.
Proof.
  unfold extract_doc_id.
  destruct (PyStr.find "/d/" doc_url) as [i|] eqn:F.
  - rewrite (split_at_sep "/d/" doc_url i) by (discriminate || assumption).
    change (length (literal "/d/")) with 3.
    destruct (split_head "/d/" (PyStr.drop (i + 3) doc_url)) as [ps ->];
      [discriminate|].
    unfold index. cbn [nth_error].
    destruct (split_head "/" (before "/d/" (PyStr.drop (i + 3) doc_url)))
      as [qs ->]; [discriminate|].
    reflexivity.
  - rewrite (split_no_sep _ _ F). reflexivity.
Qed.

Lemma take_app_length (a b : str) : PyStr.take (length a) (a ++ b) = a.
Proof.
  unfold PyStr.take.
  now rewrite firstn_app, firstn_all, Nat.sub_diag, firstn_O, app_nil_r.
Qed.

Lemma drop_app_length (a b : str) (n : nat) :
  PyStr.drop (length a + n) (a ++ b) = PyStr.drop n b.
Proof.
  unfold PyStr.drop. rewrite skipn_app, skipn_all2 by lia.
  now replace (length a + n - length a) with n by lia.
Qed.

(** A segment without ['/'], followed by nothing or by a ['/']: the head
    of its split at ['/'] is the segment. *)
Lemma before_slash (seg t : str) :
  ~ Substring "/" seg ->
  t = [] \/ (exists t', t = "/" ++ t') ->
  before "/" (seg ++ t) = seg.
Proof.
  intros Hseg [-> | [t' ->]]; unfold before.
  - rewrite app_nil_r. apply find_None in Hseg. now rewrite Hseg.
  - assert (F : PyStr.find "/" (seg ++ "/" ++ t') = Some (length seg)).
    { apply find_Some. split; [now exists seg, t'|].
      intros j Hj (a & b & E & Ha). apply Hseg.
      apply app_eq_app in E. destruct E as [l [[E1 E2] | [E1 E2]]].
      - destruct l as [|c l].
        + rewrite app_nil_r in E1. subst a. lia.
        + injection E2 as <- _. now exists a, l.
      - apply (f_equal (@length code_point)) in E1. rewrite length_app in E1. lia. }
    rewrite F. apply take_app_length.
Qed.

Lemma before_d_slash (seg rest : str) :
  ~ Substring "/" seg ->
  exists t, before "/d/" (seg ++ "/" ++ rest) = seg ++ t
            /\ (t = [] \/ exists t', t = "/" ++ t').
Proof.
  intros Hseg. unfold before.
  destruct (PyStr.find "/d/" (seg ++ "/" ++ rest)) as [j|] eqn:F.
  - apply find_Some in F. destruct F as [(a & b & E & <-) _].
    rewrite E, take_app_length.
    apply app_eq_app in E. destruct E as [l [[E1 E2] | [E1 E2]]].
    + destruct l as [|c l].
      * rewrite app_nil_r in E1. subst a. exists []. rewrite app_nil_r. auto.
      * exfalso. apply Hseg. injection E2 as <- _. now exists a, l.
    + exists l. split; [assumption|]. destruct l as [|c l]; [now left | right].
      injection E2 as <- _. now exists l.
  - exists ("/" ++ rest). split; [reflexivity | right; now exists rest].
Qed.

(** C3. A URL [pre ++ "/d/" ++ seg ++ "/" ++ rest] whose first ['/d/'] is
    the one shown and whose [seg] runs up to the next ['/'] (it holds
    none) yields exactly [seg]; a URL without ['/d/'] makes the extraction
    fail with an index error. *)
Lemma extract_doc_id_ok (pre seg rest : str) :
  first_occurrence "/d/" (pre ++ "/d/" ++ seg ++ "/" ++ rest) (length pre) ->
  ~ Substring "/" seg ->
  extract_doc_id (pre ++ "/d/" ++ seg ++ "/" ++ rest) = Ok seg.
Proof.
  intros Hfirst Hseg. rewrite extract_doc_id_eq.
  apply find_Some in Hfirst. rewrite Hfirst.
  rewrite drop_app_length.
  change (PyStr.drop 3 ("/d/" ++ seg ++ "/" ++ rest)) with (seg ++ "/" ++ rest).
  destruct (before_d_slash seg rest Hseg) as (t & -> & Ht).
  now rewrite before_slash.
Qed.

Lemma extract_doc_id_no_d (doc_url : str) :
  ~ Substring "/d/" doc_url -> extract_doc_id doc_url = Raise IndexError.
Proof.
  intros H. rewrite extract_doc_id_eq. apply find_None in H. now rewrite H.
Qed.

Theorem extract_doc_id_segment :
  (forall pre seg rest : str,
      first_occurrence "/d/" (pre ++ "/d/" ++ seg ++ "/" ++ rest) (length pre) ->
      ~ Substring "/" seg ->
      extract_doc_id (pre ++ "/d/" ++ seg ++ "/" ++ rest) = Ok seg)
  /\ (forall doc_url : str,
        ~ Substring "/d/" doc_url -> extract_doc_id doc_url = Raise IndexError).
Proof. split; [exact extract_doc_id_ok | exact extract_doc_id_no_d]. Qed.

Lemma extract_doc_id_segment_witness :
  extract_doc_id ("https://docs.google.com/document" ++ "/d/" ++ "1AbC" ++ "/" ++ "edit")
  = Ok ("1AbC" : str)
  /\ extract_doc_id "https://example.org/page" = Raise IndexError.
Proof.
  split.
  - apply (proj1 extract_doc_id_segment).
    + apply find_Some. reflexivity.
    + apply find_None. reflexivity.
  - apply (proj2 extract_doc_id_segment). apply find_None. reflexivity.
Defined.

(** ** Bookmark Source Adapter *)

Lemma eqb_spec (s t : str) : PyStr.eqb s t = true <-> s = t.
Proof.
  unfold PyStr.eqb. destruct (list_eq_dec N.eq_dec s t); split; congruence.
Qed.

Lemma get_eq_spec (field : option str) (s : str) :
  get_eq field s = true <-> field = Some s.
Proof.
  destruct field as [v|]; simpl.
  - rewrite eqb_spec. split; congruence.
  - split; discriminate.
Qed.

Lemma is_google_doc_bookmark_spec (it : item) :
  is_google_doc_bookmark it = true <-> qualifies it.
Proof.
  unfold is_google_doc_bookmark, qualifies.
  rewrite andb_true_iff, get_eq_spec, contains_spec.
  split; intros [Ht Hu]; split; try assumption.
  - destruct (item_url it) as [u|]; simpl in Hu.
    + now exists u.
    + destruct Hu as (a & b & E). destruct a; discriminate.
  - destruct Hu as (u & -> & Hu). exact Hu.
Qed.

(** The comprehension keeps exactly the entries whose type is
    ["bookmark"] and whose url contains ["docs.google.com/document"], in
    the order of the response. *)
Lemma google_doc_bookmarks_spec (response_data : list item) :
  kept qualifies response_data (google_doc_bookmarks response_data)
  /\ (forall it, In it (google_doc_bookmarks response_data)
                 <-> In it response_data /\ qualifies it).
Proof.
  split.
  - induction response_data as [|it l IH]; [constructor|].
    unfold google_doc_bookmarks in *. simpl.
    destruct (is_google_doc_bookmark it) eqn:E.
    + apply kept_keep; [now apply is_google_doc_bookmark_spec | exact IH].
    + apply kept_drop; [|exact IH].
      intros H. apply is_google_doc_bookmark_spec in H. congruence.
  - intros it. unfold google_doc_bookmarks.
    now rewrite filter_In, is_google_doc_bookmark_spec.
Qed.

(** The listing the adapter returns is the comprehension over the body
    of the one response it got for the bookmark listing request. *)
Lemma get_instapaper_bookmarks_inv
      (R : Type) (svc : services R) (folder_name : str) (w w' : world R)
      (out : list item) :
  get_instapaper_bookmarks R svc folder_name w = (Ok out, w') ->
  exists w1 folder_id resp,
    get_instapaper_folder_id R svc folder_name w = (Ok (Some folder_id), w1)
    /\ folder_id <> 0%Z
    /\ bookmarks_list svc folder_id 500 (remote w1) = (resp, remote w')
    /\ trace w' = trace w1 ++ [Sent (BookmarksList folder_id 500)]
    /\ status_code resp = 200%Z
    /\ out = google_doc_bookmarks (json resp).
Proof.
  unfold get_instapaper_bookmarks. unfold bind at 1.
  destruct (get_instapaper_folder_id R svc folder_name w) as [[found|e] w1];
    [|discriminate].
  destruct found as [folder_id|]; [|discriminate]. cbn [falsy get_or].
  destruct (Z.eqb_spec folder_id 0) as [->|Hz]; [discriminate|].
  unfold bind, ask, ret, raise.
  destruct (bookmarks_list svc folder_id 500 (remote w1)) as [resp r2] eqn:Hb.
  destruct (Z.eqb_spec (status_code resp) 200) as [Hs|Hs]; [|discriminate].
  intros [= <- <-]. exists w1, folder_id, resp. cbn [remote trace]. auto 10.
Qed.

(** C4. The adapter [get_instapaper_bookmarks] returns a listing exactly
    when the folder resolves to a non-zero id and the bookmark service
    answers the listing request for that folder with a 200; the listing
    it returns then holds exactly the entries of that response whose type
    is ["bookmark"] and whose url contains ["docs.google.com/document"],
    every one of them and no other entry, in the order of the
    response. *)
Theorem get_instapaper_bookmarks_kept
        (R : Type) (svc : services R) (folder_name : str) (w : world R) :
  (forall (w1 : world R) (folder_id : Z) (resp : response) (r2 : R),
      get_instapaper_folder_id R svc folder_name w = (Ok (Some folder_id), w1) ->
      folder_id <> 0%Z ->
      bookmarks_list svc folder_id 500 (remote w1) = (resp, r2) ->
      status_code resp = 200%Z ->
      exists out,
        get_instapaper_bookmarks R svc folder_name w
        = (Ok out, {| trace := trace w1 ++ [Sent (BookmarksList folder_id 500)];
                      remote := r2 |})
        /\ kept qualifies (json resp) out
        /\ (forall it, In it out <-> In it (json resp) /\ qualifies it))
  /\ (forall (out : list item) (w' : world R),
        get_instapaper_bookmarks R svc folder_name w = (Ok out, w') ->
        exists w1 folder_id resp,
          get_instapaper_folder_id R svc folder_name w = (Ok (Some folder_id), w1)
          /\ bookmarks_list svc folder_id 500 (remote w1) = (resp, remote w')
          /\ status_code resp = 200%Z
          /\ kept qualifies (json resp) out
          /\ (forall it, In it out <-> In it (json resp) /\ qualifies it)).
Proof.
  split.
  - intros w1 folder_id resp r2 Hf Hz Hb Hs.
    exists (google_doc_bookmarks (json resp)).
    split; [|apply google_doc_bookmarks_spec].
    unfold get_instapaper_bookmarks, bind at 1.
    rewrite Hf. cbn [falsy get_or]. destruct (Z.eqb_spec folder_id 0); [contradiction|].
    unfold bind, ask, ret. rewrite Hb, Hs. reflexivity.
  - intros out w' H. apply get_instapaper_bookmarks_inv in H.
    destruct H as (w1 & folder_id & resp & Hf & _ & Hb & _ & Hs & ->).
    exists w1, folder_id, resp.
    split; [exact Hf|]. split; [exact Hb|]. split; [exact Hs|].
    apply google_doc_bookmarks_spec.
Qed.

Lemma get_instapaper_bookmarks_kept_witness :
  let svc := fixture_services full_listing in
  (exists out,
      get_instapaper_bookmarks unit svc "Reading" start
      = (Ok out, {| trace := [Sent FoldersList] ++ [Sent (BookmarksList 5 500)];
                    remote := tt |})
      /\ kept qualifies (fx_bookmarks full_listing) out
      /\ (forall it, In it out <-> In it (fx_bookmarks full_listing) /\ qualifies it))
  /\ exists w1 folder_id resp,
       get_instapaper_folder_id unit svc "Reading" start = (Ok (Some folder_id), w1)
       /\ bookmarks_list svc folder_id 500 (remote w1)
          = (resp, remote (snd (get_instapaper_bookmarks unit svc "Reading" start)))
       /\ status_code resp = 200%Z
       /\ kept qualifies (json resp)
               [bookmark_entry "One" "id1"; bookmark_entry "Two" "id2";
                bookmark_entry "Three" "id3"]
       /\ (forall it,
             In it [bookmark_entry "One" "id1"; bookmark_entry "Two" "id2";
                    bookmark_entry "Three" "id3"]
             <-> In it (json resp) /\ qualifies it).
Proof.
  intros svc. split.
  - apply (proj1 (get_instapaper_bookmarks_kept unit svc "Reading" start)
                 {| trace := [Sent FoldersList]; remote := tt |} 5%Z
                 (ok_response (fx_bookmarks full_listing)) tt).
    + reflexivity.
    + discriminate.
    + reflexivity.
    + reflexivity.
  - apply (proj2 (get_instapaper_bookmarks_kept unit svc "Reading" start)).
    reflexivity.
Defined.

(** The listing as the service sends it, through the adapter *)
Example get_instapaper_bookmarks_full_listing :
  fst (get_instapaper_bookmarks unit (fixture_services full_listing) "Reading" start)
  = Ok [bookmark_entry "One" "id1"; bookmark_entry "Two" "id2";
        bookmark_entry "Three" "id3"].
Proof. reflexivity. Qed.

Lemma scan_folders_first (folder_name : str) (pre post : list item) (f : item) :
  folder_named folder_name f ->
  (forall g, In g pre -> ~ folder_named folder_name g) ->
  scan_folders (pre ++ f :: post) folder_name = item_folder_id f.
Proof.
  intros [Ht Hn] Hpre. induction pre as [|g pre IH]; cbn [app scan_folders].
  - apply get_eq_spec in Ht, Hn. now rewrite Ht, Hn.
  - destruct (get_eq (item_type g) "folder" && get_eq (item_title g) folder_name) eqn:E.
    + apply andb_true_iff in E. rewrite !get_eq_spec in E.
      exfalso. apply (Hpre g); [now left | exact E].
    + apply IH. intros h Hh. apply Hpre. now right.
Qed.

Lemma scan_folders_none (folder_name : str) (folders : list item) :
  (forall g, In g folders -> ~ folder_named folder_name g) ->
  scan_folders folders folder_name = None.
Proof.
  induction folders as [|g l IH]; intros H; cbn [scan_folders]; [reflexivity|].
  destruct (get_eq (item_type g) "folder" && get_eq (item_title g) folder_name) eqn:E.
  - apply andb_true_iff in E. rewrite !get_eq_spec in E.
    exfalso. apply (H g); [now left | exact E].
  - apply IH. intros h Hh. apply H. now right.
Qed.

(** C5. On a successful folder listing, resolution answers with the
    [folder_id] of the first entry of type ["folder"] whose title is the
    requested name, whatever comes after it, and with [None] when no entry
    is one. *)
Theorem get_instapaper_folder_id_first_match
        (R : Type) (svc : services R) (folder_name : str) (w : world R)
        (resp : response) (r1 : R) :
  folders_list svc (remote w) = (resp, r1) ->
  status_code resp = 200%Z ->
  (forall pre f post,
      json resp = pre ++ f :: post ->
      folder_named folder_name f ->
      (forall g, In g pre -> ~ folder_named folder_name g) ->
      fst (get_instapaper_folder_id R svc folder_name w) = Ok (item_folder_id f))
  /\ ((forall g, In g (json resp) -> ~ folder_named folder_name g) ->
      fst (get_instapaper_folder_id R svc folder_name w) = Ok None).
Proof.
  intros Hl Hs. unfold get_instapaper_folder_id, bind, ask.
  rewrite Hl, Hs. simpl. split.
  - intros pre f post -> Hf Hpre. now rewrite scan_folders_first.
  - intros H. now rewrite scan_folders_none.
Qed.

Lemma get_instapaper_folder_id_first_match_witness :
  fst (get_instapaper_folder_id unit (fixture_services shelves) "Reading" start)
  = Ok (Some 5%Z)
  /\ fst (get_instapaper_folder_id unit (fixture_services shelves) "Read" start)
     = Ok None.
Proof.
  split.
  - apply (proj1 (get_instapaper_folder_id_first_match unit (fixture_services shelves)
                    "Reading" start (ok_response (fx_folders shelves)) tt
                    eq_refl eq_refl)
                 [folder_entry "Reading list" 1;
                  {| item_type := Some ("user" : str);
                     item_title := Some ("Reading" : str);
                     item_url := None; item_folder_id := Some 2%Z |}]
                 (folder_entry "Reading" 5)
                 [folder_entry "Reading" 9]).
    + reflexivity.
    + split; reflexivity.
    + intros g [<- | [<- | []]] [H1 H2]; discriminate.
  - apply (proj2 (get_instapaper_folder_id_first_match unit (fixture_services shelves)
                    "Read" start (ok_response (fx_folders shelves)) tt
                    eq_refl eq_refl)).
    intros g [<- | [<- | [<- | [<- | []]]]] [H1 H2]; discriminate.
Defined.

(** ** The string order *)

Lemma lt_cons (a b : code_point) (s t : str) :
  PyStr.lt (a :: s) (b :: t) = true <->
  (a < b)%N \/ (a = b /\ PyStr.lt s t = true).
Proof.
  cbn [PyStr.lt]. rewrite orb_true_iff, andb_true_iff, N.ltb_lt, N.eqb_eq.
  reflexivity.
Qed.

Lemma lt_asym (s t : str) : PyStr.lt s t = true -> PyStr.lt t s = false.
Proof.
  revert t; induction s as [|a s IH]; intros [|b t] H; try reflexivity.
  - discriminate.
  - apply not_true_is_false. intros H'.
    apply lt_cons in H, H'.
    destruct H as [H | [-> H]], H' as [H' | [E H']]; try (subst; lia).
    apply IH in H. congruence.
Qed.

Lemma lt_irrefl (s : str) : PyStr.lt s s = false.
Proof.
  destruct (PyStr.lt s s) eqn:E; [|reflexivity].
  pose proof (lt_asym _ _ E). congruence.
Qed.

(** If [s < u] then any [t] is above [s] or below [u]. *)
Lemma lt_between (s t u : str) :
  PyStr.lt s u = true -> PyStr.lt s t = true \/ PyStr.lt t u = true.
Proof.
  revert t u; induction s as [|a s IH]; intros [|c t] [|b u] H;
    try discriminate; auto.
  apply lt_cons in H. rewrite !lt_cons.
  destruct (N.lt_trichotomy a c) as [L | [E | G]].
  - auto.
  - subst c. destruct H as [H | [-> H]]; [auto|].
    destruct (IH t u H); auto.
  - right. left. destruct H as [H | [-> H]]; lia.
Qed.

Lemma lt_trans (s t u : str) :
  PyStr.lt s t = true -> PyStr.lt t u = true -> PyStr.lt s u = true.
Proof.
  intros H1 H2. destruct (lt_between t s u H2) as [H | H]; [|exact H].
  apply lt_asym in H. congruence.
Qed.

(** Neither below the other: the same string. *)
Lemma lt_connex (s t : str) :
  PyStr.lt s t = false -> PyStr.lt t s = false -> s = t.
Proof.
  revert t; induction s as [|a s IH]; intros [|b t] H1 H2;
    try reflexivity; try discriminate.
  destruct (N.lt_trichotomy a b) as [L | [E | G]].
  - assert (PyStr.lt (a :: s) (b :: t) = true) by (apply lt_cons; auto). congruence.
  - subst b. f_equal. apply IH.
    + destruct (PyStr.lt s t) eqn:E'; [|reflexivity].
      assert (PyStr.lt (a :: s) (a :: t) = true) by (apply lt_cons; auto). congruence.
    + destruct (PyStr.lt t s) eqn:E'; [|reflexivity].
      assert (PyStr.lt (a :: t) (a :: s) = true) by (apply lt_cons; auto). congruence.
  - assert (PyStr.lt (b :: t) (a :: s) = true) by (apply lt_cons; auto). congruence.
Qed.

Lemma le_refl (s : str) : PyStr.le s s = true.
Proof. unfold PyStr.le. now rewrite lt_irrefl. Qed.

Lemma le_trans (s t u : str) :
  PyStr.le s t = true -> PyStr.le t u = true -> PyStr.le s u = true.
Proof.
  unfold PyStr.le. rewrite !negb_true_iff. intros H1 H2.
  destruct (PyStr.lt u s) eqn:E; [|reflexivity].
  destruct (lt_between u t s E); congruence.
Qed.

Lemma lt_le (s t : str) : PyStr.lt s t = true -> PyStr.le s t = true.
Proof. intros H. unfold PyStr.le. now rewrite (lt_asym _ _ H). Qed.

(** [<=] is [<] or [==]. *)
Lemma le_lt_or_eq (s t : str) :
  PyStr.le s t = true <-> PyStr.lt s t = true \/ s = t.
Proof.
  split.
  - unfold PyStr.le. rewrite negb_true_iff. intros H.
    destruct (PyStr.lt s t) eqn:E; [now left | right; now apply lt_connex].
  - intros [H | ->]; [now apply lt_le | apply le_refl].
Qed.

(** ** Sorting *)

Section SortProperties.

Variable A : Type.
Variable key : A -> str.

Lemma insert_perm (x : A) (l : list A) : Permutation (insert key x l) (x :: l).
Proof.
  induction l as [|y l IH]; simpl; [reflexivity|].
  destruct (PyStr.lt (key y) (key x)); [|reflexivity].
  rewrite IH. apply perm_swap.
Qed.

Lemma sort_perm (l : list A) : Permutation (sort key l) l.
Proof.
  induction l as [|x l IH]; simpl; [reflexivity|].
  rewrite insert_perm. now constructor.
Qed.

Lemma insert_sorted (x : A) (l : list A) :
  StronglySorted (key_le A key) l -> StronglySorted (key_le A key) (insert key x l).
Proof.
  induction 1 as [|y l Hs IH Hy]; simpl.
  - constructor; constructor.
  - destruct (PyStr.lt (key y) (key x)) eqn:E.
    + constructor; [exact IH|].
      rewrite (Forall_forall (key_le A key y)). intros z Hz.
      apply (Permutation_in _ (insert_perm x l)) in Hz.
      destruct Hz as [<- | Hz].
      * now apply lt_le.
      * rewrite Forall_forall in Hy. now apply Hy.
    + assert (Hxy : key_le A key x y) by (unfold key_le, PyStr.le; now rewrite E).
      constructor; [now constructor|].
      constructor; [exact Hxy|].
      rewrite Forall_forall in *. intros z Hz.
      exact (le_trans _ _ _ Hxy (Hy z Hz)).
Qed.

Lemma sort_sorted (l : list A) : StronglySorted (key_le A key) (sort key l).
Proof.
  induction l as [|x l IH]; simpl; [constructor | now apply insert_sorted].
Qed.

(** An entry moves past entries of another key only. *)
Lemma insert_filter (k : str) (x : A) (l : list A) :
  filter (has_key A key k) (insert key x l) = filter (has_key A key k) (x :: l).
Proof.
  induction l as [|y l IH]; [reflexivity|].
  cbn [insert]. destruct (PyStr.lt (key y) (key x)) eqn:E; [|reflexivity].
  cbn [filter] in *. rewrite IH. unfold has_key.
  destruct (PyStr.eqb (key y) k) eqn:Ey, (PyStr.eqb (key x) k) eqn:Ex;
    try reflexivity.
  apply eqb_spec in Ey, Ex. rewrite Ey, Ex, lt_irrefl in E. discriminate.
Qed.

Lemma sort_filter (k : str) (l : list A) :
  filter (has_key A key k) (sort key l) = filter (has_key A key k) l.
Proof.
  induction l as [|x l IH]; [reflexivity|].
  cbn [sort]. rewrite insert_filter. cbn [filter]. now rewrite IH.
Qed.

End SortProperties.

Lemma sorted_positions (A : Type) (rel : A -> A -> Prop) (l : list A) :
  StronglySorted rel l ->
  forall i j a b,
    nth_error l i = Some a -> nth_error l j = Some b -> i < j -> rel a b.
Proof.
  induction 1 as [|x l Hs IH Hx]; intros i j a b Hi Hj Hij.
  - destruct i; discriminate.
  - destruct j as [|j]; [lia|]. cbn [nth_error] in Hj. destruct i as [|i].
    + injection Hi as <-. rewrite Forall_forall in Hx.
      apply Hx. eapply nth_error_In; eassumption.
    + cbn [nth_error] in Hi. apply (IH i j); [assumption | assumption | lia].
Qed.

(** What the sort does to a list: it holds the same entries, each as
    often as before; the keys never decrease along it, so an entry with a
    smaller key than another stands before it; and for every key, the
    entries carrying it stand in the order they had. *)
Lemma sort_by_key (docs_info : list aggregated_doc) :
  Permutation (sort sort_key docs_info) docs_info
  /\ StronglySorted (key_le aggregated_doc sort_key) (sort sort_key docs_info)
  /\ (forall i j a b,
        nth_error (sort sort_key docs_info) i = Some a ->
        nth_error (sort sort_key docs_info) j = Some b ->
        PyStr.lt (modified_date (doc a)) (modified_date (doc b)) = true ->
        i < j)
  /\ forall d : str,
      filter (has_key aggregated_doc sort_key d) (sort sort_key docs_info)
      = filter (has_key aggregated_doc sort_key d) docs_info.
Proof.
  split; [apply sort_perm|]. split; [apply sort_sorted|].
  split; [|intros d; apply sort_filter].
  intros i j a b Hi Hj Hlt.
  destruct (Nat.lt_trichotomy i j) as [L | [E | G]]; [exact L | exfalso ..].
  - subst j. rewrite Hi in Hj. injection Hj as <-.
    rewrite lt_irrefl in Hlt. discriminate.
  - pose proof (sorted_positions _ _ _ (sort_sorted _ sort_key docs_info)
                                 j i b a Hj Hi G) as Hle.
    unfold key_le, PyStr.le, sort_key in Hle. rewrite Hlt in Hle. discriminate.
Qed.

Example scenario_three_dates :
  let mk m u := {| doc := {| title := Some u; owner := "o"; modified_date := m |};
                   url := u |} in
  map url (sort sort_key [mk ("2023-05-01" : str) ("a" : str);
                          mk ("2023-01-10" : str) ("b" : str);
                          mk ("2023-01-10T00:00:01" : str) ("c" : str);
                          mk ("2023-01-10" : str) ("d" : str)])
  = [("b" : str); ("d" : str); ("c" : str); ("a" : str)].
Proof. reflexivity. Qed.

(** ** Document Metadata Fetcher *)

Ltac step_monad :=
  unfold attempt, print in *;
  unfold bind, ask, lift, try_except, ret, raise, emit in *;
  cbn beta iota in *.

Section Fetcher.

Variable R : Type.
Variable svc : services R.

Lemma fetch_success (doc_url : str) (w : world R) (fm : file_metadata) :
  answered R svc doc_url w fm ->
  owners fm <> Some [] ->
  fst (fetch_google_doc_info R svc doc_url w) = Ok (Some (doc_info_of fm)).
Proof.
  intros (doc_id & r1 & r2 & He & Hb & Hg) Ho.
  unfold fetch_google_doc_info. step_monad.
  rewrite He, Hb. cbn [remote trace]. rewrite Hg. cbn [remote trace].
  unfold doc_info_of, first_owner_name.
  destruct (owners fm) as [[|u us]|]; try reflexivity. congruence.
Qed.

Lemma fetch_success_inv (doc_url : str) (w w' : world R) (d : doc_info) :
  fetch_google_doc_info R svc doc_url w = (Ok (Some d), w') ->
  exists fm, answered R svc doc_url w fm /\ d = doc_info_of fm.
Proof.
  unfold fetch_google_doc_info, answered. step_monad.
  destruct (extract_doc_id doc_url) as [doc_id|e] eqn:He; [|discriminate].
  destruct (build svc (remote w)) as [[[]|e] r1] eqn:Hb; cbn [remote trace];
    [|discriminate].
  destruct (files_get svc doc_id metadata_fields r1) as [[fm|e] r2] eqn:Hg;
    cbn [remote trace]; [|destruct (is_exception e); discriminate].
  unfold index.
  destruct (owners fm) as [[|u us]|] eqn:Ho; cbn; try discriminate;
    intros [= <- _]; exists fm;
    (split; [now exists doc_id, r1, r2 |
             unfold doc_info_of, first_owner_name; now rewrite Ho]).
Qed.

(** The sentinel comes from inside the guarded region only. *)
Lemma fetch_sentinel_inv (doc_url : str) (w w' : world R) :
  fetch_google_doc_info R svc doc_url w = (Ok None, w') ->
  exists doc_id r1,
    extract_doc_id doc_url = Ok doc_id
    /\ build svc (remote w) = (Ok tt, r1)
    /\ exists e, last (trace w') (Sleep 0)
                 = Print ("Error retrieving metadata: " ++ exn_str e).
Proof.
  unfold fetch_google_doc_info. step_monad.
  destruct (extract_doc_id doc_url) as [doc_id|e] eqn:He; [|discriminate].
  destruct (build svc (remote w)) as [[[]|e] r1] eqn:Hb; cbn [remote trace];
    [|discriminate].
  intros H. exists doc_id, r1. split; [reflexivity|]. split; [reflexivity|].
  destruct (files_get svc doc_id metadata_fields r1) as [[fm|e] r2] eqn:Hg;
    cbn [remote trace] in H.
  - unfold index in H.
    destruct (owners fm) as [[|u us]|]; cbn in H; try discriminate.
    injection H as <-. exists IndexError. cbn [trace]. apply last_last.
  - destruct (is_exception e); [|discriminate].
    injection H as <-. exists e. cbn [trace]. apply last_last.
Qed.

Lemma fetch_no_d (doc_url : str) (w : world R) :
  ~ Substring "/d/" doc_url ->
  fetch_google_doc_info R svc doc_url w = (Raise IndexError, w).
Proof.
  intros H. unfold fetch_google_doc_info. step_monad.
  now rewrite (extract_doc_id_no_d doc_url H).
Qed.

End Fetcher.

(** C8. A fetch that succeeds got an answer from the document service and
    returns its [name] as title, the display name of its first owner, or
    ["Unknown"] without one, as owner, and its [modifiedTime], or
    ["Unknown"] without one, as modified date; and every answer whose
    owner list is not empty makes the fetch succeed so. *)
Theorem fetch_google_doc_info_fields
        (R : Type) (svc : services R) (doc_url : str) (w : world R) :
  (forall (w' : world R) (d : doc_info),
      fetch_google_doc_info R svc doc_url w = (Ok (Some d), w') ->
      exists fm,
        answered R svc doc_url w fm
        /\ title d = name fm
        /\ owner d = get_or (first_owner_name fm) ("Unknown" : str)
        /\ modified_date d = get_or (modifiedTime fm) ("Unknown" : str))
  /\ (forall fm : file_metadata,
        answered R svc doc_url w fm ->
        owners fm <> Some [] ->
        fst (fetch_google_doc_info R svc doc_url w) = Ok (Some (doc_info_of fm))).
Proof.
  split.
  - intros w' d H. apply fetch_success_inv in H. destruct H as (fm & Ha & ->).
    exists fm. repeat split; assumption || reflexivity.
  - intros fm Ha Ho. now apply fetch_success.
Qed.

Lemma fetch_google_doc_info_fields_witness :
  (exists fm,
      answered unit (fixture_services three_docs)
               "https://docs.google.com/document/d/id1/edit" start fm
      /\ Some ("One" : str) = name fm
      /\ ("Ann" : str) = get_or (first_owner_name fm) ("Unknown" : str)
      /\ ("2023-05-01T10:00:00.000Z" : str)
         = get_or (modifiedTime fm) ("Unknown" : str))
  /\ fst (fetch_google_doc_info unit (fixture_services three_docs)
            "https://docs.google.com/document/d/id1/edit" start)
     = Ok (Some {| title := Some ("One" : str); owner := "Ann";
                   modified_date := "2023-05-01T10:00:00.000Z" |}).
Proof.
  split.
  - apply (proj1 (fetch_google_doc_info_fields unit (fixture_services three_docs)
                    "https://docs.google.com/document/d/id1/edit" start)
                 (snd (fetch_google_doc_info unit (fixture_services three_docs)
                         "https://docs.google.com/document/d/id1/edit" start))
                 {| title := Some ("One" : str); owner := "Ann";
                    modified_date := "2023-05-01T10:00:00.000Z" |}).
    reflexivity.
  - apply (proj2 (fetch_google_doc_info_fields unit (fixture_services three_docs)
                    "https://docs.google.com/document/d/id1/edit" start)
                 {| name := Some ("One" : str);
                    owners := Some [ {| displayName := Some ("Ann" : str) |} ];
                    modifiedTime := Some ("2023-05-01T10:00:00.000Z" : str) |}).
    + exists ("id1" : str), tt, tt. repeat split; reflexivity.
    + discriminate.
Defined.

(** C10. A URL without ['/d/'] makes the fetch raise the index error of
    the split, with nothing printed and no sentinel; when the sentinel is
    returned the URL did contain ['/d/'], the identifier was extracted and
    the diagnostic of the guarded region is the last thing printed. *)
Theorem fetch_google_doc_info_unguarded_split
        (R : Type) (svc : services R) (doc_url : str) (w : world R) :
  (~ Substring "/d/" doc_url ->
   fetch_google_doc_info R svc doc_url w = (Raise IndexError, w))
  /\ (forall w' : world R,
        fetch_google_doc_info R svc doc_url w = (Ok None, w') ->
        Substring "/d/" doc_url
        /\ (exists doc_id, extract_doc_id doc_url = Ok doc_id)
        /\ exists e, last (trace w') (Sleep 0)
                     = Print ("Error retrieving metadata: " ++ exn_str e)).
Proof.
  split; [apply fetch_no_d|].
  intros w' H. apply fetch_sentinel_inv in H.
  destruct H as (doc_id & r1 & He & _ & Hlast).
  split; [|split; [now exists doc_id | exact Hlast]].
  destruct (PyStr.find "/d/" doc_url) as [i|] eqn:F.
  - apply find_Some in F. destruct F as [(a & b & E & _) _]. now exists a, b.
  - apply find_None in F. rewrite (extract_doc_id_no_d _ F) in He. discriminate.
Qed.

Lemma fetch_google_doc_info_unguarded_split_witness :
  fetch_google_doc_info unit (fixture_services three_docs)
    "https://docs.google.com/document/edit" start
  = (Raise IndexError, start)
  /\ (Substring "/d/" ("https://docs.google.com/document/d/id2/edit" : str)
      /\ (exists doc_id,
             extract_doc_id "https://docs.google.com/document/d/id2/edit" = Ok doc_id)
      /\ exists e,
          last (trace (snd (fetch_google_doc_info unit (fixture_services three_docs)
                              "https://docs.google.com/document/d/id2/edit" start)))
               (Sleep 0)
          = Print ("Error retrieving metadata: " ++ exn_str e)).
Proof.
  split.
  - apply (proj1 (fetch_google_doc_info_unguarded_split unit
                    (fixture_services three_docs)
                    "https://docs.google.com/document/edit" start)).
    apply find_None. reflexivity.
  - apply (proj2 (fetch_google_doc_info_unguarded_split unit
                    (fixture_services three_docs)
                    "https://docs.google.com/document/d/id2/edit" start)).
    reflexivity.
Defined.

(** ** Reorganize mode *)

Lemma hex_digits_length (width : nat) (n : N) : length (hex_digits width n) = width.
Proof.
  revert n; induction width as [|k IH]; intros n; simpl; [reflexivity|].
  rewrite length_app, IH. simpl. lia.
Qed.

Lemma uuid_suffix (n : N) :
  PyStr.take 4 (uuid_str n) = PyStr.take 4 (hex_digits 32 n)
  /\ length (PyStr.take 4 (uuid_str n)) = 4.
Proof.
  pose proof (hex_digits_length 32 n) as L. unfold uuid_str.
  destruct (hex_digits 32 n) as [|c0 [|c1 [|c2 [|c3 [|c4 [|c5 [|c6 [|c7 h]]]]]]]];
    try (simpl in L; lia).
  split; reflexivity.
Qed.

Example new_folder_name_three_docs :
  fst (choose_new_folder_name unit (fixture_services three_docs) "Reading" (Some []) start)
  = Ok ("Reading-ab12" : str)
  /\ fst (choose_new_folder_name unit (fixture_services three_docs) "Reading"
            (Some ("Sorted" : str)) start)
     = Ok ("Sorted" : str).
Proof. split; reflexivity. Qed.

Lemma bookmarks_added_app (tr1 tr2 : list event) :
  bookmarks_added (tr1 ++ tr2) = bookmarks_added tr1 ++ bookmarks_added tr2.
Proof. apply flat_map_app. Qed.

Section Republish.

Variable R : Type.
Variable svc : services R.

Lemma republish_added (new_folder_id : Z) (d : aggregated_doc) (w : world R) :
  bookmarks_added (trace (snd (republish R svc new_folder_id d w)))
  = bookmarks_added (trace w) ++ [addition new_folder_id d].
Proof.
  unfold republish, save_instapaper_bookmark. step_monad. cbn [trace remote].
  destruct (bookmarks_add svc _ _ _ _ _ _) as [resp r1].
  destruct (negb (status_code resp =? 200)%Z); cbn [snd trace];
    rewrite !bookmarks_added_app; cbn; now rewrite !app_nil_r.
Qed.

Lemma for_each_republish_added (new_folder_id : Z) (docs : list aggregated_doc) :
  forall w : world R,
  exists n,
    n <= length docs
    /\ (fst (for_each docs (republish R svc new_folder_id) w) = Ok tt ->
        n = length docs)
    /\ bookmarks_added
         (trace (snd (for_each docs (republish R svc new_folder_id) w)))
       = bookmarks_added (trace w)
         ++ map (addition new_folder_id) (firstn n docs).
Proof.
  induction docs as [|d docs IH]; intros w.
  - exists 0. cbn. rewrite app_nil_r. auto.
  - cbn [for_each]. unfold bind.
    pose proof (republish_added new_folder_id d w) as Hd.
    destruct (republish R svc new_folder_id d w) as [[[]|e] w1]; cbn [snd] in Hd.
    + destruct (IH w1) as (n & Hn & Hok & Hadd). exists (S n).
      split; [simpl; lia|]. split; [intros H; simpl; f_equal; auto|].
      rewrite Hadd, Hd. cbn [firstn map]. now rewrite <- app_assoc.
    + exists 1. split; [simpl; lia|]. split; [discriminate|].
      cbn [snd firstn map]. exact Hd.
Qed.

End Republish.

(** *** Only step 7 adds bookmarks *)

Create HintDb quiet.

Lemma quiet_ret {R A} (a : A) : quiet (@ret R A a).
Proof. intros w. reflexivity. Qed.

Lemma quiet_raise {R A} (e : exn) : quiet (@raise R A e).
Proof. intros w. reflexivity. Qed.

Lemma quiet_lift {R A} (r : result A) : quiet (@lift R A r).
Proof. intros w. reflexivity. Qed.

Lemma quiet_bind {R A B} (m : M R A) (k : A -> M R B) :
  quiet m -> (forall a, quiet (k a)) -> quiet (bind m k).
Proof.
  intros Hm Hk w. unfold bind. specialize (Hm w).
  destruct (m w) as [[a|e] w1]; cbn [snd] in *; [|exact Hm].
  now rewrite Hk.
Qed.

Lemma quiet_try_except {R A} (m : M R A) (handler : exn -> M R A) :
  quiet m -> (forall e, quiet (handler e)) -> quiet (try_except m handler).
Proof.
  intros Hm Hh w. unfold try_except. specialize (Hm w).
  destruct (m w) as [[a|e] w1]; cbn [snd] in *; [exact Hm|].
  destruct (is_exception e); [now rewrite Hh | exact Hm].
Qed.

Lemma quiet_ask {R A} (log : list event) (op : R -> A * R) :
  bookmarks_added log = [] -> quiet (ask log op).
Proof.
  intros H w. unfold ask. destruct (op (remote w)) as [a s]. cbn [snd trace].
  now rewrite bookmarks_added_app, H, app_nil_r.
Qed.

Lemma quiet_attempt {R A} (log : list event) (op : R -> result A * R) :
  bookmarks_added log = [] -> quiet (attempt log op).
Proof.
  intros H. apply quiet_bind; [now apply quiet_ask | intros a; apply quiet_lift].
Qed.

Lemma quiet_print {R} (line : str) : quiet (@print R line).
Proof.
  intros w. unfold print, emit. cbn [snd trace].
  now rewrite bookmarks_added_app, app_nil_r.
Qed.

#[export] Hint Resolve quiet_ret quiet_raise quiet_lift quiet_print : quiet.
#[export] Hint Extern 2 (quiet (bind _ _)) => apply quiet_bind; [|intros ?] : quiet.
#[export] Hint Extern 2 (quiet (try_except _ _)) =>
  apply quiet_try_except; [|intros ?] : quiet.
#[export] Hint Extern 1 (quiet (ask _ _)) => apply quiet_ask; reflexivity : quiet.
#[export] Hint Extern 1 (quiet (attempt _ _)) => apply quiet_attempt; reflexivity : quiet.
#[export] Hint Extern 3 (quiet (if ?c then _ else _)) => destruct c : quiet.

Section Quiet.

Variable R : Type.
Variable svc : services R.

Lemma quiet_fetch (doc_url : str) : quiet (fetch_google_doc_info R svc doc_url).
Proof. unfold fetch_google_doc_info. auto 10 with quiet. Qed.

Lemma quiet_folder_id (folder_name : str) :
  quiet (get_instapaper_folder_id R svc folder_name).
Proof. unfold get_instapaper_folder_id. auto 10 with quiet. Qed.

Lemma quiet_bookmarks (folder_name : str) :
  quiet (get_instapaper_bookmarks R svc folder_name).
Proof.
  unfold get_instapaper_bookmarks.
  apply quiet_bind; [apply quiet_folder_id | intros folder_id].
  auto 10 with quiet.
Qed.

Lemma quiet_create (folder_name : str) :
  quiet (create_instapaper_folder R svc folder_name).
Proof. unfold create_instapaper_folder. auto 10 with quiet. Qed.

Lemma quiet_gather (bookmarks : list item) :
  forall docs_info, quiet (gather R svc bookmarks docs_info).
Proof.
  induction bookmarks as [|b bs IH]; intros docs_info; cbn [gather].
  - apply quiet_ret.
  - apply quiet_bind; [apply quiet_lift | intros u].
    apply quiet_bind; [apply quiet_fetch | intros d].
    auto 10 with quiet.
Qed.

End Quiet.

Section ReorganizeRun.

Variable R : Type.
Variable svc : services R.

(** Step 4 keeps the order of the listing. *)
Lemma gather_urls (bookmarks : list item) :
  forall docs_info w docs w',
    gather R svc bookmarks docs_info w = (Ok docs, w') ->
    map url docs
    = map url docs_info ++ map (fun b => get_or (item_url b) []) bookmarks.
Proof.
  induction bookmarks as [|b bs IH]; intros docs_info w docs w' H.
  - cbn in H. injection H as <- _. now rewrite app_nil_r.
  - cbn [gather] in H. unfold bind at 1, lift at 1 in H.
    destruct (item_url b) as [u|] eqn:Eu; cbn [subscript] in H; [|discriminate].
    unfold bind at 1 in H.
    destruct (fetch_google_doc_info R svc u w) as [[d|e] w1]; [|discriminate].
    unfold bind at 1, lift at 1 in H.
    destruct (subscript (item_title b) "title") as [t|e]; [|discriminate].
    unfold bind at 1, lift at 1 in H.
    destruct d as [d|]; [|discriminate].
    unfold bind at 1, print, emit in H.
    apply IH in H. rewrite H, map_app, <- app_assoc. cbn [map].
    now rewrite Eu.
Qed.

(** A run of steps 3 to 7 that completes has added the gathered
    entries, all of them, in sorted order. *)
Lemma reorganize_sends_sorted (folder_name new_folder_name : str) (w w' : world R) :
  reorganize R svc folder_name new_folder_name w = (Ok tt, w') ->
  exists bookmarks w1 docs w2 new_folder_id,
    get_instapaper_bookmarks R svc folder_name w = (Ok bookmarks, w1)
    /\ gather R svc bookmarks [] w1 = (Ok docs, w2)
    /\ map url docs = map (fun b => get_or (item_url b) []) bookmarks
    /\ bookmarks_added (trace w')
       = bookmarks_added (trace w)
         ++ map (addition new_folder_id) (sort sort_key docs).
Proof.
  unfold reorganize. intros H. unfold bind at 1 in H.
  pose proof (quiet_bookmarks R svc folder_name w) as Q1.
  destruct (get_instapaper_bookmarks R svc folder_name w) as [[bookmarks|e] w1];
    [|discriminate].
  unfold bind at 1 in H.
  pose proof (quiet_gather R svc bookmarks [] w1) as Q2.
  destruct (gather R svc bookmarks [] w1) as [[docs|e] w2] eqn:G; [|discriminate].
  unfold bind at 1 in H.
  pose proof (quiet_folder_id R svc new_folder_name w2) as Q3.
  destruct (get_instapaper_folder_id R svc new_folder_name w2) as [[fid|e] w3];
    [|discriminate].
  unfold bind at 1 in H.
  assert (Q4 : forall m : M R Z, quiet m ->
               bookmarks_added (trace (snd (m w3))) = bookmarks_added (trace w3))
    by (intros m Hm; apply Hm).
  specialize (Q4 (if falsy fid then create_instapaper_folder R svc new_folder_name
                  else ret (get_or fid 0%Z))).
  destruct ((if falsy fid then create_instapaper_folder R svc new_folder_name
             else ret (get_or fid 0%Z)) w3) as [[new_folder_id|e] w4];
    [|discriminate].
  exists bookmarks, w1, docs, w2, new_folder_id.
  split; [reflexivity|]. split; [exact G|].
  split; [exact (gather_urls _ _ _ _ _ G)|].
  destruct (for_each_republish_added R svc new_folder_id (sort sort_key docs) w4)
    as (n & _ & Hn & Hadd).
  rewrite H in Hn, Hadd. cbn [fst snd] in *.
  rewrite (Hn eq_refl), firstn_all in Hadd. rewrite Hadd.
  cbn [snd] in *. rewrite Q4, Q3, Q2, Q1; [reflexivity|].
  destruct (falsy fid); [apply quiet_create | apply quiet_ret].
Qed.

(** A fetch that yields the sentinel ends step 4 with a type error: the
    entries after it are not looked at, whatever they are. *)
Lemma gather_sentinel (b : item) (rest : list item)
      (docs_info : list aggregated_doc) (u t : str) (w w1 : world R) :
  item_url b = Some u ->
  item_title b = Some t ->
  fetch_google_doc_info R svc u w = (Ok None, w1) ->
  gather R svc (b :: rest) docs_info w = (Raise TypeError, w1).
Proof.
  intros Hu Ht Hf. cbn [gather]. rewrite Hu, Ht. cbn [subscript].
  unfold bind, lift. now rewrite Hf.
Qed.

(** Whatever becomes of steps 5 to 7, the bookmarks a run adds are the
    first of the sorted entries, all into one folder; all of them when the
    run completes. *)
Lemma reorganize_added (folder_name new_folder_name : str) (w w1 w2 : world R)
      (bookmarks : list item) (docs : list aggregated_doc) :
  get_instapaper_bookmarks R svc folder_name w = (Ok bookmarks, w1) ->
  gather R svc bookmarks [] w1 = (Ok docs, w2) ->
  exists dest n,
    n <= length (sort sort_key docs)
    /\ (fst (reorganize R svc folder_name new_folder_name w) = Ok tt ->
        n = length (sort sort_key docs))
    /\ bookmarks_added (trace (snd (reorganize R svc folder_name new_folder_name w)))
       = bookmarks_added (trace w)
         ++ map (addition dest) (firstn n (sort sort_key docs)).
Proof.
  intros H1 H2.
  pose proof (quiet_bookmarks R svc folder_name w) as Q1.
  pose proof (quiet_gather R svc bookmarks [] w1) as Q2.
  rewrite H1 in Q1. rewrite H2 in Q2. cbn [snd] in Q1, Q2.
  unfold reorganize, bind. rewrite H1. cbn beta iota. rewrite H2. cbn beta iota zeta.
  pose proof (quiet_folder_id R svc new_folder_name w2) as Q3.
  destruct (get_instapaper_folder_id R svc new_folder_name w2) as [[found|e] w3];
    cbn [snd] in Q3.
  - assert (Q4 : bookmarks_added
                   (trace (snd ((if falsy found
                                 then create_instapaper_folder R svc new_folder_name
                                 else ret (get_or found 0%Z)) w3)))
                 = bookmarks_added (trace w3))
      by (destruct (falsy found); [apply quiet_create | apply quiet_ret]).
    destruct ((if falsy found then create_instapaper_folder R svc new_folder_name
               else ret (get_or found 0%Z)) w3) as [[dest|e] w4]; cbn [snd] in Q4.
    + destruct (for_each_republish_added R svc dest (sort sort_key docs) w4)
        as (n & Hn & Hok & Hadd).
      exists dest, n. split; [exact Hn|]. split; [exact Hok|].
      now rewrite Hadd, Q4, Q3, Q2, Q1.
    + exists 0%Z, 0. split; [lia|]. split; [discriminate|].
      cbn [fst snd firstn map]. now rewrite Q4, Q3, Q2, Q1, app_nil_r.
  - exists 0%Z, 0. split; [lia|]. split; [discriminate|].
    cbn [fst snd firstn map]. now rewrite Q3, Q2, Q1, app_nil_r.
Qed.

(** Every bookmark a run of steps 3 to 7 adds is the addition of an
    entry. *)
Lemma reorganize_additions (folder_name new_folder_name : str) (w : world R) :
  exists dest docs,
    bookmarks_added (trace (snd (reorganize R svc folder_name new_folder_name w)))
    = bookmarks_added (trace w) ++ map (addition dest) docs.
Proof.
  pose proof (quiet_bookmarks R svc folder_name w) as Q1.
  destruct (get_instapaper_bookmarks R svc folder_name w) as [[bookmarks|e] w1] eqn:H1;
    cbn [snd] in Q1.
  - pose proof (quiet_gather R svc bookmarks [] w1) as Q2.
    destruct (gather R svc bookmarks [] w1) as [[docs|e] w2] eqn:H2; cbn [snd] in Q2.
    + destruct (reorganize_added folder_name new_folder_name w w1 w2 bookmarks docs
                                 H1 H2) as (dest & n & _ & _ & Hadd).
      now exists dest, (firstn n (sort sort_key docs)).
    + exists 0%Z, []. unfold reorganize, bind. rewrite H1. cbn beta iota.
      rewrite H2. cbn [snd map]. now rewrite Q2, Q1, app_nil_r.
  - exists 0%Z, []. unfold reorganize, bind. rewrite H1. cbn [snd map].
    now rewrite Q1, app_nil_r.
Qed.

End ReorganizeRun.

(** C7. The bookmark additions of step 7 are those of the entries, in
    order, up to where the run got, each with the title
    [{title} - {owner} - {date}] and the description
    [{title} - {owner}<br>\n{date}<br>\n<a href="{url}">{url}</a><br>],
    [date] being the first ten characters (code points) of the modified
    date; a step 7 that completes has sent one for every entry.  And every
    bookmark a run of steps 3 to 7 adds, whatever becomes of the run, has
    such a title and such a description. *)
Theorem republished_title_and_description
        (R : Type) (svc : services R) :
  let quote := [34%N] in
  let nl := [10%N] in
  let date d := firstn 10 (modified_date (doc d)) in
  let title_ d := fmt (title (doc d)) ++ " - " ++ owner (doc d) ++ " - " ++ date d in
  let description d :=
    fmt (title (doc d)) ++ " - " ++ owner (doc d) ++ "<br>" ++ nl
    ++ date d ++ "<br>" ++ nl
    ++ "<a href=" ++ quote ++ url d ++ quote ++ ">" ++ url d ++ "</a><br>" in
  (forall (new_folder_id : Z) (docs : list aggregated_doc) (w : world R),
      exists n,
        n <= length docs
        /\ (fst (for_each docs (republish R svc new_folder_id) w) = Ok tt ->
            n = length docs)
        /\ bookmarks_added
             (trace (snd (for_each docs (republish R svc new_folder_id) w)))
           = bookmarks_added (trace w)
             ++ map (fun d => BookmarksAdd (url d) (title_ d) (description d)
                                           (description d) new_folder_id)
                    (firstn n docs))
  /\ (forall (folder_name new_folder_name : str) (w : world R),
        exists new_folder_id docs,
          bookmarks_added
            (trace (snd (reorganize R svc folder_name new_folder_name w)))
          = bookmarks_added (trace w)
            ++ map (fun d => BookmarksAdd (url d) (title_ d) (description d)
                                          (description d) new_folder_id)
                   docs).
Proof.
  split.
  - intros new_folder_id docs w.
    exact (for_each_republish_added R svc new_folder_id docs w).
  - intros folder_name new_folder_name w.
    exact (reorganize_additions R svc folder_name new_folder_name w).
Qed.

(** The slice counts characters: a date of twelve letters e-acute gives
    ten of them, and the letter in the title and in the owner's name is one
    character. *)
Example slice_counts_code_points :
  let e_acute : code_point := 233%N in
  let d := {| doc := {| title := Some (("Caf" : str) ++ [e_acute]);
                        owner := ("Zo" : str) ++ [e_acute];
                        modified_date := repeat e_acute 12 |};
              url := "u" |} in
  bookmark_title d
  = ("Caf" : str) ++ [e_acute] ++ " - " ++ ("Zo" : str) ++ [e_acute] ++ " - "
    ++ repeat e_acute 10
  /\ length (bookmark_title d) = 23.
Proof. split; reflexivity. Qed.

(** C1. Reorganize mode, once the listing is fetched and the documents
    of its bookmarks [bookmarks] are gathered as [docs], which follow the
    order of the listing.  The bookmarks the run adds are, in this order,
    those of the first entries of a list [sorted], all into one folder, and
    those of all of [sorted] when the run completes.  [sorted] holds the
    gathered entries, each as often as [docs]; modification dates never
    decrease along it under the string order, so an entry with a smaller
    date than another stands before it; and for every date, the entries
    carrying it stand in [sorted] in the order they have in [docs], the
    order in which their bookmarks were listed. *)
Theorem reorganize_sorts_by_modified_date
        (R : Type) (svc : services R) (folder_name new_folder_name : str)
        (w w1 w2 : world R) (bookmarks : list item) (docs : list aggregated_doc) :
  get_instapaper_bookmarks R svc folder_name w = (Ok bookmarks, w1) ->
  gather R svc bookmarks [] w1 = (Ok docs, w2) ->
  map url docs = map (fun b => get_or (item_url b) []) bookmarks
  /\ exists sorted dest n,
      n <= length sorted
      /\ (fst (reorganize R svc folder_name new_folder_name w) = Ok tt ->
          n = length sorted)
      /\ bookmarks_added
           (trace (snd (reorganize R svc folder_name new_folder_name w)))
         = bookmarks_added (trace w) ++ map (addition dest) (firstn n sorted)
      /\ Permutation sorted docs
      /\ StronglySorted
           (fun a b => PyStr.le (modified_date (doc a)) (modified_date (doc b)) = true)
           sorted
      /\ (forall i j a b,
            nth_error sorted i = Some a ->
            nth_error sorted j = Some b ->
            PyStr.lt (modified_date (doc a)) (modified_date (doc b)) = true ->
            i < j)
      /\ forall date : str,
          filter (fun d => PyStr.eqb (modified_date (doc d)) date) sorted
          = filter (fun d => PyStr.eqb (modified_date (doc d)) date) docs.
Proof.
  intros H1 H2. split; [exact (gather_urls R svc _ _ _ _ _ H2)|].
  destruct (reorganize_added R svc folder_name new_folder_name w w1 w2
                             bookmarks docs H1 H2) as (dest & n & Hn & Hok & Hadd).
  exists (sort sort_key docs), dest, n.
  split; [exact Hn|]. split; [exact Hok|]. split; [exact Hadd|].
  exact (sort_by_key docs).
Qed.

Lemma reorganize_sorts_by_modified_date_witness :
  let svc := fixture_services two_docs in
  let bookmarks := [bookmark_entry "One" "id1"; bookmark_entry "Three" "id3"] in
  let one := {| doc := {| title := Some ("One" : str); owner := "Ann";
                          modified_date := "2023-05-01T10:00:00.000Z" |};
                url := "https://docs.google.com/document/d/id1/edit" |} in
  let three := {| doc := {| title := Some ("Three" : str); owner := "Bob";
                            modified_date := "2023-01-10T09:30:00.000Z" |};
                  url := "https://docs.google.com/document/d/id3/edit" |} in
  map url [one; three] = map (fun b => get_or (item_url b) []) bookmarks
  /\ exists sorted dest n,
      n <= length sorted
      /\ (fst (reorganize unit svc "Reading" "Sorted" start) = Ok tt ->
          n = length sorted)
      /\ bookmarks_added (trace (snd (reorganize unit svc "Reading" "Sorted" start)))
         = bookmarks_added (trace start) ++ map (addition dest) (firstn n sorted)
      /\ Permutation sorted [one; three]
      /\ StronglySorted
           (fun a b => PyStr.le (modified_date (doc a)) (modified_date (doc b)) = true)
           sorted
      /\ (forall i j a b,
            nth_error sorted i = Some a ->
            nth_error sorted j = Some b ->
            PyStr.lt (modified_date (doc a)) (modified_date (doc b)) = true ->
            i < j)
      /\ forall date : str,
          filter (fun d => PyStr.eqb (modified_date (doc d)) date) sorted
          = filter (fun d => PyStr.eqb (modified_date (doc d)) date) [one; three].
Proof.
  intros svc bookmarks one three.
  apply (reorganize_sorts_by_modified_date unit svc "Reading" "Sorted" start
           (snd (get_instapaper_bookmarks unit svc "Reading" start))
           (snd (gather unit svc bookmarks []
                   (snd (get_instapaper_bookmarks unit svc "Reading" start))))
           bookmarks [one; three]);
    reflexivity.
Defined.

(** The run on two documents listed newest first: the older one is added
    first. *)
Example reorganize_two_docs :
  map request_url
      (bookmarks_added
         (trace (snd (reorganize unit (fixture_services two_docs)
                        "Reading" "Sorted" start))))
  = [("https://docs.google.com/document/d/id3/edit" : str);
     ("https://docs.google.com/document/d/id1/edit" : str)].
Proof. vm_compute. reflexivity. Qed.

(** C2 (as the code has it). With three bookmarks of which the second
    cannot be fetched, [main] prints the diagnostic of the fetch and then
    ends with the type error of subscripting [None]: the third document is
    never requested and no bookmark is added. *)
Theorem main_aborts_on_failed_fetch :
  let run := main unit (fixture_services three_docs) "Reading" None start in
  fst run = Raise TypeError
  /\ last (trace (snd run)) (Sleep 0)
     = Print ("Error retrieving metadata: File not found" : str)
  /\ ~ In (Sent (FilesGet "id3" metadata_fields)) (trace (snd run))
  /\ bookmarks_added (trace (snd run)) = [].
Proof.
  vm_compute. repeat split.
  intros H. repeat (destruct H as [H | H]; [discriminate|]). exact H.
Qed.

(** ** Download mode *)

Lemma bind_ok_inv {R A B} (m : M R A) (k : A -> M R B) (w w' : world R) (b : B) :
  bind m k w = (Ok b, w') ->
  exists a w1, m w = (Ok a, w1) /\ k a w1 = (Ok b, w').
Proof.
  unfold bind. destruct (m w) as [[a|e] w1]; [|discriminate].
  intros H. now exists a, w1.
Qed.

Lemma bind_raise_inv {R A B} (m : M R A) (k : A -> M R B) (w w' : world R) (e : exn) :
  bind m k w = (Raise e, w') ->
  m w = (Raise e, w') \/ exists a w1, m w = (Ok a, w1) /\ k a w1 = (Raise e, w').
Proof.
  unfold bind. destruct (m w) as [[a|e0] w1]; intros H.
  - right. now exists a, w1.
  - left. now injection H as -> ->.
Qed.

Lemma attempt_raise_inv {R A} (log : list event) (op : R -> result A * R)
      (w w' : world R) (e : exn) :
  attempt log op w = (Raise e, w') -> fst (op (remote w)) = Raise e.
Proof.
  unfold attempt, bind, ask, lift. destruct (op (remote w)) as [[a|e0] r];
    intros H; [discriminate | now injection H as ->].
Qed.

Lemma for_each_print {R A} (line : A -> str) (l : list A) (w : world R) :
  for_each l (fun x => print (line x)) w
  = (Ok tt, {| trace := trace w ++ map (fun x => Print (line x)) l;
               remote := remote w |}).
Proof.
  revert w; induction l as [|x l IH]; intros w; cbn [for_each map].
  - unfold ret. rewrite app_nil_r. now destruct w.
  - unfold bind, print, emit. rewrite IH. cbn [trace remote].
    now rewrite <- app_assoc.
Qed.

(** *** Traces only grow *)

Create HintDb grows.

Lemma grows_ret {R A} (a : A) : grows (@ret R A a).
Proof. intros w. exists []. cbn. now rewrite app_nil_r. Qed.

Lemma grows_raise {R A} (e : exn) : grows (@raise R A e).
Proof. intros w. exists []. cbn. now rewrite app_nil_r. Qed.

Lemma grows_lift {R A} (r : result A) : grows (@lift R A r).
Proof. intros w. exists []. cbn. now rewrite app_nil_r. Qed.

Lemma grows_bind {R A B} (m : M R A) (k : A -> M R B) :
  grows m -> (forall a, grows (k a)) -> grows (bind m k).
Proof.
  intros Hm Hk w. unfold bind. destruct (Hm w) as [m1 E1].
  destruct (m w) as [[a|e] w1]; cbn [snd] in *.
  - destruct (Hk a w1) as [m2 E2]. exists (m1 ++ m2).
    now rewrite E2, E1, app_assoc.
  - now exists m1.
Qed.

Lemma grows_try_except {R A} (m : M R A) (handler : exn -> M R A) :
  grows m -> (forall e, grows (handler e)) -> grows (try_except m handler).
Proof.
  intros Hm Hh w. unfold try_except. destruct (Hm w) as [m1 E1].
  destruct (m w) as [[a|e] w1]; cbn [snd] in *; [now exists m1|].
  destruct (is_exception e); [|now exists m1].
  destruct (Hh e w1) as [m2 E2]. exists (m1 ++ m2).
  now rewrite E2, E1, app_assoc.
Qed.

Lemma grows_ask {R A} (log : list event) (op : R -> A * R) : grows (ask log op).
Proof. intros w. unfold ask. destruct (op (remote w)). now exists log. Qed.

Lemma grows_emit {R} (e : event) : grows (@emit R e).
Proof. intros w. now exists [e]. Qed.

#[export] Hint Resolve grows_ret grows_raise grows_lift grows_ask grows_emit : grows.
#[export] Hint Extern 2 (grows (bind _ _)) => apply grows_bind; [|intros ?] : grows.
#[export] Hint Extern 2 (grows (try_except _ _)) =>
  apply grows_try_except; [|intros ?] : grows.
#[export] Hint Extern 1 (grows (attempt _ _)) => unfold attempt : grows.
#[export] Hint Extern 1 (grows (print _)) => unfold print : grows.
#[export] Hint Extern 3 (grows (if ?c then _ else _)) => destruct c : grows.

Lemma grows_for_each {R A} (l : list A) (body : A -> M R unit) :
  (forall x, grows (body x)) -> grows (for_each l body).
Proof.
  intros Hb. induction l as [|x l IH]; cbn [for_each]; auto with grows.
Qed.

Lemma starts_bind {R A B} (first : list event) (m : M R A) (k : A -> M R B) :
  starts_with first m -> (forall a, grows (k a)) -> starts_with first (bind m k).
Proof.
  intros Hm Hk w. unfold bind. destruct (Hm w) as [m1 E1].
  destruct (m w) as [[a|e] w1]; cbn [snd] in *.
  - destruct (Hk a w1) as [m2 E2]. exists (m1 ++ m2).
    now rewrite E2, E1, <- !app_assoc.
  - now exists m1.
Qed.

Lemma returns_bind {R A B} (added first : list event) (m : M R A) (k : A -> M R B) :
  returns_with added m -> (forall a, starts_with first (k a)) ->
  starts_with (added ++ first) (bind m k).
Proof.
  intros Hm Hk w. unfold bind. destruct (Hm w) as (a & r & E). rewrite E.
  destruct (Hk a {| trace := trace w ++ added; remote := r |}) as [more Em].
  exists more. rewrite Em. cbn [trace]. now rewrite <- !app_assoc.
Qed.

Lemma starts_try_except {R A} (first : list event)
      (m : M R A) (handler : exn -> M R A) :
  starts_with first m -> (forall e, grows (handler e)) ->
  starts_with first (try_except m handler).
Proof.
  intros Hm Hh w. unfold try_except. destruct (Hm w) as [m1 E1].
  destruct (m w) as [[a|e] w1]; cbn [snd] in *; [now exists m1|].
  destruct (is_exception e); [|now exists m1].
  destruct (Hh e w1) as [m2 E2]. exists (m1 ++ m2).
  now rewrite E2, E1, <- !app_assoc.
Qed.

Lemma starts_attempt {R A} (log : list event) (op : R -> result A * R) :
  starts_with log (attempt log op).
Proof.
  intros w. unfold attempt, bind, ask, lift.
  destruct (op (remote w)) as [[a|e] r]; exists []; cbn; now rewrite app_nil_r.
Qed.

Lemma returns_lift {R A} (a : A) : returns_with [] (@lift R A (Ok a)).
Proof.
  intros [tr r]. exists a, r. unfold lift. cbn. now rewrite app_nil_r.
Qed.

Lemma returns_attempt {R A} (log : list event) (op : R -> result A * R) :
  (forall r, exists a, fst (op r) = Ok a) -> returns_with log (attempt log op).
Proof.
  intros H w. unfold attempt, bind, ask, lift. destruct (H (remote w)) as [a Ha].
  destruct (op (remote w)) as [x r]. cbn in Ha. subst x. now exists a, r.
Qed.

Lemma extract_doc_id_raises (doc_url : str) (e : exn) :
  extract_doc_id doc_url = Raise e -> e = IndexError.
Proof.
  rewrite extract_doc_id_eq. destruct (PyStr.find "/d/" doc_url); [discriminate|].
  now intros [= <-].
Qed.

Lemma starts_lift_ok {R A B} (first : list event) (a : A) (k : A -> M R B) :
  starts_with first (k a) -> starts_with first (bind (lift (Ok a)) k).
Proof. intros H w. unfold bind, lift. apply H. Qed.

Section DownloadRun.

Variable R : Type.
Variable svc : services R.
Variable fuel : nat.
Variable save_folder : str.

Lemma grows_next_chunks (doc_id mime_type : str) (turns : nat) :
  forall received, grows (next_chunks R svc turns doc_id mime_type received).
Proof.
  induction turns as [|turns IH]; intros received; cbn [next_chunks].
  - apply grows_raise.
  - apply grows_bind; [unfold attempt; auto with grows | intros chunk].
    apply grows_bind; [unfold print; auto with grows | intros _].
    destruct (snd chunk); [apply grows_ret | apply IH].
Qed.

Lemma starts_next_chunks (doc_id mime_type : str) (turns received : nat) :
  starts_with [Sent (FilesExportMedia doc_id mime_type)]
              (next_chunks R svc (S turns) doc_id mime_type received).
Proof.
  cbn [next_chunks]. apply starts_bind; [apply starts_attempt | intros chunk].
  apply grows_bind; [unfold print; auto with grows | intros _].
  destruct (snd chunk); [apply grows_ret | apply grows_next_chunks].
Qed.

Lemma grows_download_gdoc (doc_url title_ : str) :
  grows (download_gdoc R svc fuel doc_url title_ save_folder).
Proof.
  unfold download_gdoc. apply grows_try_except.
  - apply grows_bind; [apply grows_lift | intros doc_id].
    apply grows_bind; [unfold attempt; auto with grows | intros _]. cbv zeta.
    apply grows_bind; [unfold attempt; auto with grows | intros _].
    apply grows_bind; [apply grows_next_chunks | intros _].
    unfold print. auto with grows.
  - intros e. unfold print. auto with grows.
Qed.

(** With the service built and the file opened, the first things a
    download leaves are the opening of its file and a request for a
    chunk. *)
Lemma download_gdoc_requests (doc_url title_ doc_id : str) :
  extract_doc_id doc_url = Ok doc_id ->
  (forall r, fst (build svc r) = Ok tt) ->
  (forall path r, fst (open_wb svc path r) = Ok tt) ->
  0 < fuel ->
  starts_with [OpenWb (path_join save_folder (title_ ++ ".docx"));
               Sent (FilesExportMedia doc_id docx_mime_type)]
              (download_gdoc R svc fuel doc_url title_ save_folder).
Proof.
  intros He Hb Ho Hf. unfold download_gdoc. apply starts_try_except.
  - rewrite He.
    apply starts_lift_ok.
    apply (returns_bind [] [_; _]).
    { apply returns_attempt. intros r. exists tt. apply Hb. }
    intros _. cbv zeta.
    apply (returns_bind [_] [_]).
    { apply returns_attempt. intros r. exists tt. apply Ho. }
    intros _. destruct fuel as [|turns]; [lia|].
    apply starts_bind; [apply starts_next_chunks | intros _].
    unfold print. auto with grows.
  - intros e. unfold print. auto with grows.
Qed.

Section Uninterrupted.

Hypothesis H_exceptions : uninterrupted svc.
Hypothesis H_ends : ends_within svc fuel.
Hypothesis H_fuel : 0 < fuel.

Lemma next_chunks_raises (doc_id mime_type : str) (turns : nat) :
  forall received w w' e,
    fuel <= turns + received -> 0 < turns ->
    next_chunks R svc turns doc_id mime_type received w = (Raise e, w') ->
    is_exception e = true.
Proof.
  induction turns as [|turns IH]; intros received w w' e Hle Hpos H; [lia|].
  cbn [next_chunks] in H. apply bind_raise_inv in H.
  destruct H as [H | ([percent done] & w1 & Hc & H)].
  - apply attempt_raise_inv in H.
    now apply (proj2 (proj2 H_exceptions)) in H.
  - apply bind_raise_inv in H. destruct H as [H | ([] & w2 & _ & H)];
      [discriminate|].
    cbn [snd] in H. destruct done; [discriminate|].
    assert (Hn : fst (next_chunk svc doc_id mime_type received (remote w))
                 = Ok (percent, false)).
    { unfold attempt, bind, ask, lift in Hc.
      destruct (next_chunk svc doc_id mime_type received (remote w)) as [[x|e0] r];
        [|discriminate].
      now injection Hc as -> _. }
    assert (S received < fuel).
    { destruct (Nat.le_gt_cases fuel (S received)) as [L | G]; [|exact G].
      exfalso. exact (H_ends _ _ _ _ percent L Hn). }
    apply (IH (S received) w2 w' e); [lia | lia | exact H].
Qed.

(** Under these conditions [download_gdoc] always returns, with [None]
    after the diagnostic when anything was raised. *)
Lemma download_gdoc_returns (doc_url title_ : str) (w : world R) :
  exists o w',
    download_gdoc R svc fuel doc_url title_ save_folder w = (Ok o, w')
    /\ (o = None -> exists e, last (trace w') (Sleep 0) = error_line e).
Proof.
  unfold download_gdoc, try_except.
  match goal with |- context [match ?body w with _ => _ end] =>
    destruct (body w) as [[o|e] w1] eqn:E end.
  - exists o, w1. split; [reflexivity|]. intros ->. exfalso.
    repeat (apply bind_ok_inv in E; destruct E as (? & ? & _ & E)).
    discriminate.
  - assert (He : is_exception e = true).
    { apply bind_raise_inv in E. destruct E as [E | (doc_id & w2 & _ & E)].
      - unfold lift in E. injection E as E _.
        now rewrite (extract_doc_id_raises _ _ E).
      - apply bind_raise_inv in E. destruct E as [E | ([] & w3 & _ & E)].
        + apply attempt_raise_inv in E. now apply (proj1 H_exceptions) in E.
        + cbv zeta in E. apply bind_raise_inv in E.
          destruct E as [E | ([] & w4 & _ & E)].
          * apply attempt_raise_inv in E.
            now apply (proj1 (proj2 H_exceptions)) in E.
          * apply bind_raise_inv in E. destruct E as [E | ([] & w5 & _ & E)].
            -- apply next_chunks_raises in E; [exact E | lia | exact H_fuel].
            -- apply bind_raise_inv in E.
               destruct E as [E | ([] & w6 & _ & E)]; discriminate. }
    rewrite He. eexists _, _. split; [reflexivity|]. intros _. exists e.
    cbn [trace]. apply last_last.
Qed.

Lemma download_bookmark_runs (b : item) (t u : str) (w : world R) :
  item_title b = Some t -> item_url b = Some u ->
  exists o w1,
    download_gdoc R svc fuel u t save_folder
                  {| trace := trace w ++ [Print ("Got " ++ t)]; remote := remote w |}
    = (Ok o, w1)
    /\ download_bookmark R svc fuel save_folder b w = (Ok tt, w1).
Proof.
  intros Ht Hu.
  destruct (download_gdoc_returns u t
              {| trace := trace w ++ [Print ("Got " ++ t)]; remote := remote w |})
    as (o & w1 & E & _).
  exists o, w1. split; [exact E|].
  unfold download_bookmark. rewrite Ht, Hu. cbn [subscript].
  unfold bind at 1, lift at 1. unfold bind at 1, print, emit.
  unfold bind at 1, lift at 1. unfold bind at 1. now rewrite E.
Qed.

Lemma for_each_ran (bookmarks : list item) :
  Forall (fun b => item_title b <> None /\ item_url b <> None) bookmarks ->
  forall w,
    exists w',
      for_each bookmarks (download_bookmark R svc fuel save_folder) w = (Ok tt, w')
      /\ ran_each svc fuel save_folder bookmarks w w'.
Proof.
  induction 1 as [|b bs [Ht Hu] _ IH]; intros w.
  - exists w. split; [reflexivity | constructor].
  - destruct (item_title b) as [t|] eqn:Et; [|congruence].
    destruct (item_url b) as [u|] eqn:Eu; [|congruence].
    destruct (download_bookmark_runs b t u w Et Eu) as (o & w1 & Ed & Eb).
    destruct (IH w1) as (w' & Ef & Hr).
    exists w'. split.
    + cbn [for_each]. unfold bind. now rewrite Eb.
    + econstructor; eassumption.
Qed.

End Uninterrupted.

Lemma ran_each_grows (bookmarks : list item) (w w' : world R) :
  ran_each svc fuel save_folder bookmarks w w' ->
  exists more, trace w' = trace w ++ more.
Proof.
  induction 1 as [w | b bs t u o w w1 w' Ht Hu Hd Hr IH].
  - exists []. now rewrite app_nil_r.
  - destruct IH as [m2 E2].
    destruct (grows_download_gdoc u t
                {| trace := trace w ++ [Print ("Got " ++ t)]; remote := remote w |})
      as [m1 E1].
    rewrite Hd in E1. cbn [snd trace] in E1.
    exists ([Print ("Got " ++ t)] ++ m1 ++ m2).
    now rewrite E2, E1, <- !app_assoc.
Qed.

(** Every bookmark whose address holds an identifier has a chunk of
    its document asked for, whatever became of the others. *)
Lemma ran_each_requests (bookmarks : list item) (w w' : world R) :
  (forall r, fst (build svc r) = Ok tt) ->
  (forall path r, fst (open_wb svc path r) = Ok tt) ->
  0 < fuel ->
  ran_each svc fuel save_folder bookmarks w w' ->
  forall b u doc_id,
    In b bookmarks -> item_url b = Some u -> extract_doc_id u = Ok doc_id ->
    exists pre post,
      trace w' = trace w ++ pre ++ Sent (FilesExportMedia doc_id docx_mime_type) :: post.
Proof.
  intros Hb Ho Hf.
  induction 1 as [w | b0 bs t u0 o w w1 w' Ht Hu Hd Hr IH];
    intros b u doc_id Hin Eu He; [destruct Hin|].
  destruct Hin as [-> | Hin].
  - rewrite Hu in Eu. injection Eu as ->.
    destruct (download_gdoc_requests u t doc_id He Hb Ho Hf
                {| trace := trace w ++ [Print ("Got " ++ t)]; remote := remote w |})
      as [m1 E1].
    rewrite Hd in E1. cbn [snd trace] in E1.
    destruct (ran_each_grows _ _ _ Hr) as [m2 E2].
    exists [Print ("Got " ++ t); OpenWb (path_join save_folder (t ++ ".docx"))],
           (m1 ++ m2).
    rewrite E2, E1. cbn [app]. rewrite <- !app_assoc. reflexivity.
  - destruct (IH b u doc_id Hin Eu He) as (pre & post & E).
    destruct (grows_download_gdoc u0 t
                {| trace := trace w ++ [Print ("Got " ++ t)]; remote := remote w |})
      as [m1 E1].
    rewrite Hd in E1. cbn [snd trace] in E1.
    exists ([Print ("Got " ++ t)] ++ m1 ++ pre), post.
    rewrite E, E1, <- !app_assoc. reflexivity.
Qed.

(** The loop of the download, chunk by chunk *)
Lemma next_chunks_run (doc_id : str) (received : nat) (r r' : R)
      (percents : list Z) (outcome : result unit) :
  chunks_until svc doc_id received r percents outcome r' ->
  forall turns tr,
    length percents + (match outcome with Raise _ => 1 | Ok _ => 0 end) <= turns ->
    next_chunks R svc turns doc_id docx_mime_type received {| trace := tr; remote := r |}
    = (outcome,
       {| trace := tr ++ chunk_events doc_id percents
                   ++ match outcome with
                      | Raise _ => [Sent (FilesExportMedia doc_id docx_mime_type)]
                      | Ok _ => []
                      end;
          remote := r' |}).
Proof.
  induction 1 as [received r percent r' Hn | received r e r' Hn
                  | received r percent r1 percents outcome r' Hn Hc IH];
    intros turns tr Hle; (destruct turns as [|turns]; [cbn in Hle; lia|]);
    cbn [next_chunks]; unfold attempt, bind, ask, lift, print, emit;
    cbn [remote trace]; rewrite Hn; cbn [fst snd remote trace].
  - unfold ret. cbn. now rewrite <- !app_assoc.
  - cbn. reflexivity.
  - rewrite IH by (cbn in Hle; lia). cbn [chunk_events flat_map].
    now rewrite <- !app_assoc.
Qed.

Lemma download_gdoc_export_fails
      (doc_url title_ doc_id : str) (w : world R) (r1 r2 r3 : R)
      (percents : list Z) (e : exn) :
  extract_doc_id doc_url = Ok doc_id ->
  build svc (remote w) = (Ok tt, r1) ->
  open_wb svc (path_join save_folder (title_ ++ ".docx")) r1 = (Ok tt, r2) ->
  chunks_until svc doc_id 0 r2 percents (Raise e) r3 ->
  is_exception e = true ->
  length percents < fuel ->
  download_gdoc R svc fuel doc_url title_ save_folder w
  = (Ok None,
     {| trace := trace w
                 ++ [OpenWb (path_join save_folder (title_ ++ ".docx"))]
                 ++ chunk_events doc_id percents
                 ++ [Sent (FilesExportMedia doc_id docx_mime_type); error_line e];
        remote := r3 |}).
Proof.
  intros He Hb Ho Hc Hexn Hlen. unfold download_gdoc, try_except, attempt.
  cbv zeta. unfold bind at 1, lift at 1. rewrite He.
  unfold bind at 1 2, ask at 1, lift at 1. rewrite Hb. cbn [remote trace].
  unfold bind at 1 2, ask at 1, lift at 1. cbn [remote trace].
  rewrite Ho. cbn [remote trace].
  unfold bind at 1.
  rewrite (next_chunks_run _ _ _ _ _ _ Hc) by (cbn; lia).
  rewrite Hexn. unfold bind, print, emit, ret, error_line. cbn [remote trace].
  f_equal. f_equal. rewrite app_nil_r, <- !app_assoc. reflexivity.
Qed.

End DownloadRun.

Lemma google_doc_bookmark_url (b : item) :
  is_google_doc_bookmark b = true -> item_url b <> None.
Proof.
  intros H. apply is_google_doc_bookmark_spec in H.
  destruct H as (_ & u & -> & _). discriminate.
Qed.

Lemma chunks_until_raises (R : Type) (svc : services R) (doc_id : str)
      (received : nat) (r r' : R) (percents : list Z) (e : exn) :
  uninterrupted svc ->
  chunks_until svc doc_id received r percents (Raise e) r' ->
  is_exception e = true.
Proof.
  intros (_ & _ & Hn) H. remember (Raise e) as outcome eqn:Eo.
  induction H as [received r percent r' E | received r e0 r' E
                  | received r percent r1 percents outcome r' E _ IH].
  - discriminate.
  - injection Eo as <-. apply (Hn doc_id docx_mime_type received r). now rewrite E.
  - now apply IH.
Qed.

Lemma chunks_until_length (R : Type) (svc : services R) (fuel : nat) (doc_id : str)
      (received : nat) (r r' : R) (percents : list Z) (e : exn) :
  ends_within svc fuel ->
  chunks_until svc doc_id received r percents (Raise e) r' ->
  received < fuel ->
  received + length percents < fuel.
Proof.
  intros He H. remember (Raise e) as outcome eqn:Eo.
  induction H as [received r percent r' E | received r e0 r' E
                  | received r percent r1 percents outcome r' E _ IH]; intros Hlt.
  - discriminate.
  - cbn [length]. lia.
  - cbn [length].
    assert (S received < fuel).
    { destruct (Nat.le_gt_cases fuel (S received)) as [L | G]; [|exact G].
      exfalso. apply (He doc_id docx_mime_type received r percent L).
      now rewrite E. }
    specialize (IH Eo). lia.
Qed.

Lemma fixture_uninterrupted (fx : fixture) :
  (forall doc_id e, snd (fx_chunks fx doc_id) = Some e -> is_exception e = true) ->
  uninterrupted (fixture_services fx).
Proof.
  intros H. repeat split; cbn; try discriminate.
  intros doc_id _ received _ e. unfold chunk_answer.
  specialize (H doc_id).
  destruct (nth_error (fst (fx_chunks fx doc_id)) received),
           (snd (fx_chunks fx doc_id)); try discriminate.
  intros [= <-]. now apply H.
Qed.

Lemma fixture_ends_within (fx : fixture) (fuel : nat) :
  (forall doc_id, length (fst (fx_chunks fx doc_id)) < fuel) ->
  ends_within (fixture_services fx) fuel.
Proof.
  intros H doc_id mime received r percent Hle. cbn. unfold chunk_answer.
  specialize (H doc_id).
  destruct (nth_error (fst (fx_chunks fx doc_id)) received) eqn:En.
  - assert (received < length (fst (fx_chunks fx doc_id)))
      by (apply nth_error_Some; congruence).
    lia.
  - destruct (snd (fx_chunks fx doc_id)); discriminate.
Qed.

Lemma three_docs_chunks (doc_id : str) :
  (forall e, snd (fx_chunks three_docs doc_id) = Some e -> is_exception e = true)
  /\ length (fst (fx_chunks three_docs doc_id)) < 3.
Proof.
  cbn [fx_chunks three_docs]. destruct (PyStr.eqb doc_id _); cbn; split;
    try lia; try discriminate.
  now intros e [= <-].
Qed.



(** The run on the listing as the service sends it: the export of the
    second document fails, the third is made all the same. *)
Example download_full_listing :
  let run := download_main unit (fixture_services full_listing) 3
                           "Reading" "out" start in
  fst run = Ok tt
  /\ filter is_file_event (trace (snd run))
     = [OpenWb ("out/One.docx" : str);
        Sent (FilesExportMedia "id1" docx_mime_type);
        Sent (FilesExportMedia "id1" docx_mime_type);
        OpenWb ("out/Two.docx" : str);
        Sent (FilesExportMedia "id2" docx_mime_type);
        OpenWb ("out/Three.docx" : str);
        Sent (FilesExportMedia "id3" docx_mime_type);
        Sent (FilesExportMedia "id3" docx_mime_type)]
  /\ last (trace (snd run)) (Sleep 0)
     = Print ("Google Doc downloaded successfully as 'out/Three.docx'" : str).
Proof. vm_compute. repeat split. Qed.

(** A download left before the service ended it: the interrupt is not an
    [Exception], and [download_gdoc] lets it through. *)
Example download_never_done :
  let svc := fixture_services
               {| fx_token := token_granted; fx_folders := []; fx_bookmarks := [];
                  fx_added := ok_response []; fx_files := fx_files three_docs;
                  fx_chunks := fun _ => ([1%Z; 2%Z; 3%Z; 4%Z],
                                         Some (Exception "never reached"));
                  fx_uuid := 0%N |} in
  fst (download_gdoc unit svc 3 "https://docs.google.com/document/d/id1/edit"
                     "One" "out" start)
  = Raise KeyboardInterrupt.
Proof. vm_compute. reflexivity. Qed.

(** * The rest of the two scripts: properties *)

(** ** One-character separators *)

Lemma substring_char (c : code_point) (s : str) : Substring [c] s <-> In c s.
Proof.
  split.
  - intros (a & b & ->). apply in_or_app. right. now left.
  - intros H. apply in_split in H. destruct H as (a & b & ->). now exists a, b.
Qed.

Lemma find_char_none (c : code_point) (p : str) :
  ~ In c p -> PyStr.find [c] p = None.
Proof. intros H. apply find_None. now rewrite substring_char. Qed.

Lemma find_char_app (c : code_point) (p rest : str) :
  ~ In c p -> PyStr.find [c] (p ++ c :: rest) = Some (length p).
Proof.
  intros H. apply find_Some. split; [now exists p, rest|].
  intros j Hj (a & b & E & Ha). apply H.
  apply app_eq_app in E. destruct E as [l [[E1 E2] | [E1 E2]]].
  - destruct l as [|x l].
    + rewrite app_nil_r in E1. subst a. lia.
    + injection E2 as <- _. rewrite E1. apply in_or_app. right. now left.
  - apply (f_equal (@length code_point)) in E1. rewrite length_app in E1. lia.
Qed.

(** Splitting what was joined gives the pieces back, when no piece holds
    the separator. *)
Lemma split_join_char (c : code_point) (pieces : list str) :
  pieces <> [] ->
  Forall (fun p => ~ In c p) pieces ->
  PyStr.split [c] (PyStr.join [c] pieces) = pieces.
Proof.
  intros Hne Hall. revert Hne.
  induction Hall as [|p ps Hp Hps IH]; intros Hne; [now exfalso; apply Hne|].
  destruct ps as [|q ps].
  - cbn [PyStr.join]. apply split_no_sep. now apply find_char_none.
  - change (PyStr.join [c] (p :: q :: ps))
      with (p ++ c :: PyStr.join [c] (q :: ps)).
    rewrite (split_at_sep [c] _ (length p));
      [|discriminate | now apply find_char_app].
    rewrite take_app_length. cbn [length].
    rewrite drop_app_length. cbn [PyStr.drop skipn].
    rewrite IH by discriminate. reflexivity.
Qed.

(** ** The token response *)

Lemma split_key_value (k v : str) :
  ~ In ("="%char : code_point) k -> ~ In ("="%char : code_point) v ->
  PyStr.split "=" (k ++ "=" ++ v) = [k; v].
Proof.
  intros Hk Hv.
  apply (split_join_char ("="%char : code_point) [k; v]); [discriminate|].
  repeat constructor; assumption.
Qed.

Lemma dict_of_pairs (pairs : list (str * str)) (position : nat) :
  dict_of (map (fun kv => [fst kv; snd kv]) pairs) position = inr pairs.
Proof.
  revert position; induction pairs as [|[k v] ps IH]; intros position;
    [reflexivity|].
  cbn [map dict_of fst snd]. now rewrite IH.
Qed.

Lemma token_elements_encode (pairs : list (str * str)) :
  pairs <> [] ->
  Forall (fun kv => plain (fst kv) /\ plain (snd kv)) pairs ->
  token_elements (form_encode pairs) = map (fun kv => [fst kv; snd kv]) pairs.
Proof.
  intros Hne Hall. unfold token_elements, form_encode.
  rewrite (split_join_char ("&"%char : code_point)).
  - rewrite map_map. apply map_ext_in. intros [k v] Hin. cbn [fst snd].
    rewrite Forall_forall in Hall. destruct (Hall _ Hin) as [[_ Hk] [_ Hv]].
    now apply split_key_value.
  - destruct pairs; [congruence | discriminate].
  - rewrite Forall_map. rewrite Forall_forall in *. intros [k v] Hin.
    destruct (Hall _ Hin) as [[Hk _] [Hv _]]. cbn [fst snd] in *.
    intros H. apply in_app_or in H. destruct H as [H | H]; [auto|].
    cbn in H. destruct H as [H | H]; [discriminate | auto].
Qed.

(** X1. A 200 response whose text is the form encoding of pairs without
    [&] and [=] in them yields the values the pairs give to
    [oauth_token] and [oauth_token_secret], wherever the two stand and
    whatever else is sent along. *)
Theorem access_token_of_form_encoded
        (resp : response) (pairs : list (str * str)) (token secret : str) :
  status_code resp = 200%Z ->
  text resp = form_encode pairs ->
  pairs <> [] ->
  Forall (fun kv => plain (fst kv) /\ plain (snd kv)) pairs ->
  dict_get pairs "oauth_token" = Some token ->
  dict_get pairs "oauth_token_secret" = Some secret ->
  access_token_of resp = inr (token, secret).
Proof.
  intros Hs Ht Hne Hall Htok Hsec. unfold access_token_of.
  rewrite Hs, Ht, (token_elements_encode pairs Hne Hall), dict_of_pairs.
  cbn [Z.eqb Pos.eqb]. now rewrite Htok, Hsec.
Qed.

Lemma access_token_of_form_encoded_witness :
  access_token_of
    {| status_code := 200;
       text := "oauth_token_secret=s3cr3t&user=7&oauth_token=t0k3n";
       json := [] |}
  = inr (("t0k3n" : str), ("s3cr3t" : str)).
Proof.
  apply (access_token_of_form_encoded _
           [(("oauth_token_secret" : str), ("s3cr3t" : str));
            (("user" : str), ("7" : str));
            (("oauth_token" : str), ("t0k3n" : str))]).
  - reflexivity.
  - reflexivity.
  - discriminate.
  - repeat constructor; cbn; intuition discriminate.
  - reflexivity.
  - reflexivity.
Defined.

Lemma before_incl (sep s : str) (c : code_point) :
  In c (before sep s) -> In c s.
Proof.
  unfold before. destruct (PyStr.find sep s) as [j|]; [|auto].
  unfold PyStr.take. intros H. rewrite <- (firstn_skipn j s).
  apply in_or_app. now left.
Qed.

(** X2. A 200 response whose text holds no [=] at all, the empty text
    among them, is refused by [dict] at its first element, which has
    length 1. *)
Theorem access_token_of_no_equals (resp : response) :
  status_code resp = 200%Z ->
  ~ In ("="%char : code_point) (text resp) ->
  access_token_of resp = inl (TokenValueError 0 1).
Proof.
  intros Hs Hno. unfold access_token_of, token_elements. rewrite Hs.
  cbn [Z.eqb Pos.eqb].
  destruct (split_head "&" (text resp)) as [ps ->]; [discriminate|].
  cbn [map]. rewrite split_no_sep; [reflexivity|].
  apply (find_char_none ("="%char : code_point)). intros H. apply Hno.
  exact (before_incl _ _ _ H).
Qed.

Lemma access_token_of_no_equals_witness :
  access_token_of {| status_code := 200; text := []; json := [] |}
  = inl (TokenValueError 0 1).
Proof.
  apply access_token_of_no_equals; [reflexivity | intros []].
Defined.

Lemma split_char_twice (c : code_point) (s : str) :
  In c s -> exists p q rest, PyStr.split [c] s = p :: q :: rest.
Proof.
  intros H. destruct (PyStr.find [c] s) as [i|] eqn:F.
  - rewrite (split_at_sep [c] s i); [|discriminate | exact F].
    destruct (split_head [c] (PyStr.drop (i + length [c]) s)) as [ps ->];
      [discriminate|].
    eauto.
  - apply find_None in F. exfalso. apply F. now apply substring_char.
Qed.

(** X3. A secret with an [=] in it makes its element longer than 2 once
    split, and [dict] refuses the response at that element: such a token
    is never returned cut short. *)
Theorem access_token_of_equals_in_secret (resp : response) (token secret : str) :
  status_code resp = 200%Z ->
  text resp = "oauth_token=" ++ token ++ "&oauth_token_secret=" ++ secret ->
  plain token ->
  ~ In ("&"%char : code_point) secret ->
  In ("="%char : code_point) secret ->
  exists len, 3 <= len /\ access_token_of resp = inl (TokenValueError 1 len).
Proof.
  intros Hs Ht [Ta Te] Sa Se. unfold access_token_of, token_elements.
  rewrite Hs, Ht. cbn [Z.eqb Pos.eqb].
  change ("oauth_token=" ++ token ++ "&oauth_token_secret=" ++ secret)
    with (PyStr.join "&" [("oauth_token=" : str) ++ token;
                          ("oauth_token_secret=" : str) ++ secret]).
  rewrite (split_join_char ("&"%char : code_point)); [|discriminate|].
  - cbn [map].
    change (("oauth_token=" : str) ++ token) with (("oauth_token" : str) ++ "=" ++ token).
    rewrite split_key_value; [|cbn; intuition discriminate | exact Te].
    change (("oauth_token_secret=" : str) ++ secret)
      with (("oauth_token_secret" : str) ++ ("="%char : code_point) :: secret).
    rewrite (split_at_sep "=" _ (length ("oauth_token_secret" : str)));
      [|discriminate | apply (find_char_app ("="%char : code_point)); cbn; intuition discriminate].
    rewrite take_app_length. rewrite drop_app_length.
    change (PyStr.drop (length (literal "=")) (("="%char : code_point) :: secret))
      with secret.
    destruct (split_char_twice ("="%char : code_point) secret Se) as (p & q & rest & E).
    change (literal "=") with [("="%char : code_point)]. rewrite E.
    exists (3 + length rest). split; [lia | reflexivity].
  - repeat constructor; intros H; apply in_app_or in H;
      (destruct H as [H | H]; [cbn in H; intuition discriminate | auto]).
Qed.

Lemma access_token_of_equals_in_secret_witness :
  exists len,
    3 <= len
    /\ access_token_of
         {| status_code := 200;
            text := "oauth_token=t0k3n&oauth_token_secret=c2VjcmV0Cg==";
            json := [] |}
       = inl (TokenValueError 1 len).
Proof.
  apply (access_token_of_equals_in_secret _ "t0k3n" "c2VjcmV0Cg==").
  - reflexivity.
  - reflexivity.
  - split; cbn; intuition discriminate.
  - cbn; intuition discriminate.
  - cbn; intuition.
Defined.

(** ** The extractor, beyond the well-formed URL *)

Lemma no_slash_no_d (seg : str) :
  ~ Substring "/" seg -> PyStr.find "/d/" seg = None.
Proof.
  intros H. apply find_None. intros (a & b & ->). apply H.
  exists a, ("d/" ++ b). reflexivity.
Qed.

Lemma extract_doc_id_at_end_aux (pre seg : str) :
  first_occurrence "/d/" (pre ++ "/d/" ++ seg) (length pre) ->
  ~ Substring "/" seg ->
  extract_doc_id (pre ++ "/d/" ++ seg) = Ok seg.
Proof.
  intros Hfirst Hseg. rewrite extract_doc_id_eq.
  apply find_Some in Hfirst. rewrite Hfirst, drop_app_length.
  change (PyStr.drop 3 ("/d/" ++ seg)) with seg.
  unfold before at 2. rewrite (no_slash_no_d seg Hseg).
  rewrite <- (app_nil_r seg) at 1. f_equal. apply before_slash; auto.
Qed.

(** X4. When nothing follows the identifier, no ['/'] either, the
    extraction yields all that stands after the first ['/d/']. *)
Theorem extract_doc_id_at_end (pre seg : str) :
  first_occurrence "/d/" (pre ++ "/d/" ++ seg) (length pre) ->
  ~ Substring "/" seg ->
  extract_doc_id (pre ++ "/d/" ++ seg) = Ok seg.
Proof. exact (extract_doc_id_at_end_aux pre seg). Qed.

Lemma extract_doc_id_at_end_witness :
  extract_doc_id ("https://docs.google.com/document" ++ "/d/" ++ "1AbC")
  = Ok ("1AbC" : str).
Proof.
  apply extract_doc_id_at_end.
  - apply find_Some. reflexivity.
  - apply find_None. reflexivity.
Defined.

Lemma first_cut (c : code_point) (s : str) (j : nat) :
  PyStr.find [c] s = Some j ->
  exists seg rest, s = seg ++ [c] ++ rest /\ ~ Substring [c] seg.
Proof.
  intros F. apply find_Some in F. destruct F as [(a & b & E & Ha) Hmin].
  exists a, b. split; [exact E|].
  intros (a1 & a2 & E'). apply (Hmin (length a1)).
  - subst a j. rewrite !length_app. cbn. lia.
  - exists a1, (a2 ++ [c] ++ b). split; [|reflexivity].
    rewrite E, E'. now rewrite <- !app_assoc.
Qed.

(** X5. Whenever the extraction succeeds, the URL reads
    [pre ++ "/d/" ++ id ++ rest] with that ['/d/'] its first, no ['/'] in
    the identifier, and [rest] empty or starting with ['/']: the result is
    never more, and never less, than the segment after the first ['/d/']. *)
Theorem extract_doc_id_inv (doc_url id : str) :
  extract_doc_id doc_url = Ok id ->
  exists pre rest,
    doc_url = pre ++ "/d/" ++ id ++ rest
    /\ first_occurrence "/d/" doc_url (length pre)
    /\ ~ In ("/"%char : code_point) id
    /\ (rest = [] \/ exists rest', rest = "/" ++ rest').
Proof.
  intros H.
  destruct (PyStr.find "/d/" doc_url) as [i|] eqn:F.
  - pose proof F as F'. apply find_Some in F'.
    destruct F' as [(pre & b & E & Hlen) Hmin]. subst i.
    assert (Hfirst : first_occurrence "/d/" doc_url (length pre)).
    { split; [now exists pre, b | exact Hmin]. }
    destruct (PyStr.find "/" b) as [j|] eqn:Fb.
    + destruct (first_cut ("/"%char : code_point) b j Fb) as (seg & rest' & Eb & Hseg).
      subst b doc_url.
      assert (Hid : Ok id = Ok seg)
        by (rewrite <- H; exact (extract_doc_id_ok pre seg rest' Hfirst Hseg)).
      injection Hid as ->. exists pre, ("/" ++ rest').
      split; [reflexivity|]. split; [exact Hfirst|].
      split; [now rewrite <- substring_char | right; now exists rest'].
    + apply find_None in Fb. subst doc_url.
      assert (Hid : Ok id = Ok b)
        by (rewrite <- H; exact (extract_doc_id_at_end_aux pre b Hfirst Fb)).
      injection Hid as ->. exists pre, []. rewrite app_nil_r.
      split; [reflexivity|]. split; [exact Hfirst|].
      split; [now rewrite <- substring_char | now left].
  - apply find_None in F. rewrite (extract_doc_id_no_d _ F) in H. discriminate.
Qed.

Lemma extract_doc_id_inv_witness :
  exists pre rest,
    ("https://docs.google.com/document/d/1AbC/edit?usp=sharing" : str)
    = pre ++ "/d/" ++ ("1AbC" : str) ++ rest
    /\ first_occurrence "/d/"
         ("https://docs.google.com/document/d/1AbC/edit?usp=sharing" : str)
         (length pre)
    /\ ~ In ("/"%char : code_point) ("1AbC" : str)
    /\ (rest = [] \/ exists rest', rest = "/" ++ rest').
Proof.
  apply (extract_doc_id_inv
           "https://docs.google.com/document/d/1AbC/edit?usp=sharing" "1AbC").
  reflexivity.
Defined.

(** ** What a computation leaves out of the trace *)

Create HintDb silent.

Lemma silent_ret {R A} (P : event -> bool) (a : A) : silent P (@ret R A a).
Proof. intros w. reflexivity. Qed.

Lemma silent_raise {R A} (P : event -> bool) (e : exn) : silent P (@raise R A e).
Proof. intros w. reflexivity. Qed.

Lemma silent_lift {R A} (P : event -> bool) (r : result A) : silent P (@lift R A r).
Proof. intros w. reflexivity. Qed.

Lemma silent_bind {R A B} (P : event -> bool) (m : M R A) (k : A -> M R B) :
  silent P m -> (forall a, silent P (k a)) -> silent P (bind m k).
Proof.
  intros Hm Hk w. unfold bind. specialize (Hm w).
  destruct (m w) as [[a|e] w1]; cbn [snd] in *; [|exact Hm].
  now rewrite Hk.
Qed.

Lemma silent_try_except {R A} (P : event -> bool)
      (m : M R A) (handler : exn -> M R A) :
  silent P m -> (forall e, silent P (handler e)) -> silent P (try_except m handler).
Proof.
  intros Hm Hh w. unfold try_except. specialize (Hm w).
  destruct (m w) as [[a|e] w1]; cbn [snd] in *; [exact Hm|].
  destruct (is_exception e); [now rewrite Hh | exact Hm].
Qed.

Lemma silent_ask {R A} (P : event -> bool) (log : list event) (op : R -> A * R) :
  filter P log = [] -> silent P (ask log op).
Proof.
  intros H w. unfold ask. destruct (op (remote w)) as [a s]. cbn [snd trace].
  now rewrite filter_app, H, app_nil_r.
Qed.

Lemma silent_attempt {R A} (P : event -> bool)
      (log : list event) (op : R -> result A * R) :
  filter P log = [] -> silent P (attempt log op).
Proof.
  intros H. apply silent_bind; [now apply silent_ask | intros a; apply silent_lift].
Qed.

Lemma silent_emit {R} (P : event -> bool) (e : event) :
  P e = false -> silent P (@emit R e).
Proof.
  intros H w. unfold emit. cbn [snd trace].
  rewrite filter_app. cbn [filter]. now rewrite H, app_nil_r.
Qed.

Lemma silent_for_each {R A} (P : event -> bool) (l : list A) (body : A -> M R unit) :
  (forall x, silent P (body x)) -> silent P (for_each l body).
Proof.
  intros Hb. induction l as [|x l IH]; cbn [for_each].
  - apply silent_ret.
  - apply silent_bind; [apply Hb | intros _; exact IH].
Qed.

#[export] Hint Resolve silent_ret silent_raise silent_lift : silent.
#[export] Hint Extern 2 (silent _ (bind _ _)) => apply silent_bind; [|intros ?] : silent.
#[export] Hint Extern 2 (silent _ (try_except _ _)) =>
  apply silent_try_except; [|intros ?] : silent.
#[export] Hint Extern 2 (silent _ (for_each _ _)) =>
  apply silent_for_each; intros ? : silent.
#[export] Hint Extern 1 (silent _ (ask _ _)) => apply silent_ask; reflexivity : silent.
#[export] Hint Extern 1 (silent _ (attempt _ _)) =>
  apply silent_attempt; reflexivity : silent.
#[export] Hint Extern 1 (silent _ (emit _)) => apply silent_emit; reflexivity : silent.
#[export] Hint Extern 1 (silent _ (print _)) =>
  unfold print; apply silent_emit; reflexivity : silent.
#[export] Hint Extern 3 (silent _ (if ?c then _ else _)) => destruct c : silent.
#[export] Hint Extern 3 (silent _ (match ?c with Some _ => _ | None => _ end)) =>
  destruct c : silent.

Section Silent.

Variable R : Type.
Variable svc : services R.

(** Requests to the document service apart, the shared functions send
    reads only. *)
Lemma silent_fetch (P : event -> bool) (doc_url : str) :
  (forall fileId fields, P (Sent (FilesGet fileId fields)) = false) ->
  (forall line, P (Print line) = false) ->
  silent P (fetch_google_doc_info R svc doc_url).
Proof.
  intros Hg Hp. unfold fetch_google_doc_info.
  apply silent_bind; [apply silent_lift | intros doc_id].
  apply silent_bind; [apply silent_attempt; reflexivity | intros _].
  apply silent_try_except.
  - apply silent_bind.
    + apply silent_attempt. cbn [filter]. now rewrite Hg.
    + intros fm. auto 6 with silent.
  - intros e. apply silent_bind; [|intros; apply silent_ret].
    unfold print. apply silent_emit, Hp.
Qed.

Lemma silent_folder_id (P : event -> bool) (folder_name : str) :
  P (Sent FoldersList) = false ->
  silent P (get_instapaper_folder_id R svc folder_name).
Proof.
  intros H. unfold get_instapaper_folder_id.
  apply silent_bind; [apply silent_ask; cbn [filter]; now rewrite H|].
  intros resp. destruct (status_code resp =? 200)%Z; auto with silent.
Qed.

Lemma silent_bookmarks (P : event -> bool) (folder_name : str) :
  P (Sent FoldersList) = false ->
  (forall folder_id limit, P (Sent (BookmarksList folder_id limit)) = false) ->
  silent P (get_instapaper_bookmarks R svc folder_name).
Proof.
  intros Hf Hb. unfold get_instapaper_bookmarks.
  apply silent_bind; [now apply silent_folder_id | intros folder_id].
  destruct (falsy folder_id); [apply silent_raise|].
  apply silent_bind; [apply silent_ask; cbn [filter]; now rewrite Hb|].
  intros resp. destruct (status_code resp =? 200)%Z; auto with silent.
Qed.

End Silent.

Section SilentRuns.

Variable R : Type.
Variable svc : services R.
Variable P : event -> bool.

Hypothesis P_print : forall line, P (Print line) = false.

Lemma silent_print_line (line : str) : silent P (@print R line).
Proof. unfold print. apply silent_emit, P_print. Qed.

Lemma silent_gather :
  (forall fileId fields, P (Sent (FilesGet fileId fields)) = false) ->
  forall bookmarks docs_info, silent P (gather R svc bookmarks docs_info).
Proof.
  intros Hg. induction bookmarks as [|b bs IH]; intros docs_info; cbn [gather].
  - apply silent_ret.
  - apply silent_bind; [apply silent_lift | intros u].
    apply silent_bind; [now apply silent_fetch | intros d].
    apply silent_bind; [apply silent_lift | intros t].
    apply silent_bind; [apply silent_lift | intros d'].
    apply silent_bind; [apply silent_print_line | intros _]. apply IH.
Qed.

Lemma silent_create (folder_name : str) :
  P (Sent (FoldersAdd folder_name)) = false ->
  silent P (create_instapaper_folder R svc folder_name).
Proof.
  intros H. unfold create_instapaper_folder.
  apply silent_bind; [apply silent_ask; cbn [filter]; now rewrite H|].
  intros resp. destruct (status_code resp =? 200)%Z; auto with silent.
Qed.

Lemma silent_republish (new_folder_id : Z) (d : aggregated_doc) :
  (forall u t de c f, P (Sent (BookmarksAdd u t de c f)) = false) ->
  P (Sleep 1) = false ->
  silent P (republish R svc new_folder_id d).
Proof.
  intros Ha Hs. unfold republish, save_instapaper_bookmark. cbv zeta.
  apply silent_bind; [apply silent_print_line | intros _].
  apply silent_bind; [|intros _; now apply silent_emit].
  apply silent_bind; [apply silent_ask; cbn [filter]; now rewrite Ha|].
  intros resp. destruct (negb (status_code resp =? 200)%Z); auto with silent.
Qed.

Lemma silent_next_chunks (doc_id mime_type : str) (turns : nat) :
  (forall fileId mimeType, P (Sent (FilesExportMedia fileId mimeType)) = false) ->
  forall received, silent P (next_chunks R svc turns doc_id mime_type received).
Proof.
  intros He. induction turns as [|turns IH]; intros received; cbn [next_chunks].
  - apply silent_raise.
  - apply silent_bind; [apply silent_attempt; cbn [filter]; now rewrite He|].
    intros chunk. apply silent_bind; [apply silent_print_line | intros _].
    destruct (snd chunk); [apply silent_ret | apply IH].
Qed.

Lemma silent_download_gdoc (fuel : nat) (doc_url title_ save_folder : str) :
  (forall path, P (OpenWb path) = false) ->
  (forall fileId mimeType, P (Sent (FilesExportMedia fileId mimeType)) = false) ->
  silent P (download_gdoc R svc fuel doc_url title_ save_folder).
Proof.
  intros Ho He. unfold download_gdoc. apply silent_try_except.
  - apply silent_bind; [apply silent_lift | intros doc_id].
    apply silent_bind; [apply silent_attempt; reflexivity | intros _]. cbv zeta.
    apply silent_bind; [apply silent_attempt; cbn [filter]; now rewrite Ho | intros _].
    apply silent_bind; [now apply silent_next_chunks | intros _].
    apply silent_bind; [apply silent_print_line | intros; apply silent_ret].
  - intros e. apply silent_bind; [apply silent_print_line | intros; apply silent_ret].
Qed.

(** Steps 1 and 2 send the token request and touch the two credential
    files, and nothing else. *)
Lemma silent_sign_in (scopes : list str) :
  (forall u p m, P (Sent (AccessToken u p m)) = false) ->
  P (PathExists GOOGLE_AUTHORIZED_USER_PATH) = false ->
  P (OpenR GOOGLE_AUTHORIZED_USER_PATH) = false ->
  P (OpenW GOOGLE_AUTHORIZED_USER_PATH) = false ->
  P (OpenR (GOOGLE_CREDENTIALS_PATH (settings svc))) = false ->
  P RunLocalServer = false ->
  silent P (sign_in R svc scopes).
Proof.
  intros Ht He Hr Hw Hc Hs.
  unfold sign_in, get_instapaper_access_token, generate_google_authorized_user.
  apply silent_bind.
  { apply silent_bind; [apply silent_ask; cbn [filter]; now rewrite Ht|].
    intros resp. apply silent_lift. }
  intros tokens. cbv zeta.
  apply silent_bind; [apply silent_ask; cbn [filter]; now rewrite He|].
  intros found. apply silent_bind; [|intros _; apply silent_ret].
  destruct found.
  - apply silent_attempt. cbn [filter]. now rewrite Hr.
  - apply silent_bind; [apply silent_attempt; cbn [filter]; now rewrite Hc|].
    intros _.
    apply silent_bind; [apply silent_attempt; cbn [filter]; now rewrite Hs|].
    intros creds. apply silent_attempt. cbn [filter]. now rewrite Hw.
Qed.

Lemma silent_reorganize (folder_name new_folder_name : str) :
  P (Sent FoldersList) = false ->
  (forall folder_id limit, P (Sent (BookmarksList folder_id limit)) = false) ->
  (forall fileId fields, P (Sent (FilesGet fileId fields)) = false) ->
  P (Sent (FoldersAdd new_folder_name)) = false ->
  (forall u t de c f, P (Sent (BookmarksAdd u t de c f)) = false) ->
  P (Sleep 1) = false ->
  silent P (reorganize R svc folder_name new_folder_name).
Proof.
  intros Hl Hb Hg Hf Ha Hs. unfold reorganize.
  apply silent_bind; [now apply silent_bookmarks | intros bookmarks].
  apply silent_bind; [now apply silent_gather | intros docs].
  cbv zeta.
  apply silent_bind; [now apply silent_folder_id | intros found].
  apply silent_bind.
  { destruct (falsy found); [now apply silent_create | apply silent_ret]. }
  intros new_folder_id. apply silent_for_each. intros d.
  now apply silent_republish.
Qed.

Lemma silent_choose (folder_name : str) (target : option str) :
  silent P (choose_new_folder_name R svc folder_name target).
Proof.
  unfold choose_new_folder_name, generate_unique_folder_name.
  destruct (truthy target); auto with silent.
Qed.

End SilentRuns.

Lemma eqb_refl (s : str) : PyStr.eqb s s = true.
Proof. now apply eqb_spec. Qed.

(** X6. Download mode reads from the bookmark service and never writes to
    it: whatever the services answer, a run adds no folder and no
    bookmark, and asks for no document metadata either. *)
Theorem download_main_never_writes
        (R : Type) (svc : services R) (fuel : nat) (folder save_folder : str) :
  silent is_bookmark_service_write (download_main R svc fuel folder save_folder)
  /\ silent is_files_get (download_main R svc fuel folder save_folder).
Proof.
  split; unfold download_main;
    (apply silent_bind; [apply silent_print_line; reflexivity | intros _]);
    (apply silent_bind; [apply silent_sign_in; reflexivity | intros _]);
    (apply silent_bind; [apply silent_bookmarks; reflexivity | intros bookmarks]);
    apply silent_for_each; intros b; unfold download_bookmark;
    (apply silent_bind; [apply silent_lift | intros t]);
    (apply silent_bind; [apply silent_print_line; reflexivity | intros _]);
    (apply silent_bind; [apply silent_lift | intros u]);
    (apply silent_bind; [|intros _; apply silent_ret]);
    apply silent_download_gdoc; reflexivity.
Qed.

(** X7. From its arguments on, [main] of reorganize mode never opens a
    file for binary writing, as the downloads do, and never asks for an
    export; and the only local files it looks for, reads or writes are
    the two credential files of its second step, whatever its arguments
    and whatever the services answer.  (The configuration file is read
    when the script is loaded, before [main].) *)
Theorem main_touches_credential_files_only
        (R : Type) (svc : services R) (folder_name : str) (target : option str) :
  silent is_file_event (main R svc folder_name target)
  /\ silent (is_other_file [GOOGLE_AUTHORIZED_USER_PATH;
                            GOOGLE_CREDENTIALS_PATH (settings svc)])
            (main R svc folder_name target).
Proof.
  split; unfold main;
    (apply silent_bind; [apply silent_choose|]); intros new_folder_name;
    (apply silent_bind; [apply silent_print_line; reflexivity | intros _]);
    (apply silent_bind; [apply silent_print_line; reflexivity | intros _]);
    (apply silent_bind; [|intros _; apply silent_reorganize; reflexivity]);
    apply silent_sign_in; try reflexivity;
    cbn [is_other_file existsb]; now rewrite eqb_refl, ?orb_true_r.
Qed.

(** ** The adapter, when the folder does not resolve *)

(** X8. When the folder listing has no folder of the requested name, or
    the first one of that name has no [folder_id] or the [folder_id] 0,
    [get_instapaper_bookmarks] raises "No such folder named ..." and has
    sent nothing but the folder listing request: no bookmark listing is
    asked for. *)
Theorem get_instapaper_bookmarks_unresolved
        (R : Type) (svc : services R) (folder_name : str) (w : world R)
        (resp : response) (r1 : R) :
  folders_list svc (remote w) = (resp, r1) ->
  status_code resp = 200%Z ->
  ((forall g, In g (json resp) -> ~ folder_named folder_name g)
   \/ exists pre f post,
       json resp = pre ++ f :: post
       /\ folder_named folder_name f
       /\ (forall g, In g pre -> ~ folder_named folder_name g)
       /\ (item_folder_id f = None \/ item_folder_id f = Some 0%Z)) ->
  get_instapaper_bookmarks R svc folder_name w
  = (Raise (Exception ("No such folder named " ++ folder_name)),
     {| trace := trace w ++ [Sent FoldersList]; remote := r1 |}).
Proof.
  intros Hl Hs Hcase.
  assert (Hf : falsy (scan_folders (json resp) folder_name) = true).
  { destruct Hcase as [Hnone | (pre & f & post & -> & Hf & Hpre & Hid)].
    - now rewrite scan_folders_none.
    - rewrite scan_folders_first by assumption.
      destruct Hid as [-> | ->]; reflexivity. }
  unfold get_instapaper_bookmarks, get_instapaper_folder_id.
  unfold bind, ask, raise, ret. rewrite Hl, Hs. cbn [Z.eqb Pos.eqb].
  now rewrite Hf.
Qed.

Lemma get_instapaper_bookmarks_unresolved_witness :
  get_instapaper_bookmarks unit (fixture_services shelves) "Read" start
  = (Raise (Exception ("No such folder named " ++ ("Read" : str))),
     {| trace := [Sent FoldersList]; remote := tt |})
  /\ get_instapaper_bookmarks unit
       (fixture_services
          {| fx_token := token_granted; fx_added := ok_response [];
             fx_folders := [folder_entry "Inbox" 0]; fx_bookmarks := [];
             fx_files := fx_files shelves; fx_chunks := fx_chunks shelves;
             fx_uuid := 0%N |})
       "Inbox" start
     = (Raise (Exception ("No such folder named " ++ ("Inbox" : str))),
        {| trace := [Sent FoldersList]; remote := tt |}).
Proof.
  split.
  - apply (get_instapaper_bookmarks_unresolved unit (fixture_services shelves)
             "Read" start (ok_response (fx_folders shelves)) tt);
      [reflexivity | reflexivity | left].
    intros g [<- | [<- | [<- | [<- | []]]]] [H1 H2]; discriminate.
  - apply (get_instapaper_bookmarks_unresolved unit _ "Inbox" start
             (ok_response [folder_entry "Inbox" 0]) tt);
      [reflexivity | reflexivity | right].
    exists [], (folder_entry "Inbox" 0), [].
    repeat split; [intros g [] | now right].
Defined.

(** ** Reorganize mode, stage by stage *)

Section ReorganizeStages.

Variable R : Type.
Variable svc : services R.

(** A run of steps 3 to 7 that completes went through these stages. *)
Lemma reorganize_stages (folder_name new_folder_name : str) (w w' : world R) :
  reorganize R svc folder_name new_folder_name w = (Ok tt, w') ->
  exists bookmarks w1 docs w2 found w3 dest w4,
    get_instapaper_bookmarks R svc folder_name w = (Ok bookmarks, w1)
    /\ gather R svc bookmarks [] w1 = (Ok docs, w2)
    /\ get_instapaper_folder_id R svc new_folder_name w2 = (Ok found, w3)
    /\ (if falsy found then create_instapaper_folder R svc new_folder_name
        else ret (get_or found 0%Z)) w3 = (Ok dest, w4)
    /\ for_each (sort sort_key docs) (republish R svc dest) w4 = (Ok tt, w').
Proof.
  unfold reorganize. intros H.
  apply bind_ok_inv in H. destruct H as (bookmarks & w1 & H1 & H).
  apply bind_ok_inv in H. destruct H as (docs & w2 & H2 & H).
  cbv zeta in H.
  apply bind_ok_inv in H. destruct H as (found & w3 & H3 & H).
  apply bind_ok_inv in H. destruct H as (dest & w4 & H4 & H).
  exists bookmarks, w1, docs, w2, found, w3, dest, w4. auto.
Qed.

Lemma create_trace (folder_name : str) (w : world R) :
  trace (snd (create_instapaper_folder R svc folder_name w))
  = trace w ++ [Sent (FoldersAdd folder_name)].
Proof.
  unfold create_instapaper_folder, bind, ask, lift, raise.
  destruct (folders_add svc folder_name (remote w)) as [resp r1].
  destruct (status_code resp =? 200)%Z; [|reflexivity].
  destruct (index (json resp) 0) as [first|e]; [|reflexivity].
  reflexivity.
Qed.

End ReorganizeStages.

(** ** The destination of a run without a usable [--target] *)

(** Steps 3 to 7 create at most one folder, and only under the name they
    were given. *)
Lemma reorganize_folder_adds
      (R : Type) (svc : services R) (folder_name new_folder_name : str)
      (w : world R) :
  exists added,
    filter is_folder_add
           (trace (snd (reorganize R svc folder_name new_folder_name w)))
    = filter is_folder_add (trace w) ++ added
    /\ (added = [] \/ added = [Sent (FoldersAdd new_folder_name)]).
Proof.
  unfold reorganize, bind.
  pose proof (silent_bookmarks R svc is_folder_add folder_name
                eq_refl (fun _ _ => eq_refl) w) as S1.
  destruct (get_instapaper_bookmarks R svc folder_name w) as [[bookmarks|e] w1];
    cbn [snd] in *; [|exists []; rewrite S1, app_nil_r; auto].
  pose proof (silent_gather R svc is_folder_add (fun _ => eq_refl)
                (fun _ _ => eq_refl) bookmarks [] w1) as S2.
  destruct (gather R svc bookmarks [] w1) as [[docs|e] w2];
    cbn [snd] in *; [|exists []; rewrite S2, S1, app_nil_r; auto].
  cbv zeta.
  pose proof (silent_folder_id R svc is_folder_add new_folder_name eq_refl w2) as S3.
  destruct (get_instapaper_folder_id R svc new_folder_name w2) as [[found|e] w3];
    cbn [snd] in *; [|exists []; rewrite S3, S2, S1, app_nil_r; auto].
  assert (S5 : forall dest w4,
             filter is_folder_add
                    (trace (snd (for_each (sort sort_key docs)
                                          (republish R svc dest) w4)))
             = filter is_folder_add (trace w4)).
  { intros dest w4. apply silent_for_each. intros d.
    apply silent_republish; reflexivity. }
  destruct (falsy found).
  - pose proof (create_trace R svc new_folder_name w3) as T4.
    exists [Sent (FoldersAdd new_folder_name)]. split; [|now right].
    destruct (create_instapaper_folder R svc new_folder_name w3) as [[dest|e] w4];
      cbn [snd] in *; rewrite ?S5, T4, filter_app, S3, S2, S1; reflexivity.
  - unfold ret. exists []. split; [|now left].
    now rewrite S5, S3, S2, S1, app_nil_r.
Qed.

(** C9. With [--target] given as the empty string the run is the run
    without [--target].  The destination name is chosen as the source
    name, a hyphen and the first four characters of a fresh UUID, without
    a trace; the run is then the run of the remaining steps with that
    name: it is the name printed, the name looked up, and the only name a
    folder is created under, and a run creates at most one folder.  The
    empty string is never the name of the folder. *)
Theorem empty_target_is_synthesized
        (R : Type) (svc : services R) (folder_name : str) (w : world R) :
  main R svc folder_name (Some []) w = main R svc folder_name None w
  /\ choose_new_folder_name R svc folder_name (Some []) w
     = choose_new_folder_name R svc folder_name None w
  /\ exists suffix : str,
      length suffix = 4
      /\ suffix = PyStr.take 4 (uuid_str (fst (uuid4 svc (remote w))))
      /\ let name := folder_name ++ "-" ++ suffix in
         let w0 := {| trace := trace w; remote := snd (uuid4 svc (remote w)) |} in
         name <> []
         /\ choose_new_folder_name R svc folder_name (Some []) w = (Ok name, w0)
         /\ main R svc folder_name (Some []) w
            = (print ("Scanning folder: " ++ folder_name) ;;
               print ("New folder name: " ++ name) ;;
               sign_in R svc GOOGLE_API_SCOPES ;;
               reorganize R svc folder_name name) w0
         /\ exists added,
              filter is_folder_add
                     (trace (snd (main R svc folder_name (Some []) w)))
              = filter is_folder_add (trace w) ++ added
              /\ (added = [] \/ added = [Sent (FoldersAdd name)]).
Proof.
  split; [reflexivity|]. split; [reflexivity|].
  exists (PyStr.take 4 (uuid_str (fst (uuid4 svc (remote w))))).
  split; [apply uuid_suffix|]. split; [reflexivity|]. cbv zeta.
  set (name := folder_name ++ "-" ++ PyStr.take 4 (uuid_str (fst (uuid4 svc (remote w))))).
  set (w0 := {| trace := trace w; remote := snd (uuid4 svc (remote w)) |}).
  assert (Hc : choose_new_folder_name R svc folder_name (Some []) w = (Ok name, w0)).
  { unfold choose_new_folder_name, generate_unique_folder_name.
    change (truthy (Some [])) with false. unfold bind, ask, ret.
    subst name w0. destruct (uuid4 svc (remote w)) as [n r1]. cbn [fst snd].
    now rewrite app_nil_r. }
  assert (Hm : main R svc folder_name (Some []) w
               = (print ("Scanning folder: " ++ folder_name) ;;
                  print ("New folder name: " ++ name) ;;
                  sign_in R svc GOOGLE_API_SCOPES ;;
                  reorganize R svc folder_name name) w0).
  { unfold main. unfold bind at 1. now rewrite Hc. }
  split; [subst name; now destruct folder_name|].
  split; [exact Hc|]. split; [exact Hm|].
  rewrite Hm. unfold bind at 1, print at 1, emit at 1.
  unfold bind at 1, print at 1, emit at 1. unfold bind at 1.
  pose proof (silent_sign_in R svc is_folder_add GOOGLE_API_SCOPES
                (fun _ _ _ => eq_refl) eq_refl eq_refl eq_refl eq_refl eq_refl
                {| trace := (trace w0 ++ [Print ("Scanning folder: " ++ folder_name)])
                            ++ [Print ("New folder name: " ++ name)];
                   remote := remote w0 |}) as S.
  cbn [trace] in S. rewrite !filter_app in S. cbn [filter is_folder_add] in S.
  rewrite !app_nil_r in S. change (trace w0) with (trace w) in *.
  destruct (sign_in R svc GOOGLE_API_SCOPES _) as [[session|e] w1]; cbn [snd] in S.
  - destruct (reorganize_folder_adds R svc folder_name name w1) as (added & E & Ha).
    exists added. split; [|exact Ha]. now rewrite E, S.
  - exists []. split; [|now left]. cbn [snd]. now rewrite S, app_nil_r.
Qed.

(** The run with an empty [--target] on two documents: the folder is
    created under the synthesized name. *)
Example main_creates_synthesized_folder :
  filter is_folder_add
         (trace (snd (main unit (fixture_services two_docs) "Reading" (Some []) start)))
  = [Sent (FoldersAdd "Reading-ab12")].
Proof. vm_compute. reflexivity. Qed.

(** X9. A reorganize run that completes has added one bookmark for every
    bookmark of the filtered listing, duplicates included: the addresses
    added are those of the listing up to order, none dropped and none
    merged. *)
Theorem reorganize_adds_every_bookmark
        (R : Type) (svc : services R)
        (folder_name new_folder_name : str) (w w' : world R) :
  reorganize R svc folder_name new_folder_name w = (Ok tt, w') ->
  exists bookmarks w1 added,
    get_instapaper_bookmarks R svc folder_name w = (Ok bookmarks, w1)
    /\ bookmarks_added (trace w') = bookmarks_added (trace w) ++ added
    /\ length added = length bookmarks
    /\ Permutation (map request_url added)
                   (map (fun b => get_or (item_url b) []) bookmarks).
Proof.
  intros H. apply reorganize_sends_sorted in H.
  destruct H as (bookmarks & w1 & docs & w2 & dest & H1 & H2 & Hu & Hadd).
  exists bookmarks, w1, (map (addition dest) (sort sort_key docs)).
  split; [exact H1|]. split; [exact Hadd|].
  assert (Hp : Permutation (map request_url (map (addition dest) (sort sort_key docs)))
                           (map (fun b => get_or (item_url b) []) bookmarks)).
  { rewrite map_map. cbn [addition request_url]. rewrite <- Hu.
    apply Permutation_map, sort_perm. }
  split; [|exact Hp].
  apply Permutation_length in Hp. rewrite !length_map in Hp.
  now rewrite length_map.
Qed.

Lemma reorganize_adds_every_bookmark_witness :
  exists bookmarks w1 added,
    get_instapaper_bookmarks unit (fixture_services two_docs) "Reading" start
    = (Ok bookmarks, w1)
    /\ bookmarks_added
         (trace (snd (reorganize unit (fixture_services two_docs)
                        "Reading" "Sorted" start)))
       = bookmarks_added (trace start) ++ added
    /\ length added = length bookmarks
    /\ Permutation (map request_url added)
                   (map (fun b => get_or (item_url b) []) bookmarks).
Proof.
  apply (reorganize_adds_every_bookmark unit (fixture_services two_docs)
           "Reading" "Sorted" start).
  reflexivity.
Defined.

(** X10. A reorganize run that completes listed the source folder,
    gathered the documents of its bookmarks, and then looked the
    destination name up, in the world the gathering left.  If that found
    a folder with a non-zero id, no folder was created and every bookmark
    went into the found folder; otherwise exactly one folder was created,
    with the destination name, and every bookmark carries the id that the
    creation answered.  The bookmarks added are the gathered documents,
    each once. *)
Theorem reorganize_destination
        (R : Type) (svc : services R)
        (folder_name new_folder_name : str) (w w' : world R) :
  reorganize R svc folder_name new_folder_name w = (Ok tt, w') ->
  exists bookmarks w1 docs w2 found w3 dest republished,
    get_instapaper_bookmarks R svc folder_name w = (Ok bookmarks, w1)
    /\ gather R svc bookmarks [] w1 = (Ok docs, w2)
    /\ get_instapaper_folder_id R svc new_folder_name w2 = (Ok found, w3)
    /\ filter is_folder_add (trace w')
       = filter is_folder_add (trace w)
         ++ (if falsy found then [Sent (FoldersAdd new_folder_name)] else [])
    /\ (falsy found = false -> found = Some dest)
    /\ (falsy found = true ->
        exists w4, create_instapaper_folder R svc new_folder_name w3 = (Ok dest, w4))
    /\ Permutation republished docs
    /\ bookmarks_added (trace w')
       = bookmarks_added (trace w) ++ map (addition dest) republished.
Proof.
  intros H. apply reorganize_stages in H.
  destruct H as (bookmarks & w1 & docs & w2 & found & w3 & dest & w4
                 & H1 & H2 & H3 & H4 & H5).
  exists bookmarks, w1, docs, w2, found, w3, dest, (sort sort_key docs).
  split; [exact H1|]. split; [exact H2|]. split; [exact H3|].
  pose proof (silent_bookmarks R svc is_folder_add folder_name
                eq_refl (fun _ _ => eq_refl) w) as S1.
  pose proof (silent_gather R svc is_folder_add (fun _ => eq_refl)
                (fun _ _ => eq_refl) bookmarks [] w1) as S2.
  pose proof (silent_folder_id R svc is_folder_add new_folder_name eq_refl w2) as S3.
  pose proof (silent_for_each is_folder_add (sort sort_key docs)
                (republish R svc dest)
                (fun d => silent_republish R svc is_folder_add (fun _ => eq_refl)
                            dest d (fun _ _ _ _ _ => eq_refl) eq_refl) w4) as S5.
  pose proof (quiet_bookmarks R svc folder_name w) as Q1.
  pose proof (quiet_gather R svc bookmarks [] w1) as Q2.
  pose proof (quiet_folder_id R svc new_folder_name w2) as Q3.
  destruct (for_each_republish_added R svc dest (sort sort_key docs) w4)
    as (n & _ & Hn & Hadd).
  rewrite H1 in S1, Q1. rewrite H2 in S2, Q2. rewrite H3 in S3, Q3.
  rewrite H5 in S5, Hn, Hadd. cbn [fst snd] in *.
  rewrite (Hn eq_refl), firstn_all in Hadd.
  destruct (falsy found) eqn:Ef.
  - pose proof (create_trace R svc new_folder_name w3) as T4.
    pose proof (quiet_create R svc new_folder_name w3) as Q4.
    rewrite H4 in T4, Q4. cbn [snd] in *.
    split; [|split; [discriminate|split; [|split]]].
    + rewrite S5, T4, filter_app, S3, S2, S1. reflexivity.
    + intros _. now exists w4.
    + apply sort_perm.
    + now rewrite Hadd, Q4, Q3, Q2, Q1.
  - unfold ret in H4. injection H4 as <- <-.
    split; [|split; [|split; [discriminate|split]]].
    + rewrite S5, S3, S2, S1. now rewrite app_nil_r.
    + intros _. destruct found as [z|]; [reflexivity | discriminate].
    + apply sort_perm.
    + now rewrite Hadd, Q3, Q2, Q1.
Qed.

Lemma reorganize_destination_witness :
  exists bookmarks w1 docs w2 found w3 dest republished,
    get_instapaper_bookmarks unit (fixture_services two_docs) "Reading" start
    = (Ok bookmarks, w1)
    /\ gather unit (fixture_services two_docs) bookmarks [] w1 = (Ok docs, w2)
    /\ get_instapaper_folder_id unit (fixture_services two_docs) "Sorted" w2
       = (Ok found, w3)
    /\ filter is_folder_add
         (trace (snd (reorganize unit (fixture_services two_docs)
                        "Reading" "Sorted" start)))
       = filter is_folder_add (trace start)
         ++ (if falsy found then [Sent (FoldersAdd "Sorted")] else [])
    /\ (falsy found = false -> found = Some dest)
    /\ (falsy found = true ->
        exists w4, create_instapaper_folder unit (fixture_services two_docs)
                     "Sorted" w3 = (Ok dest, w4))
    /\ Permutation republished docs
    /\ bookmarks_added
         (trace (snd (reorganize unit (fixture_services two_docs)
                        "Reading" "Sorted" start)))
       = bookmarks_added (trace start) ++ map (addition dest) republished.
Proof.
  apply (reorganize_destination unit (fixture_services two_docs)
           "Reading" "Sorted" start).
  reflexivity.
Defined.

Example reorganize_into_existing_folder :
  let run := reorganize unit (fixture_services two_docs) "Reading" "Sorted" start in
  filter is_folder_add (trace (snd run)) = []
  /\ map (fun r => match r with BookmarksAdd _ _ _ _ f => f | _ => 0%Z end)
         (bookmarks_added (trace (snd run)))
     = [8%Z; 8%Z].
Proof. vm_compute. split; reflexivity. Qed.

(** X11. When the bookmark service refuses an addition, step 7 ends
    there with "Failed to save bookmark: ..." carrying the response text:
    the refused request is the last thing sent, without the pause after
    it, and the entries after it are not sent at all. *)
Theorem republish_stops_at_refusal
        (R : Type) (svc : services R) (new_folder_id : Z)
        (d : aggregated_doc) (rest : list aggregated_doc) (w : world R)
        (resp : response) (r1 : R) :
  bookmarks_add svc (url d) (bookmark_title d) (bookmark_description d)
                (bookmark_description d) new_folder_id (remote w) = (resp, r1) ->
  status_code resp <> 200%Z ->
  for_each (d :: rest) (republish R svc new_folder_id) w
  = (Raise (Exception ("Failed to save bookmark: " ++ text resp)),
     {| trace := trace w
                 ++ [Print ("Adding " ++ PyStr.take 10 (modified_date (doc d))
                            ++ " - " ++ fmt (title (doc d)));
                     Sent (addition new_folder_id d)];
        remote := r1 |}).
Proof.
  intros Hadd Hs. cbn [for_each]. unfold republish, save_instapaper_bookmark.
  cbv zeta. unfold bind, print, emit, ask, raise. cbn [remote trace].
  rewrite Hadd. apply Z.eqb_neq in Hs. rewrite Hs. cbn [negb].
  now rewrite <- app_assoc.
Qed.

Lemma republish_stops_at_refusal_witness :
  let d := {| doc := {| title := Some ("One" : str); owner := "Ann";
                        modified_date := "2023-05-01T10:00:00.000Z" |};
              url := "https://docs.google.com/document/d/id1/edit" |} in
  for_each [d; d] (republish unit read_only 8) start
  = (Raise (Exception ("Failed to save bookmark: " ++ ("Forbidden" : str))),
     {| trace := trace start
                 ++ [Print ("Adding " ++ PyStr.take 10 (modified_date (doc d))
                            ++ " - " ++ fmt (title (doc d)));
                     Sent (addition 8 d)];
        remote := tt |}).
Proof.
  intros d.
  apply (republish_stops_at_refusal unit read_only 8 d [d] start
           {| status_code := 403; text := "Forbidden"; json := [] |} tt).
  - reflexivity.
  - discriminate.
Defined.

Lemma choose_new_folder_name_returns
      (R : Type) (svc : services R) (folder_name : str) (target : option str)
      (w : world R) :
  exists name r,
    choose_new_folder_name R svc folder_name target w
    = (Ok name, {| trace := trace w; remote := r |}).
Proof.
  unfold choose_new_folder_name, generate_unique_folder_name.
  destruct (truthy target).
  - unfold ret. exists (get_or target []), (remote w). now destruct w.
  - unfold bind, ask, ret. destruct (uuid4 svc (remote w)) as [n r1].
    eexists _, r1. cbn [trace]. now rewrite app_nil_r.
Qed.

(** X12. Step 1 of either tool posts the user name and the password to
    the bookmark service for a token.  When the answer is not a 200, the
    tool ends there with "Failed to get access token: ..." carrying the
    response text: the token request is the last thing it did, so no
    credential file is looked for, and nothing else is asked of the
    bookmark service or of the document service. *)
Theorem token_refusal_is_fatal (R : Type) (svc : services R) :
  let token_request :=
    Sent (AccessToken (INSTAPAPER_USERNAME (settings svc))
                      (INSTAPAPER_PASSWORD (settings svc)) "client_auth") in
  (forall (folder_name : str) (target : option str) (w : world R)
          (resp : response) (r2 : R),
      access_token_post svc
        (remote (snd (choose_new_folder_name R svc folder_name target w)))
      = (resp, r2) ->
      status_code resp <> 200%Z ->
      exists name,
        fst (choose_new_folder_name R svc folder_name target w) = Ok name
        /\ main R svc folder_name target w
           = (Raise (Exception ("Failed to get access token: " ++ text resp)),
              {| trace := trace w
                          ++ [Print ("Scanning folder: " ++ folder_name);
                              Print ("New folder name: " ++ name);
                              token_request];
                 remote := r2 |}))
  /\ (forall (fuel : nat) (folder save_folder : str) (w : world R)
             (resp : response) (r2 : R),
        access_token_post svc (remote w) = (resp, r2) ->
        status_code resp <> 200%Z ->
        download_main R svc fuel folder save_folder w
        = (Raise (Exception ("Failed to get access token: " ++ text resp)),
           {| trace := trace w
                       ++ [Print ("Scanning folder: " ++ folder
                                  ++ ", downloading docs to " ++ save_folder);
                           token_request];
              remote := r2 |})).
Proof.
  intros token_request. split.
  - intros folder_name target w resp r2 Hp Hs.
    destruct (choose_new_folder_name_returns R svc folder_name target w)
      as (name & r & Hc).
    rewrite Hc in Hp. cbn [snd remote] in Hp.
    exists name. rewrite Hc. split; [reflexivity|].
    unfold main, sign_in, get_instapaper_access_token, access_token_of.
    unfold bind, print, emit, ask, lift. rewrite Hc. cbn [remote trace].
    rewrite Hp. apply Z.eqb_neq in Hs. rewrite Hs. cbn [token_result].
    now rewrite <- !app_assoc.
  - intros fuel folder save_folder w resp r2 Hp Hs.
    unfold download_main, sign_in, get_instapaper_access_token, access_token_of.
    unfold bind, print, emit, ask, lift. cbn [remote trace].
    rewrite Hp. apply Z.eqb_neq in Hs. rewrite Hs. cbn [token_result].
    now rewrite <- !app_assoc.
Qed.

Lemma token_refusal_is_fatal_witness :
  (exists name,
      fst (choose_new_folder_name unit locked_out "Reading" None start) = Ok name
      /\ main unit locked_out "Reading" None start
         = (Raise (Exception
                     ("Failed to get access token: "
                      ++ ("Invalid xAuth credentials." : str))),
            {| trace := trace start
                        ++ [Print ("Scanning folder: " ++ ("Reading" : str));
                            Print ("New folder name: " ++ name);
                            Sent (AccessToken "reader@example.org" "password"
                                              "client_auth")];
               remote := tt |}))
  /\ download_main unit locked_out 3 "Reading" "out" start
     = (Raise (Exception
                 ("Failed to get access token: "
                  ++ ("Invalid xAuth credentials." : str))),
        {| trace := trace start
                    ++ [Print ("Scanning folder: " ++ ("Reading" : str)
                               ++ ", downloading docs to " ++ ("out" : str));
                        Sent (AccessToken "reader@example.org" "password"
                                          "client_auth")];
           remote := tt |}).
Proof.
  split.
  - apply (proj1 (token_refusal_is_fatal unit locked_out)
                 "Reading" None start
                 {| status_code := 401; text := "Invalid xAuth credentials.";
                    json := [] |} tt).
    + reflexivity.
    + discriminate.
  - apply (proj2 (token_refusal_is_fatal unit locked_out)
                 3 "Reading" "out" start
                 {| status_code := 401; text := "Invalid xAuth credentials.";
                    json := [] |} tt).
    + reflexivity.
    + discriminate.
Defined.

(** ** More on the sort *)

Lemma sort_sorted_id (A : Type) (key : A -> str) (l : list A) :
  StronglySorted (key_le A key) l -> sort key l = l.
Proof.
  induction 1 as [|x l Hs IH Hx]; [reflexivity|].
  cbn [sort]. rewrite IH. destruct l as [|y l]; [reflexivity|].
  cbn [insert]. apply Forall_inv in Hx. unfold key_le, PyStr.le in Hx.
  apply negb_true_iff in Hx. now rewrite Hx.
Qed.

(** X13. A list whose dates never decrease is left as it is, so sorting
    twice is sorting once: a second reorganize run over bookmarks that
    are already in date order republishes them in the same order. *)
Theorem sort_keeps_sorted (docs_info : list aggregated_doc) :
  (StronglySorted (key_le aggregated_doc sort_key) docs_info ->
   sort sort_key docs_info = docs_info)
  /\ sort sort_key (sort sort_key docs_info) = sort sort_key docs_info.
Proof.
  split; [apply sort_sorted_id|]. apply sort_sorted_id, sort_sorted.
Qed.

Lemma sort_keeps_sorted_witness :
  let mk m u := {| doc := {| title := Some u; owner := "o"; modified_date := m |};
                   url := u |} in
  let l := [mk ("2023-01-10" : str) ("b" : str);
            mk ("2023-01-10" : str) ("a" : str);
            mk ("2023-05-01" : str) ("c" : str)] in
  sort sort_key l = l.
Proof.
  intros mk l. apply (proj1 (sort_keeps_sorted l)).
  repeat constructor.
Defined.

Lemma digit_before_unknown (c : code_point) (s : str) :
  is_digit c -> PyStr.lt (c :: s) "Unknown" = true.
Proof.
  intros [_ H]. change (literal "Unknown")
    with (("U"%char : code_point) :: literal "nknown").
  apply lt_cons. left. cbn in *. lia.
Qed.

(** X14. An entry whose modified date is the default ["Unknown"] stands
    after every entry whose date starts with a digit, as every timestamp
    does: documents without a modification time end up last. *)
Theorem unknown_dates_sort_last
        (docs_info : list aggregated_doc) (i j : nat) (a b : aggregated_doc)
        (c : code_point) (s : str) :
  nth_error (sort sort_key docs_info) i = Some a ->
  nth_error (sort sort_key docs_info) j = Some b ->
  modified_date (doc a) = c :: s ->
  is_digit c ->
  modified_date (doc b) = ("Unknown" : str) ->
  i < j.
Proof.
  intros Hi Hj Ha Hc Hb.
  assert (Hlt : PyStr.lt (sort_key a) (sort_key b) = true).
  { unfold sort_key. rewrite Ha, Hb. now apply digit_before_unknown. }
  destruct (Nat.lt_trichotomy i j) as [L | [E | G]]; [exact L | exfalso ..].
  - subst j. rewrite Hi in Hj. injection Hj as <-.
    rewrite lt_irrefl in Hlt. discriminate.
  - pose proof (sorted_positions _ _ _ (sort_sorted _ sort_key docs_info)
                                 j i b a Hj Hi G) as Hle.
    unfold key_le, PyStr.le in Hle. rewrite Hlt in Hle. discriminate.
Qed.

Lemma unknown_dates_sort_last_witness :
  let mk m u := {| doc := {| title := Some u; owner := "o"; modified_date := m |};
                   url := u |} in
  let a := mk ("2023-05-01T10:00:00.000Z" : str) ("a" : str) in
  let b := mk ("Unknown" : str) ("b" : str) in
  nth_error (sort sort_key [b; a]) 0 = Some a
  /\ nth_error (sort sort_key [b; a]) 1 = Some b
  /\ 0 < 1.
Proof.
  intros mk a b. repeat split.
  apply (unknown_dates_sort_last [b; a] 0 1 a b ("2"%char : code_point) "023-05-01T10:00:00.000Z");
    try reflexivity.
  split; cbn; lia.
Defined.

(** ** Download mode, case by case *)

(** X15. In download mode the identifier is extracted inside the guarded
    region: a URL without ['/d/'] gives [None] and the diagnostic of the
    index error; no file is opened and nothing is asked of the document
    service. *)
Theorem download_gdoc_no_d
        (R : Type) (svc : services R) (fuel : nat)
        (doc_url title_ save_folder : str) (w : world R) :
  ~ Substring "/d/" doc_url ->
  download_gdoc R svc fuel doc_url title_ save_folder w
  = (Ok None,
     {| trace := trace w
                 ++ [Print ("Error downloading Google Doc: list index out of range" : str)];
        remote := remote w |}).
Proof.
  intros H. unfold download_gdoc, try_except, bind, lift.
  rewrite (extract_doc_id_no_d _ H). reflexivity.
Qed.

Lemma download_gdoc_no_d_witness :
  download_gdoc unit (fixture_services three_docs) 3
    "https://docs.google.com/document/edit" "One" "out" start
  = (Ok None,
     {| trace := [Print ("Error downloading Google Doc: list index out of range" : str)];
        remote := tt |}).
Proof.
  apply (download_gdoc_no_d unit (fixture_services three_docs) 3
           "https://docs.google.com/document/edit" "One" "out" start).
  apply find_None. reflexivity.
Defined.

Lemma path_join_plain (a b : str) (c : code_point) (a' : str) :
  PyStr.startswith "/" b = false ->
  a = a' ++ [c] -> c <> ("/"%char : code_point) ->
  path_join a b = a ++ "/" ++ b.
Proof.
  intros Hb -> Hc. unfold path_join, endswith_slash. rewrite Hb.
  rewrite rev_app_distr. cbn [rev app].
  destruct (a' ++ [c]) eqn:E; [now destruct a'|].
  destruct (N.eqb_spec c ("/"%char : code_point)); [contradiction | reflexivity].
Qed.



Lemma try_except_bind_ok {R A B} (m : M R A) (k : A -> M R B)
      (handler : exn -> M R B) (w w1 : world R) (a : A) :
  m w = (Ok a, w1) ->
  try_except (bind m k) handler w = try_except (k a) handler w1.
Proof. intros H. unfold try_except, bind. now rewrite H. Qed.

(** X17. A title that starts with ['/'] takes the download out of the
    save folder: once the identifier is extracted and the service built,
    the one file [download_gdoc] opens is [title.docx] at the root the
    title names, whatever the save folder is. *)
Theorem download_gdoc_absolute_title
        (R : Type) (svc : services R) (fuel : nat)
        (doc_url title_ save_folder doc_id : str) (w : world R) (r1 : R) :
  extract_doc_id doc_url = Ok doc_id ->
  build svc (remote w) = (Ok tt, r1) ->
  filter is_open_wb
         (trace (snd (download_gdoc R svc fuel doc_url ("/" ++ title_) save_folder w)))
  = filter is_open_wb (trace w) ++ [OpenWb ("/" ++ title_ ++ ".docx")].
Proof.
  intros He Hb. unfold download_gdoc. cbv zeta.
  change (path_join save_folder (("/" ++ title_) ++ ".docx"))
    with ("/" ++ title_ ++ ".docx").
  rewrite (try_except_bind_ok _ _ _ w w doc_id) by (unfold lift; now rewrite He).
  rewrite (try_except_bind_ok _ _ _ w {| trace := trace w ++ []; remote := r1 |} tt)
    by (unfold attempt, bind, ask, lift; now rewrite Hb).
  destruct (open_wb svc ("/" ++ title_ ++ ".docx") r1) as [[[]|e] r2] eqn:Ho.
  - rewrite (try_except_bind_ok _ _ _ _
               {| trace := (trace w ++ []) ++ [OpenWb ("/" ++ title_ ++ ".docx")];
                  remote := r2 |} tt)
      by (unfold attempt, bind, ask, lift; cbn [remote trace]; now rewrite Ho).
    match goal with |- context [try_except ?m ?h ?w2] =>
      assert (S : silent is_open_wb (try_except m h)) end.
    { apply silent_try_except.
      - apply silent_bind; [apply silent_next_chunks; reflexivity | intros _].
        apply silent_bind; [apply silent_print_line; reflexivity|].
        intros _. apply silent_ret.
      - intros e. apply silent_bind; [apply silent_print_line; reflexivity|].
        intros _. apply silent_ret. }
    rewrite S. cbn [trace]. rewrite !filter_app. cbn [filter is_open_wb].
    now rewrite !app_nil_r.
  - unfold try_except, attempt, bind, ask, lift, print, emit, ret.
    cbn [remote trace]. rewrite Ho. cbn [remote trace].
    destruct (is_exception e); cbn [snd trace]; rewrite !filter_app;
      cbn [filter is_open_wb]; now rewrite !app_nil_r.
Qed.

Lemma download_gdoc_absolute_title_witness :
  filter is_open_wb
         (trace (snd (download_gdoc unit (fixture_services three_docs) 3
                        "https://docs.google.com/document/d/id1/edit"
                        ("/" ++ "tmp/notes") "out" start)))
  = filter is_open_wb (trace start) ++ [OpenWb ("/" ++ "tmp/notes" ++ ".docx")].
Proof.
  apply (download_gdoc_absolute_title unit (fixture_services three_docs) 3
           "https://docs.google.com/document/d/id1/edit" "tmp/notes" "out" "id1"
           start tt);
    reflexivity.
Defined.

Lemma for_each_app {R A} (l1 l2 : list A) (body : A -> M R unit) (w : world R) :
  for_each (l1 ++ l2) body w
  = match for_each l1 body w with
    | (Ok _, w1) => for_each l2 body w1
    | (Raise e, w1) => (Raise e, w1)
    end.
Proof.
  revert w; induction l1 as [|x l1 IH]; intros w; [reflexivity|].
  cbn [app for_each]. unfold bind.
  destruct (body x w) as [[[]|e] w1]; [apply IH | reflexivity].
Qed.

Lemma for_each_download
      (R : Type) (svc : services R) (fuel : nat) (save_folder : str) :
  uninterrupted svc -> ends_within svc fuel -> 0 < fuel ->
  forall bookmarks,
    Forall (fun b => item_title b <> None /\ item_url b <> None) bookmarks ->
    forall w,
      for_each bookmarks (download_bookmark R svc fuel save_folder) w
      = (Ok tt, fold_left (after_bookmark R svc fuel save_folder) bookmarks w).
Proof.
  intros Hexn Hends Hfuel. induction 1 as [|b bs [Ht Hu] _ IH]; intros w;
    [reflexivity|].
  destruct (item_title b) as [t|] eqn:Et; [|congruence].
  destruct (item_url b) as [u|] eqn:Eu; [|congruence].
  destruct (download_bookmark_runs R svc fuel save_folder Hexn Hends Hfuel
                                   b t u w Et Eu) as (o & w1 & _ & Eb).
  cbn [for_each fold_left]. unfold bind, after_bookmark at 2.
  rewrite Eb. apply IH.
Qed.



(** ** The synthesized folder name *)

Lemma hex_digit_is_hex (d : N) : (d < 16)%N -> is_hex_digit (hex_digit d).
Proof.
  intros H. unfold is_hex_digit, hex_digit. apply nth_In. cbn. lia.
Qed.

Lemma hex_digits_hex (width : nat) (n : N) : Forall is_hex_digit (hex_digits width n).
Proof.
  revert n; induction width as [|k IH]; intros n; cbn [hex_digits]; [constructor|].
  apply Forall_app. split; [apply IH|].
  constructor; [|constructor]. apply hex_digit_is_hex.
  apply N.mod_lt. discriminate.
Qed.

Lemma Forall_take (P : code_point -> Prop) (n : nat) (s : str) :
  Forall P s -> Forall P (PyStr.take n s).
Proof.
  intros H. rewrite Forall_forall in *. intros c Hc. apply H.
  unfold PyStr.take in Hc. rewrite <- (firstn_skipn n s).
  apply in_or_app. now left.
Qed.

(** X19. Without a usable [--target] the destination name is the source
    name, a hyphen and four lower-case hexadecimal digits: it is never
    the source name itself, so the run never adds the bookmarks to the
    folder it reads; and choosing the name prints nothing and sends
    nothing. *)
Theorem synthesized_name_is_not_the_source
        (R : Type) (svc : services R) (folder_name : str) (target : option str)
        (w : world R) :
  truthy target = false ->
  exists suffix w',
    choose_new_folder_name R svc folder_name target w
    = (Ok (folder_name ++ "-" ++ suffix), w')
    /\ length suffix = 4
    /\ Forall is_hex_digit suffix
    /\ folder_name ++ "-" ++ suffix <> folder_name
    /\ trace w' = trace w.
Proof.
  intros Ht. unfold choose_new_folder_name, generate_unique_folder_name.
  rewrite Ht. unfold bind, ask, ret.
  destruct (uuid4 svc (remote w)) as [n r1].
  exists (PyStr.take 4 (uuid_str n)). eexists. split; [reflexivity|].
  destruct (uuid_suffix n) as [E L]. split; [exact L|]. split; [|split].
  - rewrite E. apply Forall_take, hex_digits_hex.
  - intros H. apply (f_equal (@length code_point)) in H.
    rewrite !length_app in H. cbn in H. lia.
  - cbn [trace]. apply app_nil_r.
Qed.

Lemma synthesized_name_is_not_the_source_witness :
  exists suffix w',
    choose_new_folder_name unit (fixture_services three_docs) "Reading" (Some []) start
    = (Ok (("Reading" : str) ++ "-" ++ suffix), w')
    /\ length suffix = 4
    /\ Forall is_hex_digit suffix
    /\ ("Reading" : str) ++ "-" ++ suffix <> ("Reading" : str)
    /\ trace w' = trace start.
Proof.
  apply (synthesized_name_is_not_the_source unit (fixture_services three_docs)
           "Reading" (Some []) start).
  reflexivity.
Defined.

(** ** One metadata request per bookmark *)

Section GatherRequests.

Variable R : Type.
Variable svc : services R.

Lemma fetch_some_trace (doc_url : str) (w w1 : world R) (d : doc_info) :
  fetch_google_doc_info R svc doc_url w = (Ok (Some d), w1) ->
  exists doc_id,
    extract_doc_id doc_url = Ok doc_id
    /\ trace w1 = trace w ++ [Sent (FilesGet doc_id metadata_fields)].
Proof.
  unfold fetch_google_doc_info. step_monad.
  destruct (extract_doc_id doc_url) as [doc_id|e] eqn:He; [|discriminate].
  destruct (build svc (remote w)) as [[[]|e] r1] eqn:Hb; cbn [remote trace];
    [|discriminate].
  destruct (files_get svc doc_id metadata_fields r1) as [[fm|e] r2] eqn:Hg;
    cbn [remote trace]; [|destruct (is_exception e); discriminate].
  unfold index.
  destruct (owners fm) as [[|u us]|]; cbn; try discriminate;
    intros [= _ <-]; exists doc_id; (split; [reflexivity|]);
    cbn [trace]; now rewrite app_nil_r.
Qed.

Lemma gather_requests (bookmarks : list item) :
  forall docs_info w docs w',
    gather R svc bookmarks docs_info w = (Ok docs, w') ->
    exists ids,
      Forall2 (fun b doc_id =>
                 exists u, item_url b = Some u /\ extract_doc_id u = Ok doc_id)
              bookmarks ids
      /\ filter is_files_get (trace w')
         = filter is_files_get (trace w)
           ++ map (fun doc_id => Sent (FilesGet doc_id metadata_fields)) ids.
Proof.
  induction bookmarks as [|b bs IH]; intros docs_info w docs w' H.
  - cbn in H. injection H as _ <-. exists []. split; [constructor|].
    cbn. now rewrite app_nil_r.
  - cbn [gather] in H.
    apply bind_ok_inv in H. destruct H as (u & w0 & Hu & H).
    unfold lift in Hu. injection Hu as Hu <-.
    apply bind_ok_inv in H. destruct H as (od & w1 & Hf & H).
    apply bind_ok_inv in H. destruct H as (t & w1' & Ht & H).
    unfold lift in Ht. injection Ht as Ht <-.
    apply bind_ok_inv in H. destruct H as (d & w1' & Hd & H).
    unfold lift in Hd. injection Hd as Hd <-.
    destruct od as [d0|]; [|discriminate]. injection Hd as ->.
    apply bind_ok_inv in H. destruct H as ([] & w2 & Hp & H).
    unfold print, emit in Hp. injection Hp as <-.
    apply IH in H. destruct H as (ids & Hids & Htr).
    destruct (fetch_some_trace _ _ _ _ Hf) as (doc_id & He & Htr1).
    exists (doc_id :: ids). split.
    + constructor; [|exact Hids]. exists u. split; [|exact He].
      destruct (item_url b); [now injection Hu as -> | discriminate].
    + rewrite Htr. cbn [trace]. rewrite Htr1, !filter_app.
      cbn [filter is_files_get map]. rewrite app_nil_r, <- app_assoc.
      reflexivity.
Qed.

End GatherRequests.

(** X20. A step 4 that completes has asked the document service for the
    metadata of every bookmark exactly once, by the identifier extracted
    from the bookmark's address, in the order of the listing. *)
Theorem gather_asks_once_per_bookmark
        (R : Type) (svc : services R) (bookmarks : list item)
        (w w' : world R) (docs : list aggregated_doc) :
  gather R svc bookmarks [] w = (Ok docs, w') ->
  exists ids,
    Forall2 (fun b doc_id =>
               exists u, item_url b = Some u /\ extract_doc_id u = Ok doc_id)
            bookmarks ids
    /\ filter is_files_get (trace w')
       = filter is_files_get (trace w)
         ++ map (fun doc_id => Sent (FilesGet doc_id metadata_fields)) ids.
Proof. apply gather_requests. Qed.

Lemma gather_asks_once_per_bookmark_witness :
  exists ids,
    Forall2 (fun b doc_id =>
               exists u, item_url b = Some u /\ extract_doc_id u = Ok doc_id)
            (fx_bookmarks two_docs) ids
    /\ filter is_files_get
         (trace (snd (gather unit (fixture_services two_docs)
                        (fx_bookmarks two_docs) [] start)))
       = filter is_files_get (trace start)
         ++ map (fun doc_id => Sent (FilesGet doc_id metadata_fields)) ids.
Proof.
  apply (gather_asks_once_per_bookmark unit (fixture_services two_docs)
           (fx_bookmarks two_docs) start
           (snd (gather unit (fixture_services two_docs) (fx_bookmarks two_docs) [] start))
           (match fst (gather unit (fixture_services two_docs)
                         (fx_bookmarks two_docs) [] start) with
            | Ok docs => docs
            | Raise _ => []
            end)).
  reflexivity.
Defined.

(** ** Round trips of [split] *)

(** X21. [split] loses nothing, [sep.join(s.split(sep))] is [s] for every
    non-empty separator; and for a one-character separator it undoes
    [join] on pieces that do not hold the separator. *)
Theorem split_join_round_trip :
  (forall sep s : str, sep <> [] -> PyStr.join sep (PyStr.split sep s) = s)
  /\ (forall (c : code_point) (pieces : list str),
        pieces <> [] ->
        Forall (fun p => ~ In c p) pieces ->
        PyStr.split [c] (PyStr.join [c] pieces) = pieces).
Proof.
  split.
  - intros sep s Hsep. unfold PyStr.split. now apply join_split_fuel.
  - exact split_join_char.
Qed.

Lemma split_join_round_trip_witness :
  PyStr.join "/d/" (PyStr.split "/d/" "https://docs.google.com/document/d/id/d/x")
  = ("https://docs.google.com/document/d/id/d/x" : str)
  /\ PyStr.split "&" (PyStr.join "&" [("a=1" : str); ("" : str); ("b=2" : str)])
     = [("a=1" : str); ("" : str); ("b=2" : str)].
Proof.
  split.
  - apply (proj1 split_join_round_trip). discriminate.
  - apply (proj2 split_join_round_trip ("&"%char : code_point)).
    + discriminate.
    + repeat constructor; cbn; intuition discriminate.
Defined.

(** ** More edges of the pipeline *)

(** X22. An answer of the document service whose owner list is present
    but empty is a failed fetch, whatever else it holds: the index error
    of [[0]] is caught, its diagnostic printed after the request, and the
    sentinel returned. *)
Theorem fetch_empty_owner_list
        (R : Type) (svc : services R) (doc_url doc_id : str) (w : world R)
        (r1 r2 : R) (fm : file_metadata) :
  extract_doc_id doc_url = Ok doc_id ->
  build svc (remote w) = (Ok tt, r1) ->
  files_get svc doc_id metadata_fields r1 = (Ok fm, r2) ->
  owners fm = Some [] ->
  fetch_google_doc_info R svc doc_url w
  = (Ok None,
     {| trace := trace w
                 ++ [Sent (FilesGet doc_id metadata_fields);
                     Print ("Error retrieving metadata: list index out of range" : str)];
        remote := r2 |}).
Proof.
  intros He Hb Hg Ho. unfold fetch_google_doc_info. step_monad.
  rewrite He, Hb. cbn [remote trace]. rewrite Hg. cbn [remote trace].
  rewrite Ho. cbn. now rewrite app_nil_r, <- app_assoc.
Qed.

Lemma fetch_empty_owner_list_witness :
  let svc := fixture_services
               {| fx_token := token_granted; fx_added := ok_response [];
                  fx_folders := []; fx_bookmarks := [];
                  fx_files := fun _ =>
                    Ok {| name := Some ("Orphan" : str); owners := Some [];
                          modifiedTime := Some ("2024-02-29T00:00:00.000Z" : str) |};
                  fx_chunks := fun _ => ([], None); fx_uuid := 0%N |} in
  fetch_google_doc_info unit svc "https://docs.google.com/document/d/id9/edit" start
  = (Ok None,
     {| trace := trace start
                 ++ [Sent (FilesGet "id9" metadata_fields);
                     Print ("Error retrieving metadata: list index out of range" : str)];
        remote := tt |}).
Proof.
  intros svc.
  apply (fetch_empty_owner_list unit svc
           "https://docs.google.com/document/d/id9/edit" "id9" start tt tt
           {| name := Some ("Orphan" : str); owners := Some [];
              modifiedTime := Some ("2024-02-29T00:00:00.000Z" : str) |});
    reflexivity.
Defined.

(** X23. When step 4 raises, for whatever reason, the run ends with that
    exception before anything is written: no folder has been created and
    no bookmark added. *)
Theorem reorganize_fails_before_writing
        (R : Type) (svc : services R) (folder_name new_folder_name : str)
        (w w1 w2 : world R) (bookmarks : list item) (e : exn) :
  get_instapaper_bookmarks R svc folder_name w = (Ok bookmarks, w1) ->
  gather R svc bookmarks [] w1 = (Raise e, w2) ->
  reorganize R svc folder_name new_folder_name w = (Raise e, w2)
  /\ filter is_bookmark_service_write (trace w2)
     = filter is_bookmark_service_write (trace w).
Proof.
  intros H1 H2. split.
  - unfold reorganize, bind. now rewrite H1, H2.
  - pose proof (silent_bookmarks R svc is_bookmark_service_write folder_name
                  eq_refl (fun _ _ => eq_refl) w) as S1.
    pose proof (silent_gather R svc is_bookmark_service_write (fun _ => eq_refl)
                  (fun _ _ => eq_refl) bookmarks [] w1) as S2.
    rewrite H1 in S1. rewrite H2 in S2. cbn [snd] in *. now rewrite S2, S1.
Qed.

Lemma reorganize_fails_before_writing_witness :
  reorganize unit (fixture_services three_docs) "Reading" "Sorted" start
  = (Raise TypeError,
     snd (gather unit (fixture_services three_docs)
            (google_doc_bookmarks (fx_bookmarks three_docs)) []
            (snd (get_instapaper_bookmarks unit (fixture_services three_docs)
                    "Reading" start))))
  /\ filter is_bookmark_service_write
       (trace (snd (gather unit (fixture_services three_docs)
                      (google_doc_bookmarks (fx_bookmarks three_docs)) []
                      (snd (get_instapaper_bookmarks unit (fixture_services three_docs)
                              "Reading" start)))))
     = filter is_bookmark_service_write (trace start).
Proof.
  apply (reorganize_fails_before_writing unit (fixture_services three_docs)
           "Reading" "Sorted" start
           (snd (get_instapaper_bookmarks unit (fixture_services three_docs)
                   "Reading" start))
           _ (google_doc_bookmarks (fx_bookmarks three_docs)) TypeError);
    reflexivity.
Defined.
